(** * AssembledTransaction: the lifecycle of one contract invocation

    A shallow embedding of [src/contract/assembled_transaction.ts].

    The class wraps a transaction under construction.  Its fields become a
    record, its methods become functions in a state-and-exception monad over
    that record, and everything the class only calls (the XDR codec, the
    transaction builder of stellar-base, the RPC server, the submission
    tracker, the wallet callbacks) is a collaborator: a field of a type
    class, or a function stored in the options. *)

From Stdlib Require Import Ascii String ZArith Lia.
From stdpp Require Import base option list strings.
From Ceres Require Ceres.

Local Open Scope string_scope.
Local Open Scope Z_scope.

(** ** Wire values *)

(** [XDR_BASE64] of [./types]: a base64 string holding an XDR value. *)
Definition XDR_BASE64 : Type := string.

(** The XDR structures the class looks into.  They belong to stellar-base;
    only the parts the class reads are kept, the remainder of each value is
    carried as an uninterpreted payload. *)
Module xdr.

(** [xdr.ScVal]: the arm name ([switch().name]) and the arm's content. *)
Record ScVal : Type := { switch_name : string; value : string }.

Definition scvVoid : ScVal := {| switch_name := "scvVoid"; value := EmptyString |}.

(** [xdr.SorobanAddressCredentials].  The address is kept in the rendering
    [Address.fromScAddress(a).toString()] gives: a strkey, [G...] for an
    account and [C...] for a contract. *)
Record SorobanAddressCredentials : Type := {
  address : string;
  nonce : Z;
  signatureExpirationLedger : Z;
  signature : ScVal
}.

(** [xdr.SorobanCredentials], a union over [xdr.SorobanCredentialsType]. *)
Inductive SorobanCredentials : Type :=
| sorobanCredentialsSourceAccount
| sorobanCredentialsAddress (c : SorobanAddressCredentials).

Record SorobanAuthorizationEntry : Type := {
  credentials : SorobanCredentials;
  rootInvocation : string
}.

Record LedgerFootprint : Type := {
  readOnly : list string;
  readWrite : list string
}.

Record SorobanResources : Type := {
  footprint : LedgerFootprint;
  instructions : Z
}.

Record SorobanTransactionData : Type := {
  resources : SorobanResources;
  resourceFee : Z
}.

End xdr.

(** [SorobanDataBuilder]: the class only ever calls [build()] on it. *)
Record SorobanDataBuilder : Type := { SorobanDataBuilder_build : xdr.SorobanTransactionData }.

(** ** Transactions of stellar-base *)

Record Account : Type := { accountId : string; sequenceNumber : Z }.

(** [account.incrementSequenceNumber()].  [TransactionBuilder.build()] calls
    it on the account the builder was created with, which is an object the
    caller may still hold. *)
Definition incrementSequenceNumber (account : Account) : Account :=
  {| accountId := accountId account; sequenceNumber := sequenceNumber account + 1 |}.

Record InvokeContractArgs : Type := {
  contractAddress : string;
  functionName : string;
  invokeArgs : list xdr.ScVal
}.

(** [xdr.HostFunction], a union over [xdr.HostFunctionType]: a contract
    invocation, or one of the host functions that create a contract or
    upload its code, whose arguments are carried uninterpreted. *)
Inductive HostFunction : Type :=
| hostFunctionTypeInvokeContract (invokeContract : InvokeContractArgs)
| hostFunctionTypeCreateContract (createContract : string)
| hostFunctionTypeUploadContractWasm (wasm : string)
| hostFunctionTypeCreateContractV2 (createContractV2 : string).

(** [Operation]: an invoke-host-function operation carries the optional
    [auth] array; no other operation has an [auth] property. *)
Inductive Operation : Type :=
| InvokeHostFunction (func : HostFunction) (auth : option (list xdr.SorobanAuthorizationEntry))
| RestoreFootprint
| OtherOperation (type : string).

(** [op.auth]: [undefined] when the operation has no such property. *)
Definition Operation_auth (op : Operation) : option (list xdr.SorobanAuthorizationEntry) :=
  match op with
  | InvokeHostFunction _ a => a
  | _ => None
  end.

(** [op.auth = a], the assignment an in-place array write amounts to. *)
Definition Operation_set_auth (op : Operation) (a : list xdr.SorobanAuthorizationEntry) : Operation :=
  match op with
  | InvokeHostFunction f _ => InvokeHostFunction f (Some a)
  | _ => op
  end.

(** [Tx = Transaction<Memo, Operation[]>]. *)
Module Transaction.
Record Tx : Type := {
  source : string;
  fee : string;
  sequence : Z;
  timeBounds : option (Z * Z);
  operations : list Operation;
  sorobanData : option xdr.SorobanTransactionData;
  signatures : list string
}.
End Transaction.
Abbreviation Tx := Transaction.Tx.

(** [TransactionBuilder]: what was configured on it, in the order the class
    configures it.  Turning it into a transaction is the collaborator's
    [build]. *)
Module TransactionBuilder.
Record t : Type := {
  source : Account;
  fee : string;
  networkPassphrase : string;
  operations : list Operation;
  timeout : option Z;
  sorobanData : option xdr.SorobanTransactionData
}.

(** [new TransactionBuilder(account, { fee, networkPassphrase })] *)
Definition new (account : Account) (fee : string) (networkPassphrase : string) : t :=
  {| source := account; fee := fee; networkPassphrase := networkPassphrase;
     operations := []; timeout := None; sorobanData := None |}.

Definition addOperation (op : Operation) (b : t) : t :=
  {| source := source b; fee := fee b; networkPassphrase := networkPassphrase b;
     operations := (operations b ++ [op])%list; timeout := timeout b;
     sorobanData := sorobanData b |}.

Definition setTimeout (seconds : Z) (b : t) : t :=
  {| source := source b; fee := fee b; networkPassphrase := networkPassphrase b;
     operations := operations b; timeout := Some seconds;
     sorobanData := sorobanData b |}.

Definition setSorobanData (d : xdr.SorobanTransactionData) (b : t) : t :=
  {| source := source b; fee := fee b; networkPassphrase := networkPassphrase b;
     operations := operations b; timeout := timeout b;
     sorobanData := Some d |}.

(** The second argument of [TransactionBuilder.cloneFrom]. *)
Record CloneOptions : Type := {
  clone_fee : string;
  clone_timebounds : option (Z * Z);
  clone_sorobanData : xdr.SorobanTransactionData
}.
End TransactionBuilder.

(** ** RPC responses *)

Module Api.

Record SimulateHostFunctionResult : Type := {
  auth : list xdr.SorobanAuthorizationEntry;
  retval : xdr.ScVal
}.

Record SimulateTransactionSuccess : Type := {
  transactionData : SorobanDataBuilder;
  minResourceFee : string;
  result : option SimulateHostFunctionResult
}.

Record RestorePreamble : Type := {
  restore_minResourceFee : string;
  restore_transactionData : SorobanDataBuilder
}.

(** Modelled from the spec: [Api.SimulateTransactionResponse] and its
    classifiers [isSimulationError], [isSimulationRestore] and
    [isSimulationSuccess] are declared in [../rpc/api], which is not among
    the sources.  The spec has a simulation response classified into one of
    three shapes: error, restore-required, success.  It does not say whether
    [isSimulationSuccess] also accepts a restore-required response, which
    comes with the fields of a success; that is left open, as the argument
    [restoreIsSuccess]. *)
Inductive SimulateTransactionResponse : Type :=
| SimulateTransactionErrorResponse (error : string)
| SimulateTransactionRestoreResponse (restorePreamble : RestorePreamble)
| SimulateTransactionSuccessResponse (body : SimulateTransactionSuccess).

Definition isSimulationError (sim : SimulateTransactionResponse) : bool :=
  match sim with SimulateTransactionErrorResponse _ => true | _ => false end.

Definition isSimulationRestore (sim : SimulateTransactionResponse) : bool :=
  match sim with SimulateTransactionRestoreResponse _ => true | _ => false end.

Definition isSimulationSuccess (restoreIsSuccess : bool) (sim : SimulateTransactionResponse) : bool :=
  match sim with
  | SimulateTransactionSuccessResponse _ => true
  | SimulateTransactionRestoreResponse _ => restoreIsSuccess
  | SimulateTransactionErrorResponse _ => false
  end.

Inductive GetTransactionStatus : Type := SUCCESS | NOT_FOUND | FAILED.

Record GetTransactionResponse : Type := {
  status : GetTransactionStatus;
  txHash : string
}.

End Api.

(** [SentTransaction]: the class reads one field of it. *)
Record SentTransaction : Type := {
  getTransactionResponse : option Api.GetTransactionResponse
}.

(** ** Failures *)

(** What a method can throw.  [AssembledTransaction.Errors] is the closed
    list of named classes; every other [throw] of the class is a plain
    [Error] told apart by its message.  [TypeError_] is the engine's own
    failure on a property read from [undefined]; [Rejected] is a failure
    raised inside a collaborator (a rejected RPC promise, a wallet that
    declines, bytes the codec cannot decode). *)
Inductive Failure : Type :=
| Error_ (message : string)
| TypeError_ (message : string)
| Rejected (reason : string)
| ExpiredState
| RestorationFailure (attempt : option Api.GetTransactionResponse)
| NeedsMoreSignatures (sigsNeeded : list string)
| NoSignatureNeeded
| NoUnsignedNonInvokerAuthEntries
| NoSigner
| NotYetSimulated
| FakeAccount.

(** The result of running a method: it returns, it throws, or (only for the
    recursive [simulate]) the recursion budget given to the model ran out
    before the method finished. *)
Inductive Outcome (A : Type) : Type :=
| Return (a : A)
| Throw (e : Failure)
| OutOfFuel.
Arguments Return {A} a.
Arguments Throw {A} e.
Arguments OutOfFuel {A}.

(** What a collaborator gives back: its answer, or its own failure (a
    rejected RPC promise, a wallet that declines, an entry that cannot be
    authorized).  Such a failure is foreign to the class's error list; the
    class lets it pass as it is. *)
Inductive Answer (A : Type) : Type :=
| Answered (a : A)
| Declined (reason : string).
Arguments Answered {A} a.
Arguments Declined {A} reason.

(** The names the specification gives to the plain errors. *)
Definition NotYetBuilt : Failure := Error_ "Transaction has not yet been simulated".

Definition quoted (s : string) : string :=
  String (Ascii.ascii_of_nat 34) (s ++ String (Ascii.ascii_of_nat 34) EmptyString).

Definition SimulationFailed (error : string) : Failure :=
  Error_ ("Transaction simulation failed: " ++ quoted error).

(** ** Options *)

(** [ClientOptions["signTransaction"]]: the wire envelope and the network
    passphrase go in, the signed wire envelope comes out. *)
Definition SignTransaction : Type := XDR_BASE64 -> string -> Answer XDR_BASE64.

(** [ClientOptions["signAuthEntry"]]: the preimage and [accountToSign] go
    in, the base64 signature comes out. *)
Definition SignAuthEntry : Type := XDR_BASE64 -> string -> Answer string.

(** The type of stellar-base's [authorizeEntry]: entry, signer, expiration
    ledger, network passphrase. *)
Definition AuthorizeEntry : Type :=
  xdr.SorobanAuthorizationEntry -> (XDR_BASE64 -> Answer string) -> Z -> string ->
  Answer xdr.SorobanAuthorizationEntry.

Module Opt.
Record AssembledTransactionOptions : Type := {
  method : string;
  args : option (list xdr.ScVal);
  contractId : string;
  networkPassphrase : string;
  rpcUrl : string;
  publicKey : option string;
  fee : option string;
  timeoutInSeconds : option Z;
  simulate : option bool;
  restore : option bool;
  signTransaction : option SignTransaction;
  signAuthEntry : option SignAuthEntry
}.

(** [this.options.simulate = v] *)
Definition set_simulate (v : option bool) (o : AssembledTransactionOptions) : AssembledTransactionOptions :=
  {| method := method o; args := args o; contractId := contractId o;
     networkPassphrase := networkPassphrase o; rpcUrl := rpcUrl o;
     publicKey := publicKey o; fee := fee o; timeoutInSeconds := timeoutInSeconds o;
     simulate := v; restore := restore o;
     signTransaction := signTransaction o; signAuthEntry := signAuthEntry o |}.
End Opt.

(** ** The class *)

Record AssembledTransaction : Type := {
  options : Opt.AssembledTransactionOptions;
  raw : option TransactionBuilder.t;
  built : option Tx;
  simulation : option Api.SimulateTransactionResponse;
  simulationResult : option Api.SimulateHostFunctionResult;
  simulationTransactionData : option xdr.SorobanTransactionData;
  signed : option Tx
}.

(** Field assignments and [delete]s. *)
Definition set_raw (v : option TransactionBuilder.t) (t : AssembledTransaction) : AssembledTransaction :=
  {| options := options t; raw := v; built := built t; simulation := simulation t;
     simulationResult := simulationResult t;
     simulationTransactionData := simulationTransactionData t; signed := signed t |}.

Definition set_built (v : option Tx) (t : AssembledTransaction) : AssembledTransaction :=
  {| options := options t; raw := raw t; built := v; simulation := simulation t;
     simulationResult := simulationResult t;
     simulationTransactionData := simulationTransactionData t; signed := signed t |}.

Definition set_simulation (v : option Api.SimulateTransactionResponse) (t : AssembledTransaction) : AssembledTransaction :=
  {| options := options t; raw := raw t; built := built t; simulation := v;
     simulationResult := simulationResult t;
     simulationTransactionData := simulationTransactionData t; signed := signed t |}.

Definition set_simulationResult (v : option Api.SimulateHostFunctionResult) (t : AssembledTransaction) : AssembledTransaction :=
  {| options := options t; raw := raw t; built := built t; simulation := simulation t;
     simulationResult := v;
     simulationTransactionData := simulationTransactionData t; signed := signed t |}.

Definition set_simulationTransactionData (v : option xdr.SorobanTransactionData) (t : AssembledTransaction) : AssembledTransaction :=
  {| options := options t; raw := raw t; built := built t; simulation := simulation t;
     simulationResult := simulationResult t;
     simulationTransactionData := v; signed := signed t |}.

Definition set_signed (v : option Tx) (t : AssembledTransaction) : AssembledTransaction :=
  {| options := options t; raw := raw t; built := built t; simulation := simulation t;
     simulationResult := simulationResult t;
     simulationTransactionData := simulationTransactionData t; signed := v |}.

(** ** The monad of methods *)

(** A computation over a mutable state [S] that returns or throws; the
    state is kept when it throws, as a thrown exception leaves the fields
    written so far in place. *)
Definition M (S A : Type) : Type := S -> Outcome A * S.

Definition ret {S A : Type} (a : A) : M S A := fun s => (Return a, s).

Definition throw {S A : Type} (e : Failure) : M S A := fun s => (Throw e, s).

Definition bind {S A B : Type} (c : M S A) (k : A -> M S B) : M S B :=
  fun s =>
    match c s with
    | (Return a, s') => k a s'
    | (Throw e, s') => (Throw e, s')
    | (OutOfFuel, s') => (OutOfFuel, s')
    end.

Definition get {S : Type} : M S S := fun s => (Return s, s).

Definition modify {S : Type} (f : S -> S) : M S unit := fun s => (Return tt, f s).

(** A call of a method that touches no state. *)
Definition liftOutcome {S A : Type} (o : Outcome A) : M S A := fun s => (o, s).

(** A collaborator called or [await]ed: its failure is thrown on. *)
Definition liftAnswer {S A : Type} (a : Answer A) : M S A :=
  fun s =>
    match a with
    | Answered v => (Return v, s)
    | Declined reason => (Throw (Rejected reason), s)
    end.

Notation "'let!' x ':=' c1 'in' c2" := (bind c1 (fun x => c2))
  (at level 10, x name, c1 at level 100, c2 at level 200).
Notation "'do!' c1 'in' c2" := (bind c1 (fun _ => c2))
  (at level 10, c1 at level 100, c2 at level 200).

(** ** Accessors that need no network *)

(** JavaScript truthiness of an optional string: [undefined] and the empty
    string are falsy. *)
Definition truthy_string (s : option string) : bool :=
  match s with
  | Some (String _ _) => true
  | _ => false
  end.

(** [get simulationData()] *)
Definition simulationData : M AssembledTransaction (Api.SimulateHostFunctionResult * xdr.SorobanTransactionData) :=
  let! this := get in
  match simulationResult this, simulationTransactionData this with
  | Some r, Some d => ret (r, d)
  | _, _ =>
    match simulation this with
    | None => throw NotYetSimulated
    | Some sim =>
      if Api.isSimulationError sim then
        throw (match sim with
               | Api.SimulateTransactionErrorResponse error => SimulationFailed error
               | _ => SimulationFailed EmptyString
               end)
      else if Api.isSimulationRestore sim then throw ExpiredState
      else
        match sim with
        | Api.SimulateTransactionSuccessResponse body =>
          let r := match Api.result body with
                   | Some r => r
                   | None => {| Api.auth := []; Api.retval := xdr.scvVoid |}
                   end in
          let d := SorobanDataBuilder_build (Api.transactionData body) in
          do! modify (set_simulationResult (Some r)) in
          do! modify (set_simulationTransactionData (Some d)) in
          ret (r, d)
        | _ => throw (TypeError_ "Cannot read properties of undefined (reading 'build')")
        end
    end
  end.

(** [get isReadCall()] *)
Definition isReadCall : M AssembledTransaction bool :=
  let! d1 := simulationData in
  let authsCount := length (Api.auth (fst d1)) in
  let! d2 := simulationData in
  let writeLength := length (xdr.readWrite (xdr.footprint (xdr.resources (snd d2)))) in
  ret (Nat.eqb authsCount 0 && Nat.eqb writeLength 0).

(** [[...new Set(l)]]: the distinct elements of [l], each at the place of
    its first occurrence. *)
Fixpoint Set_from (seen : list string) (l : list string) : list string :=
  match l with
  | [] => []
  | x :: l' =>
    if bool_decide (x ∈ seen) then Set_from seen l' else x :: Set_from (x :: seen) l'
  end.

Definition spread_Set (l : list string) : list string := Set_from [] l.

(** The filter of [needsNonInvokerSigningBy]: address credentials, and,
    unless already signed entries are wanted too, a signature that is still
    [scvVoid]. *)
Definition awaitsSignature (includeAlreadySigned : bool) (entry : xdr.SorobanAuthorizationEntry) : bool :=
  match xdr.credentials entry with
  | xdr.sorobanCredentialsAddress c =>
    includeAlreadySigned || String.eqb (xdr.switch_name (xdr.signature c)) "scvVoid"
  | xdr.sorobanCredentialsSourceAccount => false
  end.

(** [Address.fromScAddress(entry.credentials().address().address()).toString()];
    [credentials().address()] throws on the other arm of the union. *)
Definition entryAddress (entry : xdr.SorobanAuthorizationEntry) : option string :=
  match xdr.credentials entry with
  | xdr.sorobanCredentialsAddress c => Some (xdr.address c)
  | xdr.sorobanCredentialsSourceAccount => None
  end.

(** [needsNonInvokerSigningBy({ includeAlreadySigned })].  [Tx] always has
    [operations], so the check for that property never fires. *)
Definition needsNonInvokerSigningBy (includeAlreadySigned : bool) (this : AssembledTransaction) : Outcome (list string) :=
  match built this with
  | None => Throw NotYetBuilt
  | Some tx =>
    match Transaction.operations tx !! 0%nat with
    | None => Throw (TypeError_ "Cannot read properties of undefined (reading 'auth')")
    | Some rawInvokeHostFunctionOp =>
      let selected :=
        List.filter (awaitsSignature includeAlreadySigned)
                    (default [] (Operation_auth rawInvokeHostFunctionOp)) in
      match mapM entryAddress selected with
      | Some addresses => Return (spread_Set addresses)
      | None => Throw (TypeError_ "Bad union switch")
      end
    end
  end.

(** [id.startsWith('C')] *)
Definition startsWith_C (id : string) : bool :=
  match id with
  | String c _ => Ascii.eqb c "C"%char
  | EmptyString => false
  end.

(** [ids.filter(id => !id.startsWith('C'))] *)
Definition walletSigners (ids : list string) : list string :=
  List.filter (fun id => negb (startsWith_C id)) ids.

(** ** Collaborators *)

(** What the class imports and calls without defining: stellar-base's
    builder, codec and [authorizeEntry], [assembleTransaction] of
    [../rpc/transaction], two constants, and what [Api.isSimulationSuccess]
    says of a restore-required response.  A decoder answers [None] where the
    real one throws. *)
Class Collaborators : Type := {
  DEFAULT_TIMEOUT : Z;
  BASE_FEE : string;
  restoreResponseIsSuccess : bool;
  TransactionBuilder_build : TransactionBuilder.t -> Tx;
  TransactionBuilder_cloneFrom : Tx -> TransactionBuilder.CloneOptions -> TransactionBuilder.t;
  TransactionBuilder_fromXDR : XDR_BASE64 -> string -> option Tx;
  Tx_toXDR : Tx -> XDR_BASE64;
  assembleTransaction : Tx -> Api.SimulateTransactionResponse -> TransactionBuilder.t;
  Contract_call : string -> string -> list xdr.ScVal -> Operation;
  stellarBaseAuthorizeEntry : AuthorizeEntry;
  SorobanAuthorizationEntry_toXDR : xdr.SorobanAuthorizationEntry -> XDR_BASE64;
  SorobanAuthorizationEntry_fromXDR : XDR_BASE64 -> option xdr.SorobanAuthorizationEntry;
  ScVal_toXDR : xdr.ScVal -> XDR_BASE64;
  ScVal_fromXDR : XDR_BASE64 -> option xdr.ScVal;
  SorobanTransactionData_toXDR : xdr.SorobanTransactionData -> XDR_BASE64;
  SorobanTransactionData_fromXDR : XDR_BASE64 -> option xdr.SorobanTransactionData;
  SorobanCredentials_toXDR : xdr.SorobanCredentials -> string;
  SorobanCredentials_fromXDR : string -> option xdr.SorobanCredentials
}.

(** One entry per call that leaves the process, oldest first. *)
Inductive Event : Type :=
| EvGetAccount (publicKey : option string)
| EvSimulateTransaction (tx : Tx)
| EvGetLatestLedger
| EvSentTransactionInit (signed : Tx).

Definition World : Type := list Event.

(** The RPC server behind [options.rpcUrl] together with the submission
    tracker [SentTransaction.init]: each answer may depend on the request
    and on everything that happened before. *)
Class Network : Type := {
  getAccount : World -> option string -> Answer Account;
  simulateTransaction : World -> Tx -> Answer Api.SimulateTransactionResponse;
  getLatestLedger_sequence : World -> Answer Z;
  SentTransaction_init : World -> Tx -> Answer SentTransaction
}.

(** [private constructor(public options)].  After the two lines kept here
    the constructor creates [this.server = new Server(options.rpcUrl,
    { allowHttp })], a class of [../rpc] that refuses some URLs; the options
    record has no [allowHttp] and that refusal is not modelled.  The
    properties below say that the constructor returns only for the options
    of a call that exists, whose URL it has accepted before; of a call made
    from other options they speak once it was returned. *)
Definition new_AssembledTransaction (options : Opt.AssembledTransactionOptions) : Outcome AssembledTransaction :=
  if negb (truthy_string (Opt.publicKey options)) then
    Throw (Error_ "Public key not provided. Have you forgotten to set the `publicKey` in AssembledTransactionOptions?")
  else
    Return {| options := Opt.set_simulate (Some (default true (Opt.simulate options))) options;
              raw := None; built := None; simulation := None;
              simulationResult := None; simulationTransactionData := None;
              signed := None |}.

Section Methods.
Context {collaborators : Collaborators} {network : Network}.

(** A method of the object inside a computation that also talks to the
    network. *)
Definition onThis {A : Type} (c : M AssembledTransaction A) : M (AssembledTransaction * World) A :=
  fun s => let '(o, this') := c (fst s) in (o, (this', snd s)).

(** A call that leaves the process: answered from the history so far, then
    recorded. *)
Definition rpc {A : Type} (ev : Event) (answer : World -> Answer A) : M World A :=
  fun w =>
    (match answer w with
     | Answered v => Return v
     | Declined reason => Throw (Rejected reason)
     end,
     (w ++ [ev])%list).

(** A static method: no [this], only the network. *)
Definition static {A : Type} (c : M World A) : M (AssembledTransaction * World) A :=
  fun s => let '(o, w') := c (snd s) in (o, (fst s, w')).

Definition call {A : Type} (ev : Event) (answer : World -> Answer A) : M (AssembledTransaction * World) A :=
  static (rpc ev answer).

(** [TransactionBuilder.cloneFrom(built, { fee: built.fee, timebounds:
    undefined, sorobanData }).setTimeout(timeoutInSeconds).build()], with
    [timeoutInSeconds = options.timeoutInSeconds ?? DEFAULT_TIMEOUT]. *)
Definition refinalize (options : Opt.AssembledTransactionOptions) (tx : Tx)
    (sorobanData : xdr.SorobanTransactionData) : Tx :=
  let timeoutInSeconds := default DEFAULT_TIMEOUT (Opt.timeoutInSeconds options) in
  TransactionBuilder_build
    (TransactionBuilder.setTimeout timeoutInSeconds
       (TransactionBuilder_cloneFrom tx
          {| TransactionBuilder.clone_fee := Transaction.fee tx;
             TransactionBuilder.clone_timebounds := None;
             TransactionBuilder.clone_sorobanData := sorobanData |})).

(** A parameter with a default taken from the options, as in
    [{ signTransaction = this.options.signTransaction }], and [a ?? b]. *)
Definition orOption {A : Type} (argument fromOptions : option A) : option A :=
  match argument with
  | Some f => Some f
  | None => fromOptions
  end.

(** [sign({ force, signTransaction })] *)
Definition sign (force : option bool) (signTransaction : option SignTransaction) : M AssembledTransaction unit :=
  let! this := get in
  let force := default false force in
  let signTransaction := orOption signTransaction (Opt.signTransaction (options this)) in
  match built this with
  | None => throw (Error_ "Transaction has not yet been simulated.")
  | Some _ =>
    let! readCall := (if negb force then isReadCall else ret false) in
    if readCall then throw NoSignatureNeeded
    else
      match signTransaction with
      | None => throw NoSigner
      | Some signTransaction =>
        let! this := get in
        let! needed := liftOutcome (needsNonInvokerSigningBy false this) in
        let sigsNeeded := walletSigners needed in
        if negb (Nat.eqb (length sigsNeeded) 0) then throw (NeedsMoreSignatures sigsNeeded)
        else
          match built this with
          | None => throw (TypeError_ "Cannot read properties of undefined (reading 'fee')")
          | Some tx =>
            let! d := simulationData in
            let rebuilt := refinalize (options this) tx (snd d) in
            do! modify (set_built (Some rebuilt)) in
            let! signature :=
              liftAnswer (signTransaction (Tx_toXDR rebuilt) (Opt.networkPassphrase (options this))) in
            match TransactionBuilder_fromXDR signature (Opt.networkPassphrase (options this)) with
            | None => throw (Rejected "TransactionBuilder.fromXDR")
            | Some envelope => modify (set_signed (Some envelope))
            end
          end
      end
  end.

(** [send()] *)
Definition send : M (AssembledTransaction * World) SentTransaction :=
  let! s := get in
  match signed (fst s) with
  | None => throw (Error_ "The transaction has not yet been signed. Run `sign` first, or use `signAndSend` instead.")
  | Some envelope => call (EvSentTransactionInit envelope) (fun w => SentTransaction_init w envelope)
  end.

(** [signAndSend({ force, signTransaction })] *)
Definition signAndSend (force : option bool) (signTransaction : option SignTransaction) : M (AssembledTransaction * World) SentTransaction :=
  let! s := get in
  let force := default false force in
  let signTransaction := orOption signTransaction (Opt.signTransaction (options (fst s))) in
  do! (match signed (fst s) with
       | None => onThis (sign (Some force) signTransaction)
       | Some _ => ret tt
       end) in
  send.

(** *** Signing authorization entries *)

(** [authEntries[i] = v] inside [this.built.operations[0].auth]: the array
    the loop writes to is the operation's own.  Whether that array is also
    held elsewhere (the builder of stellar-base keeps the array it is handed,
    so after [assembleTransaction] it can be the [auth] array of the
    simulation result) is decided outside this file; the model follows the
    operation's array only, and nothing is stated of the simulation result
    once entries were written. *)
Definition write_auth (authEntries : list xdr.SorobanAuthorizationEntry) (this : AssembledTransaction) : AssembledTransaction :=
  match built this with
  | None => this
  | Some tx =>
    match Transaction.operations tx !! 0%nat with
    | None => this
    | Some op =>
      set_built
        (Some {| Transaction.source := Transaction.source tx;
                 Transaction.fee := Transaction.fee tx;
                 Transaction.sequence := Transaction.sequence tx;
                 Transaction.timeBounds := Transaction.timeBounds tx;
                 Transaction.operations :=
                   <[0%nat := Operation_set_auth op authEntries]> (Transaction.operations tx);
                 Transaction.sorobanData := Transaction.sorobanData tx;
                 Transaction.signatures := Transaction.signatures tx |})
        this
    end
  end.

(** The body of [for (const [i, entry] of authEntries.entries())], from
    index [i] on, for at most [n] more rounds.  [authorize] is the call of
    [authorizeEntry] with everything but the entry filled in.  The array is
    returned as the loop left it, also when a round throws. *)
Fixpoint signLoop (authorize : xdr.SorobanAuthorizationEntry -> Answer xdr.SorobanAuthorizationEntry)
    (address : option string) (n i : nat) (authEntries : list xdr.SorobanAuthorizationEntry)
    : Outcome unit * list xdr.SorobanAuthorizationEntry :=
  match n with
  | O => (Return tt, authEntries)
  | S n' =>
    match authEntries !! i with
    | None => (Return tt, authEntries)
    | Some entry =>
      match SorobanCredentials_fromXDR (SorobanCredentials_toXDR (xdr.credentials entry)) with
      | None => (Throw (Rejected "SorobanCredentials.fromXDR"), authEntries)
      | Some xdr.sorobanCredentialsSourceAccount => signLoop authorize address n' (S i) authEntries
      | Some (xdr.sorobanCredentialsAddress c) =>
        let authEntryAddress := xdr.address c in
        if negb (bool_decide (Some authEntryAddress = address)) then
          signLoop authorize address n' (S i) authEntries
        else
          match authorize entry with
          | Answered authorized => signLoop authorize address n' (S i) (<[i := authorized]> authEntries)
          | Declined reason => (Throw (Rejected reason), authEntries)
          end
      end
    end
  end.

(** [signAuthEntry ?? Promise.resolve], as called by the closure handed to
    [authorizeEntry]: [Promise.resolve] detached from [Promise] throws. *)
Definition entrySigner (signAuthEntry : option SignAuthEntry) (address : option string) : XDR_BASE64 -> Answer string :=
  fun preimage =>
    match signAuthEntry with
    | Some sign => sign preimage (default EmptyString address)
    | None => Declined "TypeError: PromiseResolve called on non-object"
    end.

(** The [expiration] parameter once bound: the value passed, or the default
    [(async () => (await this.server.getLatestLedger()).sequence + 100)()].
    The default is a promise created when the parameters are bound, so the
    ledger is asked then; what the promise settles to is seen where it is
    awaited. *)
Definition bindExpiration (expiration : option Z) : M (AssembledTransaction * World) (Answer Z) :=
  match expiration with
  | Some e => ret (Answered e)
  | None =>
    fun s =>
      (Return (match getLatestLedger_sequence (snd s) with
               | Answered sequence => Answered (sequence + 100)
               | Declined reason => Declined reason
               end),
       (fst s, (snd s ++ [EvGetLatestLedger])%list))
  end.

(** [authorizeEntry(entry, signer, await expiration, networkPassphrase)] *)
Definition authorizeWith (authorizeEntry : AuthorizeEntry) (signer : XDR_BASE64 -> Answer string)
    (expiration : Answer Z) (networkPassphrase : string)
    (entry : xdr.SorobanAuthorizationEntry) : Answer xdr.SorobanAuthorizationEntry :=
  match expiration with
  | Answered validUntil => authorizeEntry entry signer validUntil networkPassphrase
  | Declined reason => Declined reason
  end.

(** The block under [if (authorizeEntry === stellarBaseAuthorizeEntry)]. *)
Definition defaultStrategyChecks (signAuthEntry : option SignAuthEntry) (address : option string)
    (this : AssembledTransaction) : Outcome unit :=
  match needsNonInvokerSigningBy false this with
  | Return needsNonInvokerSigningBy =>
    if Nat.eqb (length needsNonInvokerSigningBy) 0 then
      Throw NoUnsignedNonInvokerAuthEntries
    else if negb (bool_decide (default EmptyString address ∈ needsNonInvokerSigningBy)) then
      Throw NoSignatureNeeded
    else
      match signAuthEntry with
      | None => Throw NoSigner
      | Some _ => Return tt
      end
  | Throw e => Throw e
  | OutOfFuel => OutOfFuel
  end.

(** [signAuthEntries({ expiration, signAuthEntry, address, authorizeEntry })].
    [authorizeEntry = None] stands for the default, stellar-base's own
    [authorizeEntry]. *)
Definition signAuthEntries (expiration : option Z) (signAuthEntry : option SignAuthEntry)
    (address : option string) (authorizeEntry : option AuthorizeEntry)
    : M (AssembledTransaction * World) unit :=
  let! expiration := bindExpiration expiration in
  let! s := get in
  let this := fst s in
  let signAuthEntry := orOption signAuthEntry (Opt.signAuthEntry (options this)) in
  let address := orOption address (Opt.publicKey (options this)) in
  match built this with
  | None => throw (Error_ "Transaction has not yet been assembled or simulated")
  | Some tx =>
    do! (match authorizeEntry with
         | Some _ => ret tt
         | None => liftOutcome (defaultStrategyChecks signAuthEntry address this)
         end) in
    match Transaction.operations tx !! 0%nat with
    | None => throw (TypeError_ "Cannot read properties of undefined (reading 'auth')")
    | Some rawInvokeHostFunctionOp =>
      let authorize :=
        authorizeWith (default stellarBaseAuthorizeEntry authorizeEntry)
          (entrySigner signAuthEntry address) expiration
          (Opt.networkPassphrase (options this)) in
      match Operation_auth rawInvokeHostFunctionOp with
      | None => ret tt
      | Some authEntries =>
        let '(outcome, authEntries') :=
          signLoop authorize address (length authEntries) 0 authEntries in
        do! onThis (modify (write_auth authEntries')) in
        liftOutcome outcome
      end
    end
  end.

(** *** Serialization *)

Record JSON_simulationResult : Type := {
  json_auth : list XDR_BASE64;
  json_retval : XDR_BASE64
}.

(** The object [toJSON] hands to [JSON.stringify], which is also what
    [JSON.parse] gives back to the caller of [fromJSON]: strings and arrays
    of strings survive both unchanged, and a property whose value is
    [undefined] is dropped and reads as [undefined] again. *)
Record JSON : Type := {
  json_method : string;
  json_tx : option XDR_BASE64;
  json_simulationResult : JSON_simulationResult;
  json_simulationTransactionData : XDR_BASE64
}.

(** [toJSON()] *)
Definition toJSON : M AssembledTransaction JSON :=
  let! this := get in
  let method := Opt.method (options this) in
  let tx := Tx_toXDR <$> built this in
  let! d1 := simulationData in
  let auth := map SorobanAuthorizationEntry_toXDR (Api.auth (fst d1)) in
  let! d2 := simulationData in
  let retval := ScVal_toXDR (Api.retval (fst d2)) in
  let! d3 := simulationData in
  ret {| json_method := method;
         json_tx := tx;
         json_simulationResult := {| json_auth := auth; json_retval := retval |};
         json_simulationTransactionData := SorobanTransactionData_toXDR (snd d3) |}.

(** [static fromJSON(options, { tx, simulationResult, simulationTransactionData })] *)
Definition fromJSON (options : Opt.AssembledTransactionOptions) (json : JSON) : Outcome AssembledTransaction :=
  match new_AssembledTransaction options with
  | Return txn =>
    match json_tx json with
    | None => Throw (TypeError_ "TransactionBuilder.fromXDR")
    | Some tx =>
      match TransactionBuilder_fromXDR tx (Opt.networkPassphrase options) with
      | None => Throw (Rejected "TransactionBuilder.fromXDR")
      | Some built =>
        match mapM SorobanAuthorizationEntry_fromXDR (json_auth (json_simulationResult json)) with
        | None => Throw (Rejected "SorobanAuthorizationEntry.fromXDR")
        | Some auth =>
          match ScVal_fromXDR (json_retval (json_simulationResult json)) with
          | None => Throw (Rejected "ScVal.fromXDR")
          | Some retval =>
            match SorobanTransactionData_fromXDR (json_simulationTransactionData json) with
            | None => Throw (Rejected "SorobanTransactionData.fromXDR")
            | Some data =>
              Return (set_simulationTransactionData (Some data)
                        (set_simulationResult (Some {| Api.auth := auth; Api.retval := retval |})
                           (set_built (Some built) txn)))
            end
          end
        end
      end
    end
  | Throw e => Throw e
  | OutOfFuel => OutOfFuel
  end.

(** *** Simulation and footprint restoration *)

(** A method run on another object [obj] than [this]; the object comes back
    with the result when the method returns. *)
Definition withObject {A : Type} (obj : AssembledTransaction) (c : M (AssembledTransaction * World) A)
    : M World (A * AssembledTransaction) :=
  fun w =>
    match c (obj, w) with
    | (Return a, s') => (Return (a, fst s'), snd s')
    | (Throw e, s') => (Throw e, snd s')
    | (OutOfFuel, s') => (OutOfFuel, snd s')
    end.

(** The draft of the contract call, as [build] and [simulate] both write
    it: [new TransactionBuilder(account, { fee: options.fee ?? BASE_FEE,
    networkPassphrase }).addOperation(contract.call(method, ...(args ?? [])))
    .setTimeout(timeoutInSeconds ?? DEFAULT_TIMEOUT)]. *)
Definition invokeDraft (options : Opt.AssembledTransactionOptions) (account : Account) : TransactionBuilder.t :=
  TransactionBuilder.setTimeout (default DEFAULT_TIMEOUT (Opt.timeoutInSeconds options))
    (TransactionBuilder.addOperation
       (Contract_call (Opt.contractId options) (Opt.method options) (default [] (Opt.args options)))
       (TransactionBuilder.new account (default BASE_FEE (Opt.fee options))
          (Opt.networkPassphrase options))).

(** The draft of the restore transaction. *)
Definition restoreDraft (options : Opt.AssembledTransactionOptions)
    (sorobanData : SorobanDataBuilder + xdr.SorobanTransactionData) (account : Account) (fee : string)
    : TransactionBuilder.t :=
  TransactionBuilder.setTimeout (default DEFAULT_TIMEOUT (Opt.timeoutInSeconds options))
    (TransactionBuilder.addOperation RestoreFootprint
       (TransactionBuilder.setSorobanData
          (match sorobanData with
           | inl builder => SorobanDataBuilder_build builder
           | inr data => data
           end)
          (TransactionBuilder.new account fee (Opt.networkPassphrase options)))).

(** The type of [simulate]: [{ restore }] in, [this] updated. *)
Definition Simulate : Type := option bool -> M (AssembledTransaction * World) unit.

(** [private static buildFootprintRestoreTransaction(options, sorobanData,
    account, fee)], given the [simulate] it calls. *)
Definition buildFootprintRestoreTransaction (simulate : Simulate)
    (options : Opt.AssembledTransactionOptions)
    (sorobanData : SorobanDataBuilder + xdr.SorobanTransactionData)
    (account : Account) (fee : string) : M World AssembledTransaction :=
  let! tx := liftOutcome (new_AssembledTransaction options) in
  let tx := set_raw (Some (restoreDraft options sorobanData account fee)) tx in
  let! simulated := withObject tx (simulate (Some false)) in
  ret (snd simulated).

(** [restoreFootprint(restorePreamble, account?)], given the [simulate] its
    restore transaction is simulated with. *)
Definition restoreFootprint_with (simulate : Simulate)
    (restorePreamble : Api.RestorePreamble) (account : option Account)
    : M (AssembledTransaction * World) Api.GetTransactionResponse :=
  let! s := get in
  let this := fst s in
  match Opt.signTransaction (options this) with
  | None =>
    throw (Error_ "For automatic restore to work you must provide a signTransaction function when initializing your Client")
  | Some _ =>
    let! account :=
      match account with
      | Some a => ret a
      | None =>
        call (EvGetAccount (Opt.publicKey (options this)))
             (fun w => getAccount w (Opt.publicKey (options this)))
      end in
    let! restoreTx :=
      static (buildFootprintRestoreTransaction simulate (options this)
                (inl (Api.restore_transactionData restorePreamble)) account
                (Api.restore_minResourceFee restorePreamble)) in
    let! sent := static (withObject restoreTx (signAndSend None None)) in
    match getTransactionResponse (fst sent) with
    | None => throw (RestorationFailure None)
    | Some response => ret response
    end
  end.

(** [simulate({ restore })].  The method calls itself after a restore and is
    called by the restore transaction it builds, so the model recurses on a
    budget of nested calls: [fuel] is the depth it may reach.  The [account]
    the new draft is made with after a restore is the object that was handed
    to [restoreFootprint]: the restore transaction was built on it, once, so
    its sequence number is one more than what the server answered. *)
Fixpoint simulate (fuel : nat) (restore : option bool) {struct fuel} : M (AssembledTransaction * World) unit :=
  match fuel with
  | O => fun s => (OutOfFuel, s)
  | S fuel' =>
    let! s := get in
    let this := fst s in
    let! built :=
      match built this with
      | Some tx => ret tx
      | None =>
        match raw this with
        | None =>
          throw (Error_ "Transaction has not yet been assembled; call `AssembledTransaction.build` first.")
        | Some raw =>
          let tx := TransactionBuilder_build raw in
          do! onThis (modify (set_built (Some tx))) in
          ret tx
        end
      end in
    let restore := orOption restore (Opt.restore (options this)) in
    do! onThis (modify (set_simulationResult None)) in
    do! onThis (modify (set_simulationTransactionData None)) in
    let! sim := call (EvSimulateTransaction built) (fun w => simulateTransaction w built) in
    do! onThis (modify (set_simulation (Some sim))) in
    if default false restore && Api.isSimulationRestore sim then
      match sim with
      | Api.SimulateTransactionRestoreResponse restorePreamble =>
        let! account :=
          call (EvGetAccount (Opt.publicKey (options this)))
               (fun w => getAccount w (Opt.publicKey (options this))) in
        let! result := restoreFootprint_with (simulate fuel') restorePreamble (Some account) in
        match Api.status result with
        | Api.SUCCESS =>
          do! onThis (modify (set_raw (Some (invokeDraft (options this)
                                               (incrementSequenceNumber account))))) in
          simulate fuel' None
        | _ => throw (RestorationFailure (Some result))
        end
      | _ => throw (TypeError_ "Cannot read properties of undefined (reading 'restorePreamble')")
      end
    else if Api.isSimulationSuccess restoreResponseIsSuccess sim then
      onThis (modify (set_built (Some (TransactionBuilder_build (assembleTransaction built sim)))))
    else ret tt
  end.

(** [restoreFootprint(restorePreamble, account?)] *)
Definition restoreFootprint (fuel : nat) : Api.RestorePreamble -> option Account ->
    M (AssembledTransaction * World) Api.GetTransactionResponse :=
  restoreFootprint_with (simulate fuel).

(** [static build(options)] *)
Definition build (fuel : nat) (opts : Opt.AssembledTransactionOptions) : M World AssembledTransaction :=
  if negb (truthy_string (Opt.publicKey opts)) then
    throw (Error_ "Public key not provided. Have you forgotten to set the `publicKey` in AssembledTransactionOptions?")
  else
    let! tx := liftOutcome (new_AssembledTransaction opts) in
    let! account :=
      rpc (EvGetAccount (Opt.publicKey opts)) (fun w => getAccount w (Opt.publicKey opts)) in
    let tx := set_raw (Some (invokeDraft opts account)) tx in
    if default false (Opt.simulate (options tx)) then
      let! simulated := withObject tx (simulate fuel None) in
      ret (snd simulated)
    else ret tx.

End Methods.

(** ** The wire envelope *)

(** [xdr.TransactionEnvelope] of stellar-base and the four calls [toXDR]
    and [fromXDR] make around it: [built.toEnvelope()],
    [envelope.toXDR("base64")], [xdr.TransactionEnvelope.fromXDR(s,
    "base64")], and [TransactionBuilder.fromXDR] handed an envelope instead
    of a string.  A decoder answers [None] where the real one throws. *)
Class EnvelopeCodec : Type := {
  TransactionEnvelope : Type;
  Tx_toEnvelope : Tx -> TransactionEnvelope;
  TransactionEnvelope_toXDR : TransactionEnvelope -> XDR_BASE64;
  TransactionEnvelope_fromXDR : XDR_BASE64 -> option TransactionEnvelope;
  TransactionBuilder_fromEnvelope : TransactionEnvelope -> string -> option Tx
}.

(** [{ ...options, method }] *)
Definition Opt_with_method (method : string) (o : Opt.AssembledTransactionOptions)
    : Opt.AssembledTransactionOptions :=
  {| Opt.method := method; Opt.args := Opt.args o; Opt.contractId := Opt.contractId o;
     Opt.networkPassphrase := Opt.networkPassphrase o; Opt.rpcUrl := Opt.rpcUrl o;
     Opt.publicKey := Opt.publicKey o; Opt.fee := Opt.fee o;
     Opt.timeoutInSeconds := Opt.timeoutInSeconds o;
     Opt.simulate := Opt.simulate o; Opt.restore := Opt.restore o;
     Opt.signTransaction := Opt.signTransaction o; Opt.signAuthEntry := Opt.signAuthEntry o |}.

Section Envelope.
Context {envelopeCodec : EnvelopeCodec}.

(** [toXDR()] *)
Definition toXDR (this : AssembledTransaction) : Outcome XDR_BASE64 :=
  match built this with
  | None =>
    Throw (Error_ "Transaction has not yet been simulated; call `AssembledTransaction.simulate` first.")
  | Some tx => Return (TransactionEnvelope_toXDR (Tx_toEnvelope tx))
  end.

(** [static fromXDR(options, encodedXDR, spec)].  [operation?.func?.value]
    is there for an invoke-host-function operation only, and
    [operation.func.value()] is the content of the arm of the host function:
    [xdr.InvokeContractArgs], with its [functionName], for a contract
    invocation, and a value with no such property for every other arm.
    [spec] goes into the decoder [parseResultXdr] and nowhere else. *)
Definition fromXDR (options : Opt.AssembledTransactionOptions) (encodedXDR : string)
    : Outcome AssembledTransaction :=
  match TransactionEnvelope_fromXDR encodedXDR with
  | None => Throw (Rejected "TransactionEnvelope.fromXDR")
  | Some envelope =>
    match TransactionBuilder_fromEnvelope envelope (Opt.networkPassphrase options) with
    | None => Throw (Rejected "TransactionBuilder.fromXDR")
    | Some built =>
      match Transaction.operations built !! 0%nat with
      | Some (InvokeHostFunction func _) =>
        match func with
        | hostFunctionTypeInvokeContract invokeContractArgs =>
          let method := functionName invokeContractArgs in
          match new_AssembledTransaction (Opt_with_method method options) with
          | Return txn => Return (set_built (Some built) txn)
          | Throw e => Throw e
          | OutOfFuel => OutOfFuel
          end
        | _ => Throw (Error_ "Could not extract the method name from the transaction envelope.")
        end
      | _ => Throw (Error_ "Could not extract the method from the transaction envelope.")
      end
    end
  end.

End Envelope.

(** ** The decoded result *)

(** An entry of [options.errorTypes], which is also what [Err] of
    [./rust_result] wraps. *)
Record ErrorMessage : Type := { message : string }.

(** The two options only [result] reads: the decoder, which may throw, and
    the table of contract errors by code. *)
Record ResultOptions (T : Type) : Type := {
  parseResultXdr : xdr.ScVal -> Answer T;
  errorTypes : option (Z -> option ErrorMessage)
}.
Arguments parseResultXdr {T} _ _.
Arguments errorTypes {T} _.

(** What [result] and [parseError] take from elsewhere, all three open:
    [implementsToString(e)] followed by [e.toString()], as the text of a
    thrown value or nothing; [errorMessage.match(contractErrorPattern)], as
    no match or the first capture [match[1]], both of [./utils]; and
    [parseInt(s, 10)], with [NaN] as nothing. *)
Class ErrorRendering : Type := {
  thrownText : Failure -> option string;
  contractErrorPattern_match : string -> option (option string);
  parseInt10 : option string -> option Z
}.

Section Result.
Context {errorRendering : ErrorRendering} {T : Type}.

(** [private parseError(errorMessage)]; [errorTypes[NaN]] is [undefined]. *)
Definition parseError (o : ResultOptions T) (errorMessage : string) : option ErrorMessage :=
  match errorTypes o with
  | None => None
  | Some table =>
    match contractErrorPattern_match errorMessage with
    | None => None
    | Some capture =>
      match parseInt10 capture with
      | None => None
      | Some i => table i
      end
    end
  end.

(** The [catch (e)] block of [result]. *)
Definition resultCatch (o : ResultOptions T) (e : Failure)
    : M AssembledTransaction (T + ErrorMessage) :=
  match thrownText e with
  | None => throw e
  | Some text =>
    match parseError o text with
    | Some err => ret (inr err)
    | None => throw e
    end
  end.

(** [get result()].  [simulationData.result] is an object whenever the
    accessor returns, so [No simulation result!] is never thrown; the
    accessor is read twice. *)
Definition result (o : ResultOptions T) : M AssembledTransaction (T + ErrorMessage) :=
  fun this =>
    match simulationData this with
    | (Return _, this1) =>
      match simulationData this1 with
      | (Return d, this2) =>
        match parseResultXdr o (Api.retval (fst d)) with
        | Answered v => (Return (inl v), this2)
        | Declined reason => resultCatch o (Rejected reason) this2
        end
      | (Throw e, this2) => resultCatch o e this2
      | (OutOfFuel, this2) => (OutOfFuel, this2)
      end
    | (Throw e, this1) => resultCatch o e this1
    | (OutOfFuel, this1) => (OutOfFuel, this1)
    end.

End Result.

(** ** Proof vocabulary *)

Arguments simulationData : simpl never.
Arguments isReadCall : simpl never.
Arguments needsNonInvokerSigningBy : simpl never.
Arguments refinalize : simpl never.

Ltac run_monad :=
  unfold bind, ret, throw, get, modify, liftOutcome, liftAnswer, onThis, call,
    static, rpc, withObject in *;
  cbn [fst snd] in *.

(** Whether both cache fields are populated. *)
Definition cachePopulated (this : AssembledTransaction) : bool :=
  match simulationResult this, simulationTransactionData this with
  | Some _, Some _ => true
  | _, _ => false
  end.

(** [this.simulationResult = r; this.simulationTransactionData = d] *)
Definition memoize (r : Api.SimulateHostFunctionResult) (d : xdr.SorobanTransactionData)
    (this : AssembledTransaction) : AssembledTransaction :=
  set_simulationTransactionData (Some d) (set_simulationResult (Some r) this).

(** [simulation.result ?? { auth: [], retval: xdr.ScVal.scvVoid() }] *)
Definition resultOrDefault (body : Api.SimulateTransactionSuccess) : Api.SimulateHostFunctionResult :=
  default {| Api.auth := []; Api.retval := xdr.scvVoid |} (Api.result body).

(** The check [!force && this.isReadCall] let the call through, leaving
    the object as [this1]: either [force] was set and the accessor was not
    read, or it was read and answered false. *)
Definition passesReadCheck (force : option bool) (this this1 : AssembledTransaction) : Prop :=
  (default false force = true /\ this1 = this) \/
  (default false force = false /\ isReadCall this = (Return false, this1)).

(** The authorization entries of the first operation of the finalized
    transaction: [this.built.operations[0].auth ?? []]. *)
Definition authEntriesOf (this : AssembledTransaction) : list xdr.SorobanAuthorizationEntry :=
  match built this with
  | Some tx =>
    match Transaction.operations tx !! 0%nat with
    | Some op => default [] (Operation_auth op)
    | None => []
    end
  | None => []
  end.

(** The entry has address credentials and their address is [address]. *)
Definition heldBy (address : option string) (entry : xdr.SorobanAuthorizationEntry) : Prop :=
  exists c, xdr.credentials entry = xdr.sorobanCredentialsAddress c /\
            Some (xdr.address c) = address.

Section Vocabulary.
Context {collaborators : Collaborators} {network : Network}.

(** What the bound [expiration] settles to, and the history once it is
    bound. *)
Definition pendingExpiration (expiration : option Z) (w : World) : Answer Z :=
  match expiration with
  | Some e => Answered e
  | None =>
    match getLatestLedger_sequence w with
    | Answered sequence => Answered (sequence + 100)
    | Declined reason => Declined reason
    end
  end.

Definition afterBinding (expiration : option Z) (w : World) : World :=
  match expiration with
  | Some _ => w
  | None => (w ++ [EvGetLatestLedger])%list
  end.

(** The codec gives the credentials of [entry] back unchanged. *)
Definition credentialsSurviveCodec (entry : xdr.SorobanAuthorizationEntry) : Prop :=
  SorobanCredentials_fromXDR (SorobanCredentials_toXDR (xdr.credentials entry))
  = Some (xdr.credentials entry).

(** What is left of [sign] once the read check has let the call through. *)
Definition signAfterReadCheck (signTransaction : option SignTransaction) (tx : Tx)
    (this1 : AssembledTransaction) : Outcome unit * AssembledTransaction :=
  match signTransaction with
  | None => (Throw NoSigner, this1)
  | Some f =>
    match needsNonInvokerSigningBy false this1 with
    | Return ids =>
      if negb (Nat.eqb (length (walletSigners ids)) 0) then
        (Throw (NeedsMoreSignatures (walletSigners ids)), this1)
      else
        match simulationData this1 with
        | (Return d, this2) =>
          let rebuilt := refinalize (options this1) tx (snd d) in
          match f (Tx_toXDR rebuilt) (Opt.networkPassphrase (options this1)) with
          | Answered signature =>
            match TransactionBuilder_fromXDR signature (Opt.networkPassphrase (options this1)) with
            | Some envelope =>
              (Return tt, set_signed (Some envelope) (set_built (Some rebuilt) this2))
            | None => (Throw (Rejected "TransactionBuilder.fromXDR"), set_built (Some rebuilt) this2)
            end
          | Declined reason => (Throw (Rejected reason), set_built (Some rebuilt) this2)
          end
        | (Throw e, this2) => (Throw e, this2)
        | (OutOfFuel, this2) => (OutOfFuel, this2)
        end
    | Throw e => (Throw e, this1)
    | OutOfFuel => (OutOfFuel, this1)
    end
  end.

(** [if (!this.built) { ...; this.built = this.raw.build() }]: the
    transaction to simulate and the object holding it, or nothing when
    there is no draft either. *)
Definition ensureBuilt (this : AssembledTransaction) : option (Tx * AssembledTransaction) :=
  match built this with
  | Some tx => Some (tx, this)
  | None =>
    match raw this with
    | Some draft =>
      Some (TransactionBuilder_build draft, set_built (Some (TransactionBuilder_build draft)) this)
    | None => None
    end
  end.

(** [delete this.simulationResult; delete this.simulationTransactionData] *)
Definition clearCache (this : AssembledTransaction) : AssembledTransaction :=
  set_simulationTransactionData None (set_simulationResult None this).

(** What [simulate] does when it does not restore: finalize if needed,
    clear the cache, ask the server, keep the response, fold a success into
    the transaction. *)
Definition simulateOnce (this : AssembledTransaction) (w : World)
    : Outcome unit * (AssembledTransaction * World) :=
  match ensureBuilt this with
  | None =>
    (Throw (Error_ "Transaction has not yet been assembled; call `AssembledTransaction.build` first."),
     (this, w))
  | Some (tx, this0) =>
    match simulateTransaction w tx with
    | Declined reason =>
      (Throw (Rejected reason), (clearCache this0, (w ++ [EvSimulateTransaction tx])%list))
    | Answered sim =>
      let this2 := set_simulation (Some sim) (clearCache this0) in
      (Return tt,
       (if Api.isSimulationSuccess restoreResponseIsSuccess sim then
          set_built (Some (TransactionBuilder_build (assembleTransaction tx sim))) this2
        else this2,
        (w ++ [EvSimulateTransaction tx])%list))
    end
  end.

(** The restore-required response the simulation of [this] comes back with,
    when it does: the preamble, the object holding the response, and the
    history. *)
Definition restoreRequired (this : AssembledTransaction) (w : World)
    : option (Api.RestorePreamble * AssembledTransaction * World) :=
  match ensureBuilt this with
  | Some (tx, this0) =>
    match simulateTransaction w tx with
    | Answered (Api.SimulateTransactionRestoreResponse restorePreamble) =>
      Some (restorePreamble,
            set_simulation (Some (Api.SimulateTransactionRestoreResponse restorePreamble))
              (clearCache this0),
            (w ++ [EvSimulateTransaction tx])%list)
    | _ => None
    end
  | None => None
  end.

(** What [simulate] does once a restore-required response has come in and
    a restore is wanted: fetch the account, restore, and on success write a
    new draft and simulate again with no argument. *)
Definition restoreAndResimulate (fuel : nat) (restorePreamble : Api.RestorePreamble)
    (this2 : AssembledTransaction) (w1 : World) : Outcome unit * (AssembledTransaction * World) :=
  let publicKey := Opt.publicKey (options this2) in
  match getAccount w1 publicKey with
  | Declined reason => (Throw (Rejected reason), (this2, (w1 ++ [EvGetAccount publicKey])%list))
  | Answered account =>
    match restoreFootprint fuel restorePreamble (Some account)
            (this2, (w1 ++ [EvGetAccount publicKey])%list) with
    | (Return result, s3) =>
      match Api.status result with
      | Api.SUCCESS =>
        simulate fuel None
          (set_raw (Some (invokeDraft (options this2) (incrementSequenceNumber account)))
             (fst s3), snd s3)
      | _ => (Throw (RestorationFailure (Some result)), s3)
      end
    | (Throw e, s3) => (Throw e, s3)
    | (OutOfFuel, s3) => (OutOfFuel, s3)
    end
  end.

(** The transaction [restoreFootprint] simulates and submits. *)
Definition restoreTransaction (options : Opt.AssembledTransactionOptions)
    (restorePreamble : Api.RestorePreamble) (account : Account) : Tx :=
  TransactionBuilder_build
    (restoreDraft options (inl (Api.restore_transactionData restorePreamble)) account
       (Api.restore_minResourceFee restorePreamble)).

(** The number of transactions handed to the submission tracker, and the
    number of simulations asked for, in a stretch of history. *)
Definition submissions (events : list Event) : nat :=
  length (List.filter (fun ev => match ev with EvSentTransactionInit _ => true | _ => false end) events).

Definition simulations (events : list Event) : nat :=
  length (List.filter (fun ev => match ev with EvSimulateTransaction _ => true | _ => false end) events).

End Vocabulary.

(** ** Vocabulary of the lifecycle properties *)

(** Two objects that differ at most in their draft [raw]. *)
Definition sameButDraft (a b : AssembledTransaction) : Prop :=
  options a = options b /\ built a = built b /\ simulation a = simulation b /\
  simulationResult a = simulationResult b /\
  simulationTransactionData a = simulationTransactionData b /\ signed a = signed b.

(** An [authorizeEntry] that signs: the entry it answers with has the
    address credentials of the entry it was given, and their signature is
    no longer [scvVoid]. *)
Definition signsEntries (authorizeEntry : AuthorizeEntry) : Prop :=
  forall entry signer validUntil networkPassphrase authorized c,
    authorizeEntry entry signer validUntil networkPassphrase = Answered authorized ->
    xdr.credentials entry = xdr.sorobanCredentialsAddress c ->
    exists c', xdr.credentials authorized = xdr.sorobanCredentialsAddress c' /\
               xdr.address c' = xdr.address c /\
               xdr.switch_name (xdr.signature c') <> "scvVoid".

(** [{ ...json, method }] *)
Definition JSON_with_method (method : string) (json : JSON) : JSON :=
  {| json_method := method; json_tx := json_tx json;
     json_simulationResult := json_simulationResult json;
     json_simulationTransactionData := json_simulationTransactionData json |}.

(** The contract error [result] makes of a thrown value, when it makes
    one: the value has a text and [parseError] finds an entry for it. *)
Definition contractErrorOf `{ErrorRendering} {T : Type} (o : ResultOptions T) (e : Failure)
    : option ErrorMessage :=
  match thrownText e with
  | Some text => parseError o text
  | None => None
  end.

Section LifecycleVocabulary.
Context {collaborators : Collaborators} {network : Network}.

(** What [SentTransaction.init] makes of [envelope] after the history [w]. *)
Definition submit (w : World) (envelope : Tx) : Outcome SentTransaction :=
  match SentTransaction_init w envelope with
  | Answered sent => Return sent
  | Declined reason => Throw (Rejected reason)
  end.

(** The object [build] hands to [simulate], or returns as it is when
    [options.simulate] is false: the normalized options and the draft of the
    contract call, nothing else. *)
Definition drafted (opts : Opt.AssembledTransactionOptions) (account : Account) : AssembledTransaction :=
  {| options := Opt.set_simulate (Some (default true (Opt.simulate opts))) opts;
     raw := Some (invokeDraft opts account);
     built := None; simulation := None; simulationResult := None;
     simulationTransactionData := None; signed := None |}.

(** The call [buildFootprintRestoreTransaction] makes and hands to
    [simulate]: the options it was given, normalized by the constructor, and
    the draft of the restore transaction. *)
Definition restoreCall (opts : Opt.AssembledTransactionOptions)
    (restorePreamble : Api.RestorePreamble) (account : Account) : AssembledTransaction :=
  {| options := Opt.set_simulate (Some (default true (Opt.simulate opts))) opts;
     raw := Some (restoreDraft opts (inl (Api.restore_transactionData restorePreamble)) account
                    (Api.restore_minResourceFee restorePreamble));
     built := None; simulation := None; simulationResult := None;
     simulationTransactionData := None; signed := None |}.

End LifecycleVocabulary.

(** * A worked example: the atomic swap

    Alice invokes [swap]; Bob has to sign one authorization entry.  The
    collaborators of the example are executable stand-ins: a builder that
    copies what was configured, a codec that prints and parses
    S-expressions, a wallet that appends a signature, and a server that
    follows a script. *)

Module Wire.
Import Ceres.

#[export] Instance Serialize_ScVal : Serialize xdr.ScVal :=
  fun v => [Atom "scval"; to_sexp (xdr.switch_name v); to_sexp (xdr.value v)]%sexp.

#[export] Instance Deserialize_ScVal : Deserialize xdr.ScVal :=
  Deser.match_con "scval" []
    [("scval", Deser.con2_ (fun n v => {| xdr.switch_name := n; xdr.value := v |}))].

#[export] Instance Serialize_SorobanCredentials : Serialize xdr.SorobanCredentials :=
  fun c =>
    match c with
    | xdr.sorobanCredentialsSourceAccount => Atom "source_account"
    | xdr.sorobanCredentialsAddress a =>
      [Atom "address"; to_sexp (xdr.address a); to_sexp (xdr.nonce a);
       to_sexp (xdr.signatureExpirationLedger a); to_sexp (xdr.signature a)]
    end%sexp.

#[export] Instance Deserialize_SorobanCredentials : Deserialize xdr.SorobanCredentials :=
  Deser.match_con "credentials"
    [("source_account", xdr.sorobanCredentialsSourceAccount)]
    [("address",
      Deser.con4_ (fun a n e s =>
        xdr.sorobanCredentialsAddress
          {| xdr.address := a; xdr.nonce := n;
             xdr.signatureExpirationLedger := e; xdr.signature := s |}))].

#[export] Instance Serialize_SorobanAuthorizationEntry : Serialize xdr.SorobanAuthorizationEntry :=
  fun e => [Atom "entry"; to_sexp (xdr.credentials e); to_sexp (xdr.rootInvocation e)]%sexp.

#[export] Instance Deserialize_SorobanAuthorizationEntry : Deserialize xdr.SorobanAuthorizationEntry :=
  Deser.match_con "entry" []
    [("entry", Deser.con2_ (fun c r => {| xdr.credentials := c; xdr.rootInvocation := r |}))].

#[export] Instance Serialize_SorobanTransactionData : Serialize xdr.SorobanTransactionData :=
  fun d =>
    [Atom "data";
     to_sexp (xdr.readOnly (xdr.footprint (xdr.resources d)));
     to_sexp (xdr.readWrite (xdr.footprint (xdr.resources d)));
     to_sexp (xdr.instructions (xdr.resources d));
     to_sexp (xdr.resourceFee d)]%sexp.

#[export] Instance Deserialize_SorobanTransactionData : Deserialize xdr.SorobanTransactionData :=
  Deser.match_con "data" []
    [("data",
      Deser.con4_ (fun ro rw i f =>
        {| xdr.resources :=
             {| xdr.footprint := {| xdr.readOnly := ro; xdr.readWrite := rw |};
                xdr.instructions := i |};
           xdr.resourceFee := f |}))].

#[export] Instance Serialize_InvokeContractArgs : Serialize InvokeContractArgs :=
  fun f =>
    [Atom "call"; to_sexp (contractAddress f); to_sexp (functionName f);
     to_sexp (invokeArgs f)]%sexp.

#[export] Instance Deserialize_InvokeContractArgs : Deserialize InvokeContractArgs :=
  Deser.match_con "call" []
    [("call",
      Deser.con3_ (fun c f a =>
        {| contractAddress := c; functionName := f; invokeArgs := a |}))].

#[export] Instance Serialize_HostFunction : Serialize HostFunction :=
  fun f =>
    match f with
    | hostFunctionTypeInvokeContract args => [Atom "invoke_contract"; to_sexp args]
    | hostFunctionTypeCreateContract args => [Atom "create_contract"; to_sexp args]
    | hostFunctionTypeUploadContractWasm wasm => [Atom "upload_wasm"; to_sexp wasm]
    | hostFunctionTypeCreateContractV2 args => [Atom "create_contract_v2"; to_sexp args]
    end%sexp.

#[export] Instance Deserialize_HostFunction : Deserialize HostFunction :=
  Deser.match_con "host_function" []
    [("invoke_contract", Deser.con1_ hostFunctionTypeInvokeContract);
     ("create_contract", Deser.con1_ hostFunctionTypeCreateContract);
     ("upload_wasm", Deser.con1_ hostFunctionTypeUploadContractWasm);
     ("create_contract_v2", Deser.con1_ hostFunctionTypeCreateContractV2)].

#[export] Instance Serialize_Operation : Serialize Operation :=
  fun op =>
    match op with
    | InvokeHostFunction f a => [Atom "invoke"; to_sexp f; to_sexp a]
    | RestoreFootprint => Atom "restore"
    | OtherOperation type => [Atom "other"; to_sexp type]
    end%sexp.

#[export] Instance Deserialize_Operation : Deserialize Operation :=
  Deser.match_con "operation"
    [("restore", RestoreFootprint)]
    [("invoke", Deser.con2_ InvokeHostFunction); ("other", Deser.con1_ OtherOperation)].

#[export] Instance Serialize_Tx : Serialize Tx :=
  fun tx =>
    [Atom "tx";
     to_sexp (Transaction.source tx, Transaction.fee tx, Transaction.sequence tx);
     to_sexp (Transaction.timeBounds tx);
     to_sexp (Transaction.operations tx);
     to_sexp (Transaction.sorobanData tx);
     to_sexp (Transaction.signatures tx)]%sexp.

#[export] Instance Deserialize_Tx : Deserialize Tx :=
  Deser.match_con "tx" []
    [("tx",
      Deser.con5_ (fun (head : string * string * Z) tb ops data sigs =>
        {| Transaction.source := fst (fst head);
           Transaction.fee := snd (fst head);
           Transaction.sequence := snd head;
           Transaction.timeBounds := tb;
           Transaction.operations := ops;
           Transaction.sorobanData := data;
           Transaction.signatures := sigs |}))].

Definition encode {A : Type} `{Serialize A} (v : A) : XDR_BASE64 := to_string v.

Definition decode {A : Type} `{Deserialize A} (s : XDR_BASE64) : option A :=
  match from_string s with
  | inr v => Some v
  | inl _ => None
  end.

Definition encodeTx : Tx -> XDR_BASE64 := encode.
Definition decodeTx : XDR_BASE64 -> option Tx := decode.
Definition encodeEntry : xdr.SorobanAuthorizationEntry -> XDR_BASE64 := encode.
Definition decodeEntry : XDR_BASE64 -> option xdr.SorobanAuthorizationEntry := decode.
Definition encodeScVal : xdr.ScVal -> XDR_BASE64 := encode.
Definition decodeScVal : XDR_BASE64 -> option xdr.ScVal := decode.
Definition encodeData : xdr.SorobanTransactionData -> XDR_BASE64 := encode.
Definition decodeData : XDR_BASE64 -> option xdr.SorobanTransactionData := decode.
Definition encodeCredentials : xdr.SorobanCredentials -> string := encode.
Definition decodeCredentials : string -> option xdr.SorobanCredentials := decode.

End Wire.

Definition ALICE : string := "GALICE".
Definition BOB : string := "GBOB".
Definition TOKEN_A : string := "CTOKENA".
Definition SWAP : string := "CSWAP".
Definition TESTNET : string := "Test SDF Network ; September 2015".

(** [build()]: copy what was configured; the sequence number is the
    account's next one. *)
Definition exampleBuild (b : TransactionBuilder.t) : Tx :=
  {| Transaction.source := accountId (TransactionBuilder.source b);
     Transaction.fee := TransactionBuilder.fee b;
     Transaction.sequence := sequenceNumber (TransactionBuilder.source b) + 1;
     Transaction.timeBounds := (fun seconds => (0, seconds)) <$> TransactionBuilder.timeout b;
     Transaction.operations := TransactionBuilder.operations b;
     Transaction.sorobanData := TransactionBuilder.sorobanData b;
     Transaction.signatures := [] |}.

Definition exampleCloneFrom (tx : Tx) (o : TransactionBuilder.CloneOptions) : TransactionBuilder.t :=
  {| TransactionBuilder.source :=
       {| accountId := Transaction.source tx; sequenceNumber := Transaction.sequence tx - 1 |};
     TransactionBuilder.fee := TransactionBuilder.clone_fee o;
     TransactionBuilder.networkPassphrase := TESTNET;
     TransactionBuilder.operations := Transaction.operations tx;
     TransactionBuilder.timeout := snd <$> TransactionBuilder.clone_timebounds o;
     TransactionBuilder.sorobanData := Some (TransactionBuilder.clone_sorobanData o) |}.

(** [assembleTransaction]: the simulated authorization entries go into the
    invoke operation, the simulated resource data into the transaction. *)
Definition exampleAssemble (tx : Tx) (sim : Api.SimulateTransactionResponse) : TransactionBuilder.t :=
  let base :=
    {| TransactionBuilder.source :=
         {| accountId := Transaction.source tx; sequenceNumber := Transaction.sequence tx - 1 |};
       TransactionBuilder.fee := Transaction.fee tx;
       TransactionBuilder.networkPassphrase := TESTNET;
       TransactionBuilder.operations := Transaction.operations tx;
       TransactionBuilder.timeout := snd <$> Transaction.timeBounds tx;
       TransactionBuilder.sorobanData := Transaction.sorobanData tx |} in
  match sim with
  | Api.SimulateTransactionSuccessResponse body =>
    {| TransactionBuilder.source := TransactionBuilder.source base;
       TransactionBuilder.fee := Api.minResourceFee body;
       TransactionBuilder.networkPassphrase := TESTNET;
       TransactionBuilder.operations :=
         match Api.result body with
         | Some r => map (fun op => Operation_set_auth op (Api.auth r)) (Transaction.operations tx)
         | None => Transaction.operations tx
         end;
       TransactionBuilder.timeout := TransactionBuilder.timeout base;
       TransactionBuilder.sorobanData :=
         Some (SorobanDataBuilder_build (Api.transactionData body)) |}
  | _ => base
  end.

(** [authorizeEntry]: have the signer sign the entry's preimage, store the
    signature and the expiration. *)
Definition exampleAuthorizeEntry : AuthorizeEntry :=
  fun entry signer validUntil networkPassphrase =>
    match xdr.credentials entry with
    | xdr.sorobanCredentialsSourceAccount => Answered entry
    | xdr.sorobanCredentialsAddress c =>
      match signer ("preimage:" ++ xdr.rootInvocation entry) with
      | Answered signatureBytes =>
        Answered
          {| xdr.credentials :=
               xdr.sorobanCredentialsAddress
                 {| xdr.address := xdr.address c; xdr.nonce := xdr.nonce c;
                    xdr.signatureExpirationLedger := validUntil;
                    xdr.signature := {| xdr.switch_name := "scvVec"; xdr.value := signatureBytes |} |};
             xdr.rootInvocation := xdr.rootInvocation entry |}
      | Declined reason => Declined reason
      end
    end.

Definition exampleCollaborators : Collaborators :=
  {| DEFAULT_TIMEOUT := 300;
     BASE_FEE := "100";
     restoreResponseIsSuccess := true;
     TransactionBuilder_build := exampleBuild;
     TransactionBuilder_cloneFrom := exampleCloneFrom;
     TransactionBuilder_fromXDR := fun s _ => Wire.decodeTx s;
     Tx_toXDR := Wire.encodeTx;
     assembleTransaction := exampleAssemble;
     Contract_call := fun contractId method args =>
       InvokeHostFunction
         (hostFunctionTypeInvokeContract
            {| contractAddress := contractId; functionName := method; invokeArgs := args |})
         (Some []);
     stellarBaseAuthorizeEntry := exampleAuthorizeEntry;
     SorobanAuthorizationEntry_toXDR := Wire.encodeEntry;
     SorobanAuthorizationEntry_fromXDR := Wire.decodeEntry;
     ScVal_toXDR := Wire.encodeScVal;
     ScVal_fromXDR := Wire.decodeScVal;
     SorobanTransactionData_toXDR := Wire.encodeData;
     SorobanTransactionData_fromXDR := Wire.decodeData;
     SorobanCredentials_toXDR := Wire.encodeCredentials;
     SorobanCredentials_fromXDR := Wire.decodeCredentials |}.

(** A wallet: it signs an envelope by appending its owner's signature. *)
Definition walletOf (owner : string) : SignTransaction :=
  fun envelope networkPassphrase =>
    match Wire.decodeTx envelope with
    | Some tx =>
      Answered
        (Wire.encodeTx
           {| Transaction.source := Transaction.source tx;
              Transaction.fee := Transaction.fee tx;
              Transaction.sequence := Transaction.sequence tx;
              Transaction.timeBounds := Transaction.timeBounds tx;
              Transaction.operations := Transaction.operations tx;
              Transaction.sorobanData := Transaction.sorobanData tx;
              Transaction.signatures := (Transaction.signatures tx ++ [owner])%list |})
    | None => Declined "not an envelope"
    end.

Definition entryWalletOf (owner : string) : SignAuthEntry :=
  fun preimage accountToSign => Answered ("signed:" ++ owner).

(** The script the example's server follows. *)
Record Scenario : Type := {
  archivedFor : nat;
  simulated : Api.SimulateTransactionSuccess;
  tracked : option Api.GetTransactionResponse
}.

Definition archivedData : xdr.SorobanTransactionData :=
  {| xdr.resources :=
       {| xdr.footprint := {| xdr.readOnly := []; xdr.readWrite := ["balance:alice"] |};
          xdr.instructions := 0 |};
     xdr.resourceFee := 5000 |}.

(** The server answers a simulation of a restore transaction with a
    success; it answers any other simulation with restore-required as long
    as fewer than [archivedFor] transactions have been submitted, and with
    the scripted success after that. *)
Definition exampleNetwork (script : Scenario) : Network :=
  {| getAccount := fun w publicKey =>
       Answered {| accountId := default EmptyString publicKey;
                   sequenceNumber := Z.of_nat (length w) |};
     simulateTransaction := fun w tx =>
       match Transaction.operations tx with
       | [RestoreFootprint] =>
         Answered (Api.SimulateTransactionSuccessResponse
                     {| Api.transactionData := {| SorobanDataBuilder_build := archivedData |};
                        Api.minResourceFee := "5000";
                        Api.result := None |})
       | _ =>
         if Nat.ltb (submissions w) (archivedFor script) then
           Answered (Api.SimulateTransactionRestoreResponse
                       {| Api.restore_minResourceFee := "5000";
                          Api.restore_transactionData :=
                            {| SorobanDataBuilder_build := archivedData |} |})
         else Answered (Api.SimulateTransactionSuccessResponse (simulated script))
       end;
     getLatestLedger_sequence := fun w => Answered (1000 + Z.of_nat (length w));
     SentTransaction_init := fun w envelope =>
       Answered {| getTransactionResponse := tracked script |} |}.

Definition unsignedEntry (who : string) : xdr.SorobanAuthorizationEntry :=
  {| xdr.credentials :=
       xdr.sorobanCredentialsAddress
         {| xdr.address := who; xdr.nonce := 7; xdr.signatureExpirationLedger := 0;
            xdr.signature := xdr.scvVoid |};
     xdr.rootInvocation := "swap" |}.

Definition invokerEntry : xdr.SorobanAuthorizationEntry :=
  {| xdr.credentials := xdr.sorobanCredentialsSourceAccount; xdr.rootInvocation := "swap" |}.

(** The simulation of [swap]: Alice is covered by her envelope signature,
    Bob and the token contract have address credentials. *)
Definition swapSimulated : Api.SimulateTransactionSuccess :=
  {| Api.transactionData :=
       {| SorobanDataBuilder_build :=
            {| xdr.resources :=
                 {| xdr.footprint :=
                      {| xdr.readOnly := ["code:swap"];
                         xdr.readWrite := ["balance:alice"; "balance:bob"] |};
                    xdr.instructions := 120000 |};
               xdr.resourceFee := 2000 |} |};
     Api.minResourceFee := "2000";
     Api.result :=
       Some {| Api.auth := [invokerEntry; unsignedEntry BOB; unsignedEntry TOKEN_A];
               Api.retval := xdr.scvVoid |} |}.

(** The simulation of a read-only method. *)
Definition readSimulated : Api.SimulateTransactionSuccess :=
  {| Api.transactionData :=
       {| SorobanDataBuilder_build :=
            {| xdr.resources :=
                 {| xdr.footprint := {| xdr.readOnly := ["balance:alice"]; xdr.readWrite := [] |};
                    xdr.instructions := 4000 |};
               xdr.resourceFee := 100 |} |};
     Api.minResourceFee := "100";
     Api.result := None |}.

Definition succeeded : Api.GetTransactionResponse :=
  {| Api.status := Api.SUCCESS; Api.txHash := "abc" |}.

Definition failed : Api.GetTransactionResponse :=
  {| Api.status := Api.FAILED; Api.txHash := "abc" |}.

Definition swapScript : Scenario :=
  {| archivedFor := 0; simulated := swapSimulated; tracked := Some succeeded |}.

Definition readScript : Scenario :=
  {| archivedFor := 0; simulated := readSimulated; tracked := Some succeeded |}.

(** The contract state stays archived through two restores. *)
Definition archivedScript : Scenario :=
  {| archivedFor := 2; simulated := swapSimulated; tracked := Some succeeded |}.

Definition failingScript : Scenario :=
  {| archivedFor := 1; simulated := swapSimulated; tracked := Some failed |}.

Definition optionsOf (who : string) (wallet : option SignTransaction)
    (restore : option bool) : Opt.AssembledTransactionOptions :=
  {| Opt.method := "swap"; Opt.args := None; Opt.contractId := SWAP;
     Opt.networkPassphrase := TESTNET; Opt.rpcUrl := "https://rpc.example";
     Opt.publicKey := Some who; Opt.fee := None; Opt.timeoutInSeconds := None;
     Opt.simulate := None; Opt.restore := restore;
     Opt.signTransaction := wallet; Opt.signAuthEntry := Some (entryWalletOf who) |}.

(** The object a computation ends with, [fallback] when it does not. *)
Definition built_by (script : Scenario) (fuel : nat) (options : Opt.AssembledTransactionOptions)
    (fallback : AssembledTransaction) : AssembledTransaction :=
  match @build exampleCollaborators (exampleNetwork script) fuel options [] with
  | (Return tx, _) => tx
  | _ => fallback
  end.

Definition blank : AssembledTransaction :=
  {| options := optionsOf ALICE None None; raw := None; built := None; simulation := None;
     simulationResult := None; simulationTransactionData := None; signed := None |}.

(** Alice's call, built and simulated; the same with no wallet; a read
    call; a call that was built but not simulated, with the [restore]
    option on and off. *)
Definition swapCall : AssembledTransaction :=
  built_by swapScript 2 (optionsOf ALICE (Some (walletOf ALICE)) None) blank.

Definition walletlessCall : AssembledTransaction :=
  built_by swapScript 2 (optionsOf ALICE None None) blank.

Definition readCall : AssembledTransaction :=
  built_by readScript 2 (optionsOf ALICE (Some (walletOf ALICE)) None) blank.

Definition draftCall (restore : option bool) : AssembledTransaction :=
  built_by archivedScript 2
    (Opt.set_simulate (Some false) (optionsOf ALICE (Some (walletOf ALICE)) restore)) blank.

(** What Bob gets when he deserializes what Alice serialized. *)
Definition bobCopy : AssembledTransaction :=
  match @toJSON exampleCollaborators swapCall with
  | (Return json, _) =>
    match @fromJSON exampleCollaborators (optionsOf BOB (Some (walletOf BOB)) None) json with
    | Return copy => copy
    | _ => blank
    end
  | _ => blank
  end.

(** Bob's copy once he has signed his entry, and what Alice gets when she
    deserializes what Bob then serialized. *)
Definition bobSigned : AssembledTransaction :=
  fst (snd (@signAuthEntries exampleCollaborators (exampleNetwork swapScript)
              None None None None (bobCopy, []))).

Definition aliceCopy : AssembledTransaction :=
  match @toJSON exampleCollaborators bobSigned with
  | (Return json, _) =>
    match @fromJSON exampleCollaborators (optionsOf ALICE (Some (walletOf ALICE)) None) json with
    | Return copy => copy
    | _ => blank
    end
  | _ => blank
  end.

Definition archivedPreamble : Api.RestorePreamble :=
  {| Api.restore_minResourceFee := "5000";
     Api.restore_transactionData := {| SorobanDataBuilder_build := archivedData |} |}.

(** A server that cannot be reached. *)
Definition offlineNetwork : Network :=
  {| getAccount := fun _ _ => Declined "offline";
     simulateTransaction := fun _ _ => Declined "offline";
     getLatestLedger_sequence := fun _ => Declined "offline";
     SentTransaction_init := fun _ _ => Declined "offline" |}.

(** The envelope of a transaction is the transaction; it is printed and
    parsed as the transaction is. *)
Definition exampleEnvelopeCodec : EnvelopeCodec :=
  {| TransactionEnvelope := Tx;
     Tx_toEnvelope := fun tx => tx;
     TransactionEnvelope_toXDR := Wire.encodeTx;
     TransactionEnvelope_fromXDR := Wire.decodeTx;
     TransactionBuilder_fromEnvelope := fun envelope _ => Some envelope |}.

(** What Bob gets when Alice hands him the envelope alone. *)
Definition envelopeCopy : AssembledTransaction :=
  match @toXDR exampleEnvelopeCodec swapCall with
  | Return encodedXDR =>
    match @fromXDR exampleEnvelopeCodec (optionsOf BOB (Some (walletOf BOB)) None) encodedXDR with
    | Return copy => copy
    | _ => blank
    end
  | _ => blank
  end.

(** Alice's copy once she has signed the envelope. *)
Definition aliceSigned : AssembledTransaction :=
  snd (@sign exampleCollaborators None None aliceCopy).

(** The text of a thrown value, the search for [Error(Contract, #N)] in a
    text, and the reading of a decimal number. *)
Definition isDigit (c : ascii) : bool :=
  (48 <=? nat_of_ascii c)%nat && (nat_of_ascii c <=? 57)%nat.

Fixpoint leadingDigits (s : string) : string :=
  match s with
  | String c s' => if isDigit c then String c (leadingDigits s') else EmptyString
  | EmptyString => EmptyString
  end.

Fixpoint findContractError (s : string) : option (option string) :=
  match s with
  | EmptyString => None
  | String _ s' =>
    if String.prefix "Error(Contract, #" s then
      let tail := substring 17 (String.length s - 17) s in
      let digits := leadingDigits tail in
      if negb (Nat.eqb (String.length digits) 0) &&
         String.prefix ")" (substring (String.length digits)
                              (String.length tail - String.length digits) tail)
      then Some (Some digits)
      else findContractError s'
    else findContractError s'
  end.

Fixpoint decimal (acc : Z) (s : string) : Z :=
  match s with
  | String c s' => decimal (10 * acc + Z.of_nat (nat_of_ascii c - 48)) s'
  | EmptyString => acc
  end.

Definition exampleRendering : ErrorRendering :=
  {| thrownText := fun e =>
       match e with
       | Error_ message => Some ("Error: " ++ message)
       | TypeError_ message => Some ("TypeError: " ++ message)
       | Rejected reason => Some reason
       | _ => Some "Error"
       end;
     contractErrorPattern_match := findContractError;
     parseInt10 := fun capture =>
       match leadingDigits (default EmptyString capture) with
       | EmptyString => None
       | digits => Some (decimal 0 digits)
       end |}.

(** The swap contract's errors, and a decoder that reads the arm of the
    returned value. *)
Definition swapResult : ResultOptions string :=
  {| parseResultXdr := fun v => Answered (xdr.switch_name v);
     errorTypes := Some (fun i => if Z.eqb i 3 then Some {| message := "price too low" |} else None) |}.

(** Alice's call after a simulation that failed inside the contract. *)
Definition failedCall : AssembledTransaction :=
  set_simulation
    (Some (Api.SimulateTransactionErrorResponse "HostError: Error(Contract, #3) in swap"))
    (set_simulationTransactionData None (set_simulationResult None swapCall)).

(** * Properties *)

Section SimulationData.

Lemma simulationData_cached this r d :
  simulationResult this = Some r -> simulationTransactionData this = Some d ->
  simulationData this = (Return (r, d), this).
Proof.
  intros Hr Hd. unfold simulationData. run_monad. now rewrite Hr, Hd.
Qed.

Lemma simulationData_uncached this :
  cachePopulated this = false ->
  simulationData this =
    match simulation this with
    | None => (Throw NotYetSimulated, this)
    | Some (Api.SimulateTransactionErrorResponse error) => (Throw (SimulationFailed error), this)
    | Some (Api.SimulateTransactionRestoreResponse _) => (Throw ExpiredState, this)
    | Some (Api.SimulateTransactionSuccessResponse body) =>
      (Return (resultOrDefault body, SorobanDataBuilder_build (Api.transactionData body)),
       memoize (resultOrDefault body) (SorobanDataBuilder_build (Api.transactionData body)) this)
    end.
Proof.
  unfold cachePopulated, simulationData. run_monad. intros Hc.
  destruct (simulationResult this) as [r|] eqn:Hr;
    destruct (simulationTransactionData this) as [d|] eqn:Hd; try discriminate;
    destruct (simulation this) as [[error|p|body]|]; cbn; try reflexivity;
    unfold resultOrDefault; destruct (Api.result body); reflexivity.
Qed.

(** A successful access leaves both cache fields holding what it returned,
    and touches nothing else. *)
Lemma simulationData_returns this v this' :
  simulationData this = (Return v, this') ->
  simulationResult this' = Some (fst v) /\ simulationTransactionData this' = Some (snd v) /\
  options this' = options this /\ raw this' = raw this /\ built this' = built this /\
  simulation this' = simulation this /\ signed this' = signed this.
Proof.
  intros H. destruct (cachePopulated this) eqn:Hc.
  - unfold cachePopulated in Hc.
    destruct (simulationResult this) as [r|] eqn:Hr; try discriminate.
    destruct (simulationTransactionData this) as [d|] eqn:Hd; try discriminate.
    rewrite (simulationData_cached this r d Hr Hd) in H. inversion H; subst. cbn. tauto.
  - rewrite (simulationData_uncached this Hc) in H.
    destruct (simulation this) as [[error|p|body]|] eqn:Hs; inversion H; subst.
    unfold memoize. cbn. tauto.
Qed.

(** A failing access changes nothing. *)
Lemma simulationData_throws this e this' :
  simulationData this = (Throw e, this') -> this' = this.
Proof.
  intros H. destruct (cachePopulated this) eqn:Hc.
  - unfold cachePopulated in Hc.
    destruct (simulationResult this) as [r|] eqn:Hr; try discriminate.
    destruct (simulationTransactionData this) as [d|] eqn:Hd; try discriminate.
    rewrite (simulationData_cached this r d Hr Hd) in H. discriminate.
  - rewrite (simulationData_uncached this Hc) in H.
    destruct (simulation this) as [[error|p|body]|]; inversion H; subst; reflexivity.
Qed.

(** The three ways an access fails. *)
Lemma simulationData_failure this e this' :
  simulationData this = (Throw e, this') ->
  e = NotYetSimulated \/ (exists error, e = SimulationFailed error) \/ e = ExpiredState.
Proof.
  intros H. destruct (cachePopulated this) eqn:Hc.
  - unfold cachePopulated in Hc.
    destruct (simulationResult this) as [r|] eqn:Hr; try discriminate.
    destruct (simulationTransactionData this) as [d|] eqn:Hd; try discriminate.
    rewrite (simulationData_cached this r d Hr Hd) in H. discriminate.
  - rewrite (simulationData_uncached this Hc) in H.
    destruct (simulation this) as [[error|p|body]|]; inversion H; subst; eauto.
Qed.

Lemma simulationData_never_out_of_fuel this this' :
  simulationData this <> (OutOfFuel, this').
Proof.
  intros H. destruct (cachePopulated this) eqn:Hc.
  - unfold cachePopulated in Hc.
    destruct (simulationResult this) as [r|] eqn:Hr; try discriminate.
    destruct (simulationTransactionData this) as [d|] eqn:Hd; try discriminate.
    rewrite (simulationData_cached this r d Hr Hd) in H. discriminate.
  - rewrite (simulationData_uncached this Hc) in H.
    destruct (simulation this) as [[error|p|body]|]; discriminate.
Qed.

Lemma simulationData_again this v this' :
  simulationData this = (Return v, this') -> simulationData this' = (Return v, this').
Proof.
  intros H. destruct (simulationData_returns _ _ _ H) as (Hr & Hd & _).
  rewrite (simulationData_cached this' (fst v) (snd v) Hr Hd). now destruct v.
Qed.

(** C3. Reading [simulationData]: with both cache fields populated the
    cached pair is returned and the raw simulation is not looked at;
    otherwise the access fails with [NotYetSimulated] when there is no raw
    simulation, with the simulation-failed error when the raw response is
    an error, with [ExpiredState] when it is restore-required, and else
    derives the pair, an empty-authorization void-return result standing in
    for a missing result, and stores it in the cache; an access that
    returned returns the same again, the state no longer changing. *)
Theorem simulationData_spec (this : AssembledTransaction) :
  (forall r d sim,
      simulationResult this = Some r -> simulationTransactionData this = Some d ->
      simulationData this = (Return (r, d), this) /\
      simulationData (set_simulation sim this) = (Return (r, d), set_simulation sim this)) /\
  (cachePopulated this = false -> simulation this = None ->
   simulationData this = (Throw NotYetSimulated, this)) /\
  (forall error,
      cachePopulated this = false ->
      simulation this = Some (Api.SimulateTransactionErrorResponse error) ->
      simulationData this = (Throw (SimulationFailed error), this)) /\
  (forall restorePreamble,
      cachePopulated this = false ->
      simulation this = Some (Api.SimulateTransactionRestoreResponse restorePreamble) ->
      simulationData this = (Throw ExpiredState, this)) /\
  (forall body,
      cachePopulated this = false ->
      simulation this = Some (Api.SimulateTransactionSuccessResponse body) ->
      let r := default {| Api.auth := []; Api.retval := xdr.scvVoid |} (Api.result body) in
      let d := SorobanDataBuilder_build (Api.transactionData body) in
      simulationData this = (Return (r, d), memoize r d this) /\
      simulationResult (memoize r d this) = Some r /\
      simulationTransactionData (memoize r d this) = Some d) /\
  (forall v this',
      simulationData this = (Return v, this') ->
      simulationData this' = (Return v, this')).
Proof.
  repeat split.
  - now apply simulationData_cached.
  - now apply simulationData_cached.
  - intros Hc Hs. rewrite (simulationData_uncached this Hc), Hs. reflexivity.
  - intros error Hc Hs. rewrite (simulationData_uncached this Hc), Hs. reflexivity.
  - intros p Hc Hs. rewrite (simulationData_uncached this Hc), Hs. reflexivity.
  - rewrite (simulationData_uncached this H), H0. reflexivity.
  - apply simulationData_again.
Qed.

End SimulationData.

Section ReadCall.

(** What [isReadCall] computes from the pair [simulationData] returns. *)
Lemma isReadCall_returns this d this' :
  simulationData this = (Return d, this') ->
  isReadCall this =
    (Return (Nat.eqb (length (Api.auth (fst d))) 0 &&
             Nat.eqb (length (xdr.readWrite (xdr.footprint (xdr.resources (snd d))))) 0),
     this').
Proof.
  intros H. pose proof (simulationData_again _ _ _ H) as H'.
  unfold isReadCall. run_monad. rewrite H, H'. reflexivity.
Qed.

Lemma isReadCall_throws this e this' :
  simulationData this = (Throw e, this') -> isReadCall this = (Throw e, this).
Proof.
  intros H. pose proof (simulationData_throws _ _ _ H) as ->.
  unfold isReadCall. run_monad. rewrite H. reflexivity.
Qed.

(** C6. When [simulationData] is available, [isReadCall] is true exactly
    when the simulation result has no authorization entry and the footprint
    of the transaction data has no read-write entry; two calls whose
    [simulationData] are the same pair get the same answer, whatever else
    differs between them. *)
Theorem isReadCall_pure (x y : AssembledTransaction) d x' y' :
  simulationData x = (Return d, x') ->
  simulationData y = (Return d, y') ->
  exists b : bool,
    isReadCall x = (Return b, x') /\ isReadCall y = (Return b, y') /\
    (b = true <->
     Api.auth (fst d) = [] /\ xdr.readWrite (xdr.footprint (xdr.resources (snd d))) = []).
Proof.
  intros Hx Hy. eexists. split; [|split].
  - apply (isReadCall_returns _ _ _ Hx).
  - apply (isReadCall_returns _ _ _ Hy).
  - rewrite andb_true_iff, !Nat.eqb_eq, !length_zero_iff_nil. reflexivity.
Qed.

End ReadCall.

Section NonInvokerSigners.

Lemma elem_of_Set_from (x : string) seen l :
  x ∈ Set_from seen l <-> x ∈ l /\ x ∉ seen.
Proof.
  revert seen. induction l as [|y l IH]; intros seen; cbn.
  - split; [intros H; inversion H | intros [H _]; inversion H].
  - case_bool_decide as Hy.
    + rewrite IH, elem_of_cons. split; [tauto|]. intros [[->|H] Hn]; tauto.
    + rewrite !elem_of_cons, IH, elem_of_cons. split.
      * intros [->|[H Hn]]; [tauto|]. split; [tauto|]. intros Hs. apply Hn. now right.
      * intros [[->|H] Hn]; [now left|].
        destruct (decide (x = y)) as [->|Hne]; [now left|]. right. split; [assumption|].
        intros [?|?]; tauto.
Qed.

Lemma NoDup_Set_from seen l : NoDup (Set_from seen l).
Proof.
  revert seen. induction l as [|y l IH]; intros seen; cbn.
  - constructor.
  - case_bool_decide as Hy; [apply IH|]. constructor; [|apply IH].
    rewrite elem_of_Set_from. intros [_ Hn]. apply Hn. now left.
Qed.

(** After the filter, reading the address of each entry never throws. *)
Lemma mapM_entryAddress_filter b (l : list xdr.SorobanAuthorizationEntry) :
  exists addresses,
    mapM entryAddress (List.filter (awaitsSignature b) l) = Some addresses /\
    forall a, a ∈ addresses <->
      exists entry c, entry ∈ l /\ xdr.credentials entry = xdr.sorobanCredentialsAddress c /\
                      xdr.address c = a /\
                      (b = true \/ xdr.switch_name (xdr.signature c) = "scvVoid").
Proof.
  induction l as [|entry l (addresses & Hm & Hin)]; cbn.
  - exists []. split; [reflexivity|]. intros a. split; [intros H; inversion H|].
    intros (e & c & H & _). inversion H.
  - unfold awaitsSignature at 1.
    destruct (xdr.credentials entry) as [|c] eqn:Hc.
    + exists addresses. split; [assumption|]. intros a. rewrite Hin. split.
      * intros (e & c & He & ?). exists e, c. split; [now right|assumption].
      * intros (e & c & He & Hce & ?). apply elem_of_cons in He as [->|He]; [congruence|].
        exists e, c. tauto.
    + assert (Hor : forall a, (exists e c0, e ∈ entry :: l /\
                      xdr.credentials e = xdr.sorobanCredentialsAddress c0 /\ xdr.address c0 = a /\
                      (b = true \/ xdr.switch_name (xdr.signature c0) = "scvVoid")) <->
                    (xdr.address c = a /\ (b = true \/ xdr.switch_name (xdr.signature c) = "scvVoid"))
                    \/ a ∈ addresses).
      { intros a. rewrite Hin. split.
        - intros (e & c0 & He & Hce & Ha & Hs). apply elem_of_cons in He as [->|He].
          + left. rewrite Hc in Hce. inversion Hce; subst. tauto.
          + right. exists e, c0. tauto.
        - intros [[Ha Hs]|(e & c0 & He & ?)].
          + exists entry, c. split; [now left|tauto].
          + exists e, c0. split; [now right|tauto]. }
      destruct (b || String.eqb (xdr.switch_name (xdr.signature c)) "scvVoid") eqn:Hb.
      * exists (xdr.address c :: addresses). split.
        -- assert (Ha : entryAddress entry = Some (xdr.address c))
             by (unfold entryAddress; now rewrite Hc).
           cbn. rewrite Ha. cbn. rewrite Hm. reflexivity.
        -- intros a. rewrite Hor, elem_of_cons.
           apply orb_true_iff in Hb. rewrite String.eqb_eq in Hb.
           split; [intros [->|?]; [left|right]; tauto | intros [[-> _]|?]; tauto].
      * exists addresses. split; [assumption|]. intros a. rewrite Hor.
        apply orb_false_iff in Hb as [-> Hb]. apply String.eqb_neq in Hb.
        split; [tauto|]. intros [[_ [?|?]]|?]; [discriminate|contradiction|assumption].
Qed.

(** The list returned on a finalized call. *)
Lemma needsNonInvokerSigningBy_finalized this tx op :
  built this = Some tx -> Transaction.operations tx !! 0%nat = Some op ->
  forall b, exists ids,
    needsNonInvokerSigningBy b this = Return ids /\ NoDup ids /\
    (forall a, a ∈ ids <->
       exists entry c,
         entry ∈ default [] (Operation_auth op) /\
         xdr.credentials entry = xdr.sorobanCredentialsAddress c /\
         xdr.address c = a /\
         (b = true \/ xdr.switch_name (xdr.signature c) = "scvVoid")).
Proof.
  intros Hb Hop b. unfold needsNonInvokerSigningBy. rewrite Hb, Hop.
  destruct (mapM_entryAddress_filter b (default [] (Operation_auth op))) as (addresses & -> & Hin).
  exists (spread_Set addresses). split; [reflexivity|]. split; [apply NoDup_Set_from|].
  intros a. unfold spread_Set. rewrite elem_of_Set_from, <- Hin. split; [tauto|].
  intros H. split; [assumption|]. intros Hn. inversion Hn.
Qed.

(** C4. [needsNonInvokerSigningBy]: on a call that is not finalized it
    fails with the not-yet-built error; on a finalized call it returns a
    list without duplicates that holds exactly the addresses of the first
    operation's authorization entries whose credentials are address
    credentials and whose signature is still void (or of all entries with
    address credentials when already signed ones are asked for).  Entries
    with source-account credentials, those covered by the submitter's
    envelope signature, contribute nothing.  What is returned for
    [includeAlreadySigned = true] contains what is returned for [false]. *)
Theorem needsNonInvokerSigningBy_spec (this : AssembledTransaction) :
  (built this = None ->
   forall includeAlreadySigned,
     needsNonInvokerSigningBy includeAlreadySigned this = Throw NotYetBuilt) /\
  (forall tx op,
     built this = Some tx -> Transaction.operations tx !! 0%nat = Some op ->
     forall includeAlreadySigned,
     exists ids,
       needsNonInvokerSigningBy includeAlreadySigned this = Return ids /\
       NoDup ids /\
       (forall a, a ∈ ids <->
          exists entry c,
            entry ∈ default [] (Operation_auth op) /\
            xdr.credentials entry = xdr.sorobanCredentialsAddress c /\
            xdr.address c = a /\
            (includeAlreadySigned = true \/ xdr.switch_name (xdr.signature c) = "scvVoid")) /\
       (forall entry,
          entry ∈ default [] (Operation_auth op) ->
          xdr.credentials entry = xdr.sorobanCredentialsSourceAccount ->
          awaitsSignature includeAlreadySigned entry = false)) /\
  (forall unsigned all,
     needsNonInvokerSigningBy false this = Return unsigned ->
     needsNonInvokerSigningBy true this = Return all ->
     unsigned ⊆ all).
Proof.
  split; [|split].
  - intros Hb b. unfold needsNonInvokerSigningBy. now rewrite Hb.
  - intros tx op Hb Hop b.
    destruct (needsNonInvokerSigningBy_finalized this tx op Hb Hop b) as (ids & Hr & Hnd & Hin).
    exists ids. repeat split; try assumption; try apply Hin.
    intros entry _ Hc. unfold awaitsSignature. now rewrite Hc.
  - intros unsigned all H0 H1.
    destruct (built this) as [tx|] eqn:Hb;
      [|unfold needsNonInvokerSigningBy in H0; rewrite Hb in H0; discriminate].
    destruct (Transaction.operations tx !! 0%nat) as [op|] eqn:Hop;
      [|unfold needsNonInvokerSigningBy in H0; rewrite Hb, Hop in H0; discriminate].
    destruct (needsNonInvokerSigningBy_finalized this tx op Hb Hop false) as (ids0 & Hr0 & _ & Hin0).
    destruct (needsNonInvokerSigningBy_finalized this tx op Hb Hop true) as (ids1 & Hr1 & _ & Hin1).
    rewrite Hr0 in H0. rewrite Hr1 in H1. inversion H0; inversion H1; subst.
    intros a Ha. apply Hin1. apply Hin0 in Ha as (entry & c & He & Hc & Hadr & _).
    exists entry, c. tauto.
Qed.

End NonInvokerSigners.

Section Signing.
Context {collaborators : Collaborators}.

Lemma isReadCall_cases this :
  (exists b this1, isReadCall this = (Return b, this1) /\
                   built this1 = built this /\ options this1 = options this /\
                   exists d, simulationData this = (Return d, this1)) \/
  (exists e, isReadCall this = (Throw e, this) /\ simulationData this = (Throw e, this)).
Proof.
  destruct (simulationData this) as [[d|e|] this1] eqn:H.
  - left. eexists _, this1. split; [apply (isReadCall_returns _ _ _ H)|].
    destruct (simulationData_returns _ _ _ H) as (_ & _ & Ho & _ & Hb & _). eauto.
  - right. exists e. pose proof (simulationData_throws _ _ _ H) as ->.
    split; [apply (isReadCall_throws _ _ _ H)|reflexivity].
  - now apply simulationData_never_out_of_fuel in H.
Qed.

Lemma passesReadCheck_keeps force this this1 :
  passesReadCheck force this this1 ->
  built this1 = built this /\ options this1 = options this.
Proof.
  intros [[_ ->]|[_ H]]; [tauto|].
  destruct (isReadCall_cases this) as [(b & t & Hr & Hb & Ho & _)|(e & Hr & _)];
    rewrite Hr in H; inversion H; subst; tauto.
Qed.

Lemma needsNonInvokerSigningBy_built b this this1 :
  built this1 = built this ->
  needsNonInvokerSigningBy b this1 = needsNonInvokerSigningBy b this.
Proof. intros H. unfold needsNonInvokerSigningBy. now rewrite H. Qed.

Lemma sign_passed force cb this this1 tx :
  built this = Some tx -> passesReadCheck force this this1 ->
  sign force cb this =
    signAfterReadCheck (orOption cb (Opt.signTransaction (options this))) tx this1.
Proof.
  intros Hb Hp. destruct (passesReadCheck_keeps _ _ _ Hp) as [Hb1 Ho1].
  unfold sign, signAfterReadCheck. run_monad. rewrite Hb.
  assert (Hgate : (if negb (default false force) then isReadCall else
                     (fun s : AssembledTransaction => (Return false, s))) this
                  = (Return false, this1)).
  { destruct Hp as [[-> ->]|[-> H]]; cbn; [reflexivity|assumption]. }
  rewrite Hgate. cbn.
  destruct (orOption cb (Opt.signTransaction (options this))) as [f|]; [|reflexivity].
  destruct (needsNonInvokerSigningBy false this1) as [ids|e|]; try reflexivity.
  destruct (negb (Nat.eqb (length (walletSigners ids)) 0)); [reflexivity|].
  rewrite Hb1, Hb.
  destruct (simulationData this1) as [[d|e|] this2]; try reflexivity.
  cbn. rewrite Ho1.
  destruct (f _ _) as [signature|reason]; cbn; [|reflexivity].
  destruct (TransactionBuilder_fromXDR signature _); reflexivity.
Qed.

Lemma sign_read_call force cb this this1 tx :
  built this = Some tx -> default false force = false ->
  isReadCall this = (Return true, this1) ->
  sign force cb this = (Throw NoSignatureNeeded, this1).
Proof.
  intros Hb Hf Hr. unfold sign. run_monad. rewrite Hb, Hf. cbn. rewrite Hr. reflexivity.
Qed.

Lemma sign_read_check_throws force cb this e tx :
  built this = Some tx -> default false force = false ->
  isReadCall this = (Throw e, this) ->
  sign force cb this = (Throw e, this).
Proof.
  intros Hb Hf Hr. unfold sign. run_monad. rewrite Hb, Hf. cbn. rewrite Hr. reflexivity.
Qed.

Lemma sign_not_built force cb this :
  built this = None ->
  sign force cb this = (Throw (Error_ "Transaction has not yet been simulated."), this).
Proof. intros Hb. unfold sign. run_monad. rewrite Hb. reflexivity. Qed.

(** Every way [sign] can go on a finalized call. *)
Lemma sign_cases force cb this tx :
  built this = Some tx ->
  (exists this1, isReadCall this = (Return true, this1) /\ default false force = false /\
                 sign force cb this = (Throw NoSignatureNeeded, this1)) \/
  (exists e, simulationData this = (Throw e, this) /\ default false force = false /\
             sign force cb this = (Throw e, this)) \/
  (exists this1, passesReadCheck force this this1 /\
                 sign force cb this =
                   signAfterReadCheck (orOption cb (Opt.signTransaction (options this))) tx this1).
Proof.
  intros Hb. destruct (default false force) eqn:Hf.
  - right. right. exists this. assert (Hp : passesReadCheck force this this) by (left; tauto).
    split; [assumption|]. now apply sign_passed.
  - destruct (isReadCall_cases this) as [([|] & this1 & Hr & _)|(e & Hr & Hd)].
    + left. exists this1. repeat split; try assumption. now apply (sign_read_call _ _ _ _ tx).
    + right. right. exists this1.
      assert (Hp : passesReadCheck force this this1) by (right; tauto).
      split; [assumption|]. now apply sign_passed.
    + right. left. exists e. repeat split; try assumption. now apply (sign_read_check_throws _ _ _ _ tx).
Qed.

Lemma signAfterReadCheck_needs_more cb tx this1 l this' :
  signAfterReadCheck cb tx this1 = (Throw (NeedsMoreSignatures l), this') ->
  this' = this1 /\ is_Some cb /\
  exists ids, needsNonInvokerSigningBy false this1 = Return ids /\
              l = walletSigners ids /\ l <> [].
Proof.
  unfold signAfterReadCheck. intros H.
  destruct cb as [f|]; [|discriminate].
  destruct (needsNonInvokerSigningBy false this1) as [ids|e|] eqn:Hn.
  - destruct (negb (Nat.eqb (length (walletSigners ids)) 0)) eqn:Hl.
    + inversion H; subst. split; [reflexivity|]. split; [eauto|].
      exists ids. repeat split. intros Hnil. rewrite Hnil in Hl. discriminate.
    + destruct (simulationData this1) as [[d|e|] this2] eqn:Hd.
      * destruct (f _ _) as [signature|reason]; [|discriminate].
        destruct (TransactionBuilder_fromXDR signature _); discriminate.
      * injection H as He Ht. subst e. exfalso.
        destruct (simulationData_failure _ _ _ Hd) as [?|[[? ?]|?]]; discriminate.
      * discriminate.
  - injection H as He Ht. subst e. exfalso. unfold needsNonInvokerSigningBy in Hn.
    destruct (built this1) as [tx1|]; [|discriminate].
    destruct (Transaction.operations tx1 !! 0%nat); [|discriminate].
    destruct (mapM entryAddress _); discriminate.
  - discriminate.
Qed.

Lemma walletSigners_nonempty ids :
  walletSigners ids <> [] -> negb (Nat.eqb (length (walletSigners ids)) 0) = true.
Proof. destruct (walletSigners ids); [congruence|reflexivity]. Qed.

Lemma elem_of_walletSigners a ids :
  a ∈ walletSigners ids <-> a ∈ ids /\ startsWith_C a = false.
Proof.
  unfold walletSigners. rewrite list_elem_of_In, filter_In, <- list_elem_of_In, negb_true_iff.
  reflexivity.
Qed.

(** C5, as the code has it.  On a finalized call [sign] checks in this
    order: it fails with [NoSignatureNeeded] when [force] is not set and
    [isReadCall] is true; past that check it fails with [NoSigner] when no
    envelope-signing callback is available; it fails with
    [NeedsMoreSignatures] exactly when it is past the read check, a callback
    is available and some address that does not start with [C] still has an
    unsigned address-credentialed authorization entry; and when none of the
    three applies it re-finalizes the transaction and stores the decoded
    answer of the callback as the signed envelope. *)
Theorem sign_checks_in_order force cb (this : AssembledTransaction) tx :
  built this = Some tx ->
  let signer := orOption cb (Opt.signTransaction (options this)) in
  (forall this1,
     default false force = false -> isReadCall this = (Return true, this1) ->
     sign force cb this = (Throw NoSignatureNeeded, this1)) /\
  (forall this1,
     passesReadCheck force this this1 -> signer = None ->
     sign force cb this = (Throw NoSigner, this1)) /\
  (forall l this',
     sign force cb this = (Throw (NeedsMoreSignatures l), this') <->
     passesReadCheck force this this' /\ is_Some signer /\ l <> [] /\
     exists ids, needsNonInvokerSigningBy false this = Return ids /\ l = walletSigners ids) /\
  (forall op a,
     Transaction.operations tx !! 0%nat = Some op ->
     (exists ids, needsNonInvokerSigningBy false this = Return ids /\ a ∈ walletSigners ids) <->
     startsWith_C a = false /\
     exists entry c,
       entry ∈ default [] (Operation_auth op) /\
       xdr.credentials entry = xdr.sorobanCredentialsAddress c /\
       xdr.address c = a /\ xdr.switch_name (xdr.signature c) = "scvVoid") /\
  (forall this1 f ids d this2 signature envelope,
     passesReadCheck force this this1 -> signer = Some f ->
     needsNonInvokerSigningBy false this = Return ids -> walletSigners ids = [] ->
     simulationData this1 = (Return d, this2) ->
     let rebuilt := refinalize (options this) tx (snd d) in
     f (Tx_toXDR rebuilt) (Opt.networkPassphrase (options this)) = Answered signature ->
     TransactionBuilder_fromXDR signature (Opt.networkPassphrase (options this)) = Some envelope ->
     sign force cb this =
       (Return tt, set_signed (Some envelope) (set_built (Some rebuilt) this2))).
Proof.
  intros Hb signer. split; [|split; [|split; [|split]]].
  - intros this1 Hf Hr. now apply (sign_read_call _ _ _ _ tx).
  - intros this1 Hp Hs. rewrite (sign_passed _ _ _ _ _ Hb Hp). fold signer. rewrite Hs.
    reflexivity.
  - intros l this'. split.
    + intros H. destruct (sign_cases force cb this tx Hb)
        as [(this1 & _ & _ & Hs)|[(e & Hd & _ & Hs)|(this1 & Hp & Hs)]].
      * rewrite Hs in H. discriminate.
      * rewrite Hs in H. injection H as He _. subst e.
        destruct (simulationData_failure _ _ _ Hd) as [?|[[? ?]|?]]; discriminate.
      * rewrite Hs in H.
        destruct (signAfterReadCheck_needs_more _ _ _ _ _ H) as (-> & Hsome & ids & Hn & Hl & Hne).
        destruct (passesReadCheck_keeps _ _ _ Hp) as [Hb1 _].
        rewrite (needsNonInvokerSigningBy_built _ _ _ Hb1) in Hn.
        repeat split; try assumption. eauto.
    + intros (Hp & [f Hs] & Hne & ids & Hn & ->).
      destruct (passesReadCheck_keeps _ _ _ Hp) as [Hb1 _].
      rewrite (sign_passed _ _ _ _ _ Hb Hp). fold signer. rewrite Hs.
      unfold signAfterReadCheck.
      rewrite (needsNonInvokerSigningBy_built _ _ _ Hb1), Hn.
      rewrite (walletSigners_nonempty _ Hne). reflexivity.
  - intros op a Hop.
    destruct (needsNonInvokerSigningBy_finalized this tx op Hb Hop false) as (ids & Hn & _ & Hin).
    split.
    + intros (ids' & Hn' & Ha). rewrite Hn in Hn'. injection Hn' as <-.
      apply elem_of_walletSigners in Ha as [Ha Hc]. split; [assumption|].
      apply Hin in Ha as (entry & c & He & Hcr & Hadr & [?|Hv]); [discriminate|].
      exists entry, c. tauto.
    + intros (Hc & entry & c & He & Hcr & Hadr & Hv). exists ids. split; [assumption|].
      apply elem_of_walletSigners. split; [|assumption]. apply Hin. exists entry, c. tauto.
  - intros this1 f ids d this2 signature envelope Hp Hs Hn Hnil Hd rebuilt Hf Hx.
    destruct (passesReadCheck_keeps _ _ _ Hp) as [Hb1 Ho1].
    rewrite (sign_passed _ _ _ _ _ Hb Hp). fold signer. rewrite Hs.
    unfold signAfterReadCheck.
    rewrite (needsNonInvokerSigningBy_built _ _ _ Hb1), Hn, Hnil. cbn.
    rewrite Hd, Ho1. fold rebuilt. rewrite Hf, Hx. reflexivity.
Qed.

(** C10. On a finalized call that is past the read check (not a read call,
    or forced) and has no envelope-signing callback, [sign] fails with
    [NoSigner], also when parties still have unsigned authorization
    entries: the callback is looked for before the outstanding signatures
    are, so [NeedsMoreSignatures] is only raised when a callback is
    present. *)
Theorem sign_missing_signer_first force cb (this : AssembledTransaction) tx :
  built this = Some tx ->
  (forall this1,
     passesReadCheck force this this1 ->
     orOption cb (Opt.signTransaction (options this)) = None ->
     sign force cb this = (Throw NoSigner, this1) /\
     forall ids,
       needsNonInvokerSigningBy false this = Return ids -> walletSigners ids <> [] ->
       sign force cb this <> (Throw (NeedsMoreSignatures (walletSigners ids)), this1)) /\
  (forall l this',
     sign force cb this = (Throw (NeedsMoreSignatures l), this') ->
     is_Some (orOption cb (Opt.signTransaction (options this)))).
Proof.
  intros Hb. split.
  - intros this1 Hp Hs.
    assert (H : sign force cb this = (Throw NoSigner, this1)).
    { rewrite (sign_passed _ _ _ _ _ Hb Hp), Hs. reflexivity. }
    split; [assumption|]. intros ids _ _. rewrite H. discriminate.
  - intros l this' H. destruct (sign_cases force cb this tx Hb)
      as [(this1 & _ & _ & Hs)|[(e & Hd & _ & Hs)|(this1 & Hp & Hs)]].
    + rewrite Hs in H. discriminate.
    + rewrite Hs in H. injection H as He _. subst e.
      destruct (simulationData_failure _ _ _ Hd) as [?|[[? ?]|?]]; discriminate.
    + rewrite Hs in H. now destruct (signAfterReadCheck_needs_more _ _ _ _ _ H) as (_ & Hsome & _).
Qed.

Lemma needsNonInvokerSigningBy_never_out_of_fuel b this :
  needsNonInvokerSigningBy b this <> OutOfFuel.
Proof.
  unfold needsNonInvokerSigningBy. destruct (built this) as [tx|]; [|discriminate].
  destruct (Transaction.operations tx !! 0%nat); [|discriminate].
  destruct (mapM entryAddress _); discriminate.
Qed.

(** [sign] always finishes, and when it returns the signed envelope is
    there. *)
Lemma sign_outcome force cb this o this' :
  sign force cb this = (o, this') ->
  o <> OutOfFuel /\ (o = Return tt -> exists envelope, signed this' = Some envelope).
Proof.
  intros H. destruct (built this) as [tx|] eqn:Hb.
  2:{ rewrite (sign_not_built _ _ _ Hb) in H. inversion H; subst. split; discriminate. }
  destruct (sign_cases force cb this tx Hb)
    as [(this1 & _ & _ & Hs)|[(e & _ & _ & Hs)|(this1 & _ & Hs)]];
    rewrite Hs in H; try (inversion H; subst; split; discriminate).
  unfold signAfterReadCheck in H.
  destruct (orOption cb _) as [f|]; [|inversion H; subst; split; discriminate].
  destruct (needsNonInvokerSigningBy false this1) as [ids|e|] eqn:Hn;
    [|inversion H; subst; split; discriminate
     |now apply needsNonInvokerSigningBy_never_out_of_fuel in Hn].
  destruct (negb _); [inversion H; subst; split; discriminate|].
  destruct (simulationData this1) as [[d|e|] this2] eqn:Hd;
    [|inversion H; subst; split; discriminate
     |now apply simulationData_never_out_of_fuel in Hd].
  destruct (f _ _) as [signature|reason]; [|inversion H; subst; split; discriminate].
  destruct (TransactionBuilder_fromXDR signature _) as [envelope|];
    inversion H; subst; split; try discriminate.
  intros _. exists envelope. reflexivity.
Qed.

Lemma sign_never_restoration_failure force cb this attempt this' :
  sign force cb this <> (Throw (RestorationFailure attempt), this').
Proof.
  intros H. destruct (built this) as [tx|] eqn:Hb.
  2:{ rewrite (sign_not_built _ _ _ Hb) in H. discriminate. }
  destruct (sign_cases force cb this tx Hb)
    as [(this1 & _ & _ & Hs)|[(e & Hd & _ & Hs)|(this1 & _ & Hs)]];
    rewrite Hs in H; try discriminate.
  - injection H as He _. subst e.
    destruct (simulationData_failure _ _ _ Hd) as [?|[[? ?]|?]]; discriminate.
  - unfold signAfterReadCheck in H.
    destruct (orOption cb _) as [f|]; [|discriminate].
    destruct (needsNonInvokerSigningBy false this1) as [ids|e|] eqn:Hn.
    + destruct (negb _); [discriminate|].
      destruct (simulationData this1) as [[d|e|] this2] eqn:Hd; try discriminate.
      * destruct (f _ _) as [signature|reason]; [|discriminate].
        destruct (TransactionBuilder_fromXDR signature _); discriminate.
      * injection H as He _. subst e.
        destruct (simulationData_failure _ _ _ Hd) as [?|[[? ?]|?]]; discriminate.
    + injection H as He _. subst e. unfold needsNonInvokerSigningBy in Hn.
      destruct (built this1) as [tx1|]; [|discriminate].
      destruct (Transaction.operations tx1 !! 0%nat); [|discriminate].
      destruct (mapM entryAddress _); discriminate.
    + discriminate.
Qed.

(** What a [sign] that returned has done. *)
Lemma sign_returns force cb this this' :
  sign force cb this = (Return tt, this') ->
  exists f tx d signature envelope,
    orOption cb (Opt.signTransaction (options this)) = Some f /\
    built this = Some tx /\
    fst (simulationData this) = Return d /\
    f (Tx_toXDR (refinalize (options this) tx (snd d))) (Opt.networkPassphrase (options this))
    = Answered signature /\
    TransactionBuilder_fromXDR signature (Opt.networkPassphrase (options this)) = Some envelope /\
    signed this' = Some envelope /\
    built this' = Some (refinalize (options this) tx (snd d)).
Proof.
  intros Hsign.
  destruct (built this) as [tx|] eqn:Hb.
  2:{ now rewrite (sign_not_built _ _ _ Hb) in Hsign. }
  destruct (sign_cases force cb this tx Hb)
    as [(this1 & _ & _ & Heq)|[(e & _ & _ & Heq)|(this1 & Hpass & Heq)]];
    rewrite Heq in Hsign; try discriminate.
  destruct (passesReadCheck_keeps _ _ _ Hpass) as [Hb1 Ho1].
  assert (Hdata : forall d this2, simulationData this1 = (Return d, this2) ->
                                  fst (simulationData this) = Return d).
  { intros d this2 Hd. destruct Hpass as [[_ ->]|[_ Hread]]; [now rewrite Hd|].
    destruct (isReadCall_cases this) as [(b & t & Hr & _ & _ & d0 & Hd0)|(e & Hr & _)];
      rewrite Hr in Hread; [|discriminate].
    injection Hread as -> ->. rewrite (simulationData_again _ _ _ Hd0) in Hd.
    injection Hd as <- <-. now rewrite Hd0. }
  unfold signAfterReadCheck in Hsign.
  destruct (orOption cb _) as [f|]; [|discriminate].
  destruct (needsNonInvokerSigningBy false this1); [|discriminate..].
  destruct (negb _); [discriminate|].
  destruct (simulationData this1) as [[d|e|] this2] eqn:Hd; [|discriminate..].
  rewrite Ho1 in Hsign.
  destruct (f _ _) as [signature|] eqn:Hf; [|discriminate].
  destruct (TransactionBuilder_fromXDR _ _) as [envelope|] eqn:Hdec; [|discriminate].
  injection Hsign as <-.
  exists f, tx, d, signature, envelope. repeat split; eauto.
Qed.

End Signing.

Section AuthEntries.
Context {collaborators : Collaborators} {network : Network}.

Lemma signLoop_frame authorize address n :
  forall i l o l',
    (forall j entry, (i <= j)%nat -> l !! j = Some entry -> credentialsSurviveCodec entry) ->
    signLoop authorize address n i l = (o, l') ->
    length l' = length l /\
    forall j entry, l !! j = Some entry -> (j < i)%nat \/ ~ heldBy address entry ->
                    l' !! j = Some entry.
Proof.
  induction n as [|n IH]; intros i l o l' Hcodec H; cbn in H.
  - inversion H; subst. tauto.
  - destruct (l !! i) as [entry|] eqn:Hi; [|inversion H; subst; tauto].
    assert (Hnext : forall j e, (S i <= j)%nat -> l !! j = Some e -> credentialsSurviveCodec e)
      by (intros j e Hj; apply Hcodec; lia).
    assert (Hskip : signLoop authorize address n (S i) l = (o, l') ->
                    length l' = length l /\
                    forall j e, l !! j = Some e -> (j < i)%nat \/ ~ heldBy address e ->
                                l' !! j = Some e).
    { intros H'. destruct (IH _ _ _ _ Hnext H') as [Hlen Hkeep]. split; [assumption|].
      intros j e Hj Hor. apply Hkeep; [assumption|].
      destruct Hor as [Hlt|Hnot]; [left; lia|now right]. }
    pose proof (Hcodec i entry (le_n i) Hi) as Hc. unfold credentialsSurviveCodec in Hc.
    rewrite Hc in H. destruct (xdr.credentials entry) as [|c] eqn:Hcred; [now apply Hskip|].
    case_bool_decide as Haddr; cbn in H; [|now apply Hskip].
    destruct (authorize entry) as [authorized|reason]; [|inversion H; subst; tauto].
    assert (Hcodec' : forall j e, (S i <= j)%nat -> <[i:=authorized]> l !! j = Some e ->
                                  credentialsSurviveCodec e).
    { intros j e Hj. rewrite list_lookup_insert_ne by lia. now apply Hnext. }
    destruct (IH _ _ _ _ Hcodec' H) as [Hlen Hkeep]. rewrite length_insert in Hlen.
    split; [assumption|]. intros j e Hj Hor.
    destruct (decide (j = i)) as [->|Hne].
    + exfalso. rewrite Hi in Hj. inversion Hj; subst e. destruct Hor as [Hlt|Hnot]; [lia|].
      apply Hnot. exists c. tauto.
    + apply Hkeep; [now rewrite list_lookup_insert_ne by congruence|].
      destruct Hor as [Hlt|Hnot]; [left; lia|now right].
Qed.

Lemma signLoop_signed authorize address n :
  forall i l l',
    (forall j entry, (i <= j)%nat -> l !! j = Some entry -> credentialsSurviveCodec entry) ->
    (length l <= i + n)%nat ->
    signLoop authorize address n i l = (Return tt, l') ->
    forall j entry, (i <= j)%nat -> l !! j = Some entry -> heldBy address entry ->
                    exists authorized, authorize entry = Answered authorized /\
                                       l' !! j = Some authorized.
Proof.
  induction n as [|n IH]; intros i l l' Hcodec Hlen H j e Hj Hl Hheld.
  - apply lookup_lt_Some in Hl. lia.
  - cbn in H. destruct (l !! i) as [entry|] eqn:Hi.
    2:{ apply lookup_ge_None in Hi. apply lookup_lt_Some in Hl. lia. }
    assert (Hnext : forall j e, (S i <= j)%nat -> l !! j = Some e -> credentialsSurviveCodec e)
      by (intros j0 e0 Hj0; apply Hcodec; lia).
    assert (Hskip : ~ heldBy address entry ->
                    signLoop authorize address n (S i) l = (Return tt, l') ->
                    exists authorized, authorize e = Answered authorized /\
                                       l' !! j = Some authorized).
    { intros Hnot H'. assert (j <> i) by (intros ->; rewrite Hi in Hl; congruence).
      apply (IH (S i) l l' Hnext); auto; lia. }
    pose proof (Hcodec i entry (le_n i) Hi) as Hc. unfold credentialsSurviveCodec in Hc.
    rewrite Hc in H. destruct (xdr.credentials entry) as [|c] eqn:Hcred.
    { apply Hskip; [|assumption]. intros (c' & Hc' & _). congruence. }
    case_bool_decide as Haddr; cbn in H.
    2:{ apply Hskip; [|assumption]. intros (c' & Hc' & Ha'). congruence. }
    destruct (authorize entry) as [authorized|reason] eqn:Hauth; [|discriminate].
    assert (Hcodec' : forall j e, (S i <= j)%nat -> <[i:=authorized]> l !! j = Some e ->
                                  credentialsSurviveCodec e).
    { intros j0 e0 Hj0. rewrite list_lookup_insert_ne by lia. now apply Hnext. }
    destruct (decide (j = i)) as [->|Hne].
    + rewrite Hi in Hl. inversion Hl; subst e. exists authorized. split; [assumption|].
      destruct (signLoop_frame _ _ _ _ _ _ _ Hcodec' H) as [_ Hkeep].
      apply Hkeep; [|left; lia]. apply list_lookup_insert_eq. now apply lookup_lt_Some in Hi.
    + apply (IH (S i) (<[i:=authorized]> l) l' Hcodec'); auto; try lia.
      * rewrite length_insert. lia.
      * now rewrite list_lookup_insert_ne by congruence.
Qed.

(** The loop itself throws nothing but what a collaborator declined with. *)
Lemma signLoop_outcome authorize address n :
  forall i l, fst (signLoop authorize address n i l) = Return tt \/
              exists reason, fst (signLoop authorize address n i l) = Throw (Rejected reason).
Proof.
  induction n as [|n IH]; intros i l; cbn; [now left|].
  destruct (l !! i) as [entry|]; [|now left].
  destruct (SorobanCredentials_fromXDR _) as [[|c]|]; [apply IH| |right; eauto].
  destruct (negb _); [apply IH|].
  destruct (authorize entry) as [authorized|reason]; [apply IH|right; eauto].
Qed.

Lemma signLoop_total authorize address n :
  (forall entry, exists authorized, authorize entry = Answered authorized) ->
  forall i l,
    (forall j entry, (i <= j)%nat -> l !! j = Some entry -> credentialsSurviveCodec entry) ->
    fst (signLoop authorize address n i l) = Return tt.
Proof.
  intros Htotal. induction n as [|n IH]; intros i l Hcodec; cbn; [reflexivity|].
  destruct (l !! i) as [entry|] eqn:Hi; [|reflexivity].
  assert (Hnext : forall j e, (S i <= j)%nat -> l !! j = Some e -> credentialsSurviveCodec e)
    by (intros j e Hj; apply Hcodec; lia).
  pose proof (Hcodec i entry (le_n i) Hi) as Hc. unfold credentialsSurviveCodec in Hc.
  rewrite Hc. destruct (xdr.credentials entry) as [|c]; [now apply IH|].
  destruct (negb _); [now apply IH|].
  destruct (Htotal entry) as [authorized ->]. apply IH.
  intros j e Hj. rewrite list_lookup_insert_ne by lia. now apply Hnext.
Qed.

Lemma authEntriesOf_write_auth this tx op l l' :
  built this = Some tx -> Transaction.operations tx !! 0%nat = Some op ->
  Operation_auth op = Some l ->
  authEntriesOf (write_auth l' this) = l'.
Proof.
  intros Hb Hop Hauth. unfold write_auth, authEntriesOf. rewrite Hb, Hop. cbn.
  rewrite list_lookup_insert_eq by (now apply lookup_lt_Some in Hop).
  destruct op; try discriminate. reflexivity.
Qed.

Lemma write_auth_keeps l' this :
  options (write_auth l' this) = options this /\ raw (write_auth l' this) = raw this /\
  simulationTransactionData (write_auth l' this) = simulationTransactionData this /\
  signed (write_auth l' this) = signed this.
Proof.
  unfold write_auth. destruct (built this) as [tx|]; [|tauto].
  destruct (Transaction.operations tx !! 0%nat); cbn; tauto.
Qed.

Lemma bindExpiration_run expiration this w :
  bindExpiration expiration (this, w) =
    (Return (pendingExpiration expiration w), (this, afterBinding expiration w)).
Proof. destruct expiration; reflexivity. Qed.

(** [signAuthEntries] on a finalized call, step by step. *)
Lemma signAuthEntries_run expiration signAuthEntry address authorizeEntry this w tx :
  built this = Some tx ->
  let signer := orOption signAuthEntry (Opt.signAuthEntry (options this)) in
  let target := orOption address (Opt.publicKey (options this)) in
  let w1 := afterBinding expiration w in
  signAuthEntries expiration signAuthEntry address authorizeEntry (this, w) =
    match (match authorizeEntry with
           | Some _ => Return tt
           | None => defaultStrategyChecks signer target this
           end) with
    | Return _ =>
      match Transaction.operations tx !! 0%nat with
      | None =>
        (Throw (TypeError_ "Cannot read properties of undefined (reading 'auth')"), (this, w1))
      | Some op =>
        match Operation_auth op with
        | None => (Return tt, (this, w1))
        | Some l =>
          let run :=
            signLoop
              (authorizeWith (default stellarBaseAuthorizeEntry authorizeEntry)
                 (entrySigner signer target) (pendingExpiration expiration w)
                 (Opt.networkPassphrase (options this)))
              target (length l) 0 l in
          (fst run, (write_auth (snd run) this, w1))
        end
      end
    | Throw e => (Throw e, (this, w1))
    | OutOfFuel => (OutOfFuel, (this, w1))
    end.
Proof.
  intros Hb signer target w1. unfold signAuthEntries. unfold bind at 1.
  rewrite bindExpiration_run. run_monad. rewrite Hb. fold signer target w1.
  destruct authorizeEntry as [custom|]; cbn.
  - destruct (Transaction.operations tx !! 0%nat) as [op|]; [|reflexivity].
    destruct (Operation_auth op) as [l|]; [|reflexivity].
    destruct (signLoop _ _ _ _ _) as [o l']. cbn. destruct o; reflexivity.
  - destruct (defaultStrategyChecks signer target this) as [[]|e|]; try reflexivity.
    destruct (Transaction.operations tx !! 0%nat) as [op|]; [|reflexivity].
    destruct (Operation_auth op) as [l|]; [|reflexivity].
    destruct (signLoop _ _ _ _ _) as [o l']. cbn. destruct o; reflexivity.
Qed.

Lemma signAuthEntries_not_built expiration signAuthEntry address authorizeEntry this w :
  built this = None ->
  signAuthEntries expiration signAuthEntry address authorizeEntry (this, w) =
    (Throw (Error_ "Transaction has not yet been assembled or simulated"),
     (this, afterBinding expiration w)).
Proof.
  intros Hb. unfold signAuthEntries. unfold bind at 1.
  rewrite bindExpiration_run. run_monad. rewrite Hb. reflexivity.
Qed.

Lemma authEntriesOf_finalized this tx op :
  built this = Some tx -> Transaction.operations tx !! 0%nat = Some op ->
  authEntriesOf this = default [] (Operation_auth op).
Proof. intros Hb Hop. unfold authEntriesOf. now rewrite Hb, Hop. Qed.

(** C7. [signAuthEntries] replaces only authorization entries that have
    address credentials whose address is the target address: every other
    entry of the operation is, at the same place, the same after the call
    as before, and the number of entries is unchanged.  This holds however
    the call ends.  The options, the signed envelope and the cached resource
    data are not written either.  The codec is assumed to give the
    credentials of the entries back unchanged. *)
Theorem signAuthEntries_frame expiration signAuthEntry address authorizeEntry
    (this : AssembledTransaction) (w : World) o this' w' :
  Forall credentialsSurviveCodec (authEntriesOf this) ->
  signAuthEntries expiration signAuthEntry address authorizeEntry (this, w) = (o, (this', w')) ->
  let target := orOption address (Opt.publicKey (options this)) in
  length (authEntriesOf this') = length (authEntriesOf this) /\
  (forall i entry,
     authEntriesOf this !! i = Some entry -> ~ heldBy target entry ->
     authEntriesOf this' !! i = Some entry) /\
  options this' = options this /\ signed this' = signed this /\
  simulationTransactionData this' = simulationTransactionData this.
Proof.
  intros Hcodec H target.
  destruct (built this) as [tx|] eqn:Hb.
  2:{ rewrite (signAuthEntries_not_built _ _ _ _ _ _ Hb) in H. inversion H; subst. tauto. }
  rewrite (signAuthEntries_run _ _ _ _ _ _ _ Hb) in H. fold target in H.
  destruct (match authorizeEntry with
            | Some _ => Return tt
            | None => defaultStrategyChecks _ target this
            end) as [[]|e|]; try (inversion H; subst; tauto).
  destruct (Transaction.operations tx !! 0%nat) as [op|] eqn:Hop;
    [|inversion H; subst; tauto].
  destruct (Operation_auth op) as [l|] eqn:Hauth; [|inversion H; subst; tauto].
  cbn zeta in H.
  destruct (signLoop _ target (length l) 0 l) as [o' l'] eqn:Hloop. cbn in H.
  inversion H; subst o' this' w'. clear H.
  rewrite (authEntriesOf_write_auth _ _ _ _ _ Hb Hop Hauth).
  rewrite (authEntriesOf_finalized _ _ _ Hb Hop) in *. rewrite Hauth in *. cbn in *.
  assert (Hc0 : forall j entry, (0 <= j)%nat -> l !! j = Some entry -> credentialsSurviveCodec entry).
  { intros j entry _ Hj. rewrite Forall_forall in Hcodec. apply Hcodec.
    apply list_elem_of_lookup. eauto. }
  destruct (signLoop_frame _ _ _ _ _ _ _ Hc0 Hloop) as [Hlen Hkeep].
  destruct (write_auth_keeps l' this) as (Ho & _ & Hd & Hs).
  repeat split; try assumption. intros i entry Hi Hnot. apply Hkeep; auto.
Qed.

Lemma defaultStrategyChecks_outcome signer target this ids :
  needsNonInvokerSigningBy false this = Return ids ->
  defaultStrategyChecks signer target this =
    if Nat.eqb (length ids) 0 then Throw NoUnsignedNonInvokerAuthEntries
    else if negb (bool_decide (default EmptyString target ∈ ids)) then Throw NoSignatureNeeded
    else match signer with
         | None => Throw NoSigner
         | Some _ => Return tt
         end.
Proof. intros H. unfold defaultStrategyChecks. now rewrite H. Qed.

(** C8. [signAuthEntries] on a finalized call.  With the default strategy
    (no [authorizeEntry] passed) it fails with
    [NoUnsignedNonInvokerAuthEntries] when [needsNonInvokerSigningBy()] is
    empty, else with [NoSignatureNeeded] when the target address is not in
    that list, else with [NoSigner] when no entry-signing callback is
    configured.  When no [expiration] is passed the ledger is asked for its
    latest sequence once, as the call starts, and every entry it signs is
    authorized until that sequence plus 100; when one is passed the ledger
    is not asked.  With a custom [authorizeEntry] the three checks are
    skipped: none of the three failures occurs, and the call returns
    whenever the custom function answers and the expiration is known. *)
Theorem signAuthEntries_default_strategy expiration signAuthEntry address
    (this : AssembledTransaction) (w : World) tx ids :
  built this = Some tx ->
  needsNonInvokerSigningBy false this = Return ids ->
  let target := orOption address (Opt.publicKey (options this)) in
  let signer := orOption signAuthEntry (Opt.signAuthEntry (options this)) in
  let run := signAuthEntries expiration signAuthEntry address None (this, w) in
  (ids = [] -> fst run = Throw NoUnsignedNonInvokerAuthEntries) /\
  (ids <> [] -> default EmptyString target ∉ ids -> fst run = Throw NoSignatureNeeded) /\
  (ids <> [] -> default EmptyString target ∈ ids -> signer = None ->
   fst run = Throw NoSigner) /\
  (snd (snd run) = match expiration with
                   | Some _ => w
                   | None => (w ++ [EvGetLatestLedger])%list
                   end) /\
  (forall sequence,
     expiration = None -> getLatestLedger_sequence w = Answered sequence ->
     Forall credentialsSurviveCodec (authEntriesOf this) ->
     fst run = Return tt ->
     forall i entry,
       authEntriesOf this !! i = Some entry -> heldBy target entry ->
       exists authorized,
         stellarBaseAuthorizeEntry entry (entrySigner signer target) (sequence + 100)
           (Opt.networkPassphrase (options this)) = Answered authorized /\
         authEntriesOf (fst (snd run)) !! i = Some authorized) /\
  (forall custom : AuthorizeEntry,
     let run' := signAuthEntries expiration signAuthEntry address (Some custom) (this, w) in
     fst run' <> Throw NoUnsignedNonInvokerAuthEntries /\
     fst run' <> Throw NoSignatureNeeded /\
     fst run' <> Throw NoSigner /\
     ((forall entry signEntry validUntil passphrase,
         exists authorized, custom entry signEntry validUntil passphrase = Answered authorized) ->
      (exists validUntil, pendingExpiration expiration w = Answered validUntil) ->
      Forall credentialsSurviveCodec (authEntriesOf this) ->
      fst run' = Return tt)).
Proof.
  intros Hb Hids target signer run.
  assert (Hop : exists op, Transaction.operations tx !! 0%nat = Some op).
  { unfold needsNonInvokerSigningBy in Hids. rewrite Hb in Hids.
    destruct (Transaction.operations tx !! 0%nat); [eauto|discriminate]. }
  destruct Hop as [op Hop].
  pose proof (signAuthEntries_run expiration signAuthEntry address None this w tx Hb) as Hrun.
  cbn zeta in Hrun. fold target signer run in Hrun.
  rewrite (defaultStrategyChecks_outcome _ _ _ _ Hids), Hop in Hrun.
  split; [|split; [|split; [|split; [|split]]]].
  - intros ->. rewrite Hrun. reflexivity.
  - intros Hne Hnotin. rewrite Hrun. destruct ids; [congruence|]. cbn.
    rewrite bool_decide_eq_false_2 by assumption. reflexivity.
  - intros Hne Hin Hs. rewrite Hrun. destruct ids; [congruence|]. cbn.
    rewrite bool_decide_eq_true_2 by assumption. cbn. rewrite Hs. reflexivity.
  - rewrite Hrun. unfold afterBinding.
    destruct (Nat.eqb (length ids) 0); [now destruct expiration|].
    destruct (negb _); [now destruct expiration|].
    destruct signer; [|now destruct expiration].
    destruct (Operation_auth op); now destruct expiration.
  - intros sequence -> Hseq Hcodec Hret i entry Hi Hheld.
    rewrite (authEntriesOf_finalized _ _ _ Hb Hop) in Hi, Hcodec.
    rewrite Hrun in Hret |- *.
    destruct (Nat.eqb (length ids) 0); [discriminate|].
    destruct (negb _); [discriminate|].
    destruct signer as [f|] eqn:Hsigner; [|discriminate].
    destruct (Operation_auth op) as [l|] eqn:Hauth; [|cbn in Hi; discriminate].
    cbn in Hi, Hcodec, Hret |- *.
    rewrite (authEntriesOf_write_auth _ _ _ _ _ Hb Hop Hauth).
    assert (Hc0 : forall j e, (0 <= j)%nat -> l !! j = Some e -> credentialsSurviveCodec e).
    { intros j e _ Hj. rewrite Forall_forall in Hcodec. apply Hcodec.
      apply list_elem_of_lookup. eauto. }
    destruct (signLoop _ target (length l) 0 l) as [o l'] eqn:Hloop. cbn in Hret. subst o.
    destruct (signLoop_signed _ _ _ _ _ _ Hc0 (le_n _) Hloop i entry (Nat.le_0_l i) Hi Hheld)
      as (authorized & Hauthz & Hl').
    exists authorized. split; [|assumption].
    unfold authorizeWith, pendingExpiration in Hauthz. rewrite Hseq in Hauthz. exact Hauthz.
  - intros custom run'.
    pose proof (signAuthEntries_run expiration signAuthEntry address (Some custom) this w tx Hb)
      as Hrun'.
    cbn zeta in Hrun'. fold target signer run' in Hrun'. rewrite Hop in Hrun'.
    assert (Hout : fst run' = Return tt \/ exists reason, fst run' = Throw (Rejected reason)).
    { rewrite Hrun'. destruct (Operation_auth op) as [l|]; [|now left]. cbn.
      apply signLoop_outcome. }
    repeat split.
    + destruct Hout as [->|[reason ->]]; discriminate.
    + destruct Hout as [->|[reason ->]]; discriminate.
    + destruct Hout as [->|[reason ->]]; discriminate.
    + intros Htotal [validUntil Hpending] Hcodec. rewrite Hrun'.
      rewrite (authEntriesOf_finalized _ _ _ Hb Hop) in Hcodec.
      destruct (Operation_auth op) as [l|]; [|reflexivity]. cbn.
      apply signLoop_total.
      * intros entry. unfold authorizeWith. rewrite Hpending. cbn. apply Htotal.
      * intros j e _ Hj. rewrite Forall_forall in Hcodec. apply Hcodec.
        apply list_elem_of_lookup. eauto.
Qed.

End AuthEntries.

Section Serialization.
Context {collaborators : Collaborators}.

Lemma toJSON_returns this d this1 :
  simulationData this = (Return d, this1) ->
  toJSON this =
    (Return {| json_method := Opt.method (options this);
               json_tx := Tx_toXDR <$> built this;
               json_simulationResult :=
                 {| json_auth := map SorobanAuthorizationEntry_toXDR (Api.auth (fst d));
                    json_retval := ScVal_toXDR (Api.retval (fst d)) |};
               json_simulationTransactionData := SorobanTransactionData_toXDR (snd d) |},
     this1).
Proof.
  intros H. pose proof (simulationData_again _ _ _ H) as H'.
  unfold toJSON. run_monad. rewrite H, H', H'. reflexivity.
Qed.

Lemma mapM_decode_encode {A : Type} (encode : A -> XDR_BASE64) (decode : XDR_BASE64 -> option A)
    (l : list A) :
  Forall (fun a => decode (encode a) = Some a) l ->
  mapM decode (map encode l) = Some l.
Proof.
  induction 1 as [|a l Ha _ IH]; cbn; [reflexivity|]. rewrite Ha. cbn. rewrite IH. reflexivity.
Qed.

(** C2. Round trip.  Let [x] be finalized and successfully simulated, and
    let the codec give back the four values it is handed here: the envelope
    of [x], each authorization entry of its simulation result, the return
    value and the transaction data.  Then [toJSON] returns, [fromJSON] with
    the options of [x] accepts what it returned, and the call it yields has
    the same decoded envelope as [x] and the same [simulationData] as [x],
    result and transaction data alike. *)
Theorem toJSON_fromJSON_roundtrip (x : AssembledTransaction) tx d x1 :
  truthy_string (Opt.publicKey (options x)) = true ->
  built x = Some tx ->
  simulationData x = (Return d, x1) ->
  TransactionBuilder_fromXDR (Tx_toXDR tx) (Opt.networkPassphrase (options x)) = Some tx ->
  Forall (fun a => SorobanAuthorizationEntry_fromXDR (SorobanAuthorizationEntry_toXDR a) = Some a)
         (Api.auth (fst d)) ->
  ScVal_fromXDR (ScVal_toXDR (Api.retval (fst d))) = Some (Api.retval (fst d)) ->
  SorobanTransactionData_fromXDR (SorobanTransactionData_toXDR (snd d)) = Some (snd d) ->
  exists json y,
    toJSON x = (Return json, x1) /\
    fromJSON (options x) json = Return y /\
    built y = built x /\
    simulationData y = (Return d, y) /\
    simulationResult y = Some (fst d) /\
    simulationTransactionData y = Some (snd d).
Proof.
  intros Hpk Hb Hd Htx Hauth Hret Hdata.
  eexists _, _. split; [apply (toJSON_returns _ _ _ Hd)|].
  unfold fromJSON, new_AssembledTransaction. rewrite Hpk, Hb. cbn.
  rewrite Htx, (mapM_decode_encode _ _ _ Hauth), Hret, Hdata.
  split; [reflexivity|]. cbn.
  assert (Hr : {| Api.auth := Api.auth (fst d); Api.retval := Api.retval (fst d) |} = fst d)
    by now destruct (fst d).
  rewrite Hr. repeat split.
  rewrite (surjective_pairing d) at 3. now apply simulationData_cached.
Qed.

End Serialization.

Section Simulation.
Context {collaborators : Collaborators} {network : Network}.

Lemma simulate_unfold fuel restore this w :
  simulate (S fuel) restore (this, w) =
    if default false (orOption restore (Opt.restore (options this))) then
      match restoreRequired this w with
      | Some (restorePreamble, this2, w1) => restoreAndResimulate fuel restorePreamble this2 w1
      | None => simulateOnce this w
      end
    else simulateOnce this w.
Proof.
  unfold simulateOnce, restoreRequired, ensureBuilt, restoreAndResimulate, restoreFootprint.
  cbn [simulate]. run_monad.
  assert (Hafter : forall tx this0, options this0 = options this ->
    match
      (match simulateTransaction w tx with
       | Answered v => Return v
       | Declined reason => Throw (Rejected reason)
       end)
    with
    | Return a =>
      (if default false (orOption restore (Opt.restore (options this))) &&
          Api.isSimulationRestore a
       then
         match a with
         | Api.SimulateTransactionRestoreResponse restorePreamble =>
           fun s : AssembledTransaction * World =>
             match
               (match getAccount (snd s) (Opt.publicKey (options this)) with
                | Answered v => Return v
                | Declined reason => Throw (Rejected reason)
                end)
             with
             | Return a0 =>
               let (o, s') :=
                 restoreFootprint_with (simulate fuel) restorePreamble (Some a0)
                   (fst s, (snd s ++ [EvGetAccount (Opt.publicKey (options this))])%list) in
               match o with
               | Return a1 =>
                 match Api.status a1 with
                 | Api.SUCCESS =>
                   fun s0 : AssembledTransaction * World =>
                     simulate fuel None
                       (set_raw (Some (invokeDraft (options this) (incrementSequenceNumber a0)))
                          (fst s0), snd s0)
                 | _ =>
                   fun s0 : AssembledTransaction * World =>
                     (Throw (RestorationFailure (Some a1)), s0)
                 end s'
               | Throw e => (Throw e, s')
               | OutOfFuel => (OutOfFuel, s')
               end
             | Throw e =>
               (Throw e, (fst s, (snd s ++ [EvGetAccount (Opt.publicKey (options this))])%list))
             | OutOfFuel =>
               (OutOfFuel, (fst s, (snd s ++ [EvGetAccount (Opt.publicKey (options this))])%list))
             end
         | _ =>
           fun s : AssembledTransaction * World =>
             (Throw (TypeError_ "Cannot read properties of undefined (reading 'restorePreamble')"), s)
         end
       else if Api.isSimulationSuccess restoreResponseIsSuccess a then
         fun s : AssembledTransaction * World =>
           (Return tt,
            (set_built (Some (TransactionBuilder_build (assembleTransaction tx a))) (fst s), snd s))
       else fun s : AssembledTransaction * World => (Return tt, s))
        (set_simulation (Some a) (clearCache this0), (w ++ [EvSimulateTransaction tx])%list)
    | Throw e => (Throw e, (clearCache this0, (w ++ [EvSimulateTransaction tx])%list))
    | OutOfFuel => (OutOfFuel, (clearCache this0, (w ++ [EvSimulateTransaction tx])%list))
    end =
    let once :=
      match simulateTransaction w tx with
      | Declined reason =>
        (Throw (Rejected reason), (clearCache this0, (w ++ [EvSimulateTransaction tx])%list))
      | Answered sim =>
        (Return tt,
         (if Api.isSimulationSuccess restoreResponseIsSuccess sim then
            set_built (Some (TransactionBuilder_build (assembleTransaction tx sim)))
              (set_simulation (Some sim) (clearCache this0))
          else set_simulation (Some sim) (clearCache this0),
          (w ++ [EvSimulateTransaction tx])%list))
      end in
    if default false (orOption restore (Opt.restore (options this))) then
      match
        (match simulateTransaction w tx with
         | Answered (Api.SimulateTransactionRestoreResponse restorePreamble) =>
           Some (restorePreamble,
                 set_simulation (Some (Api.SimulateTransactionRestoreResponse restorePreamble))
                   (clearCache this0),
                 (w ++ [EvSimulateTransaction tx])%list)
         | _ => None
         end)
      with
      | Some (restorePreamble, this2, w1) =>
        match getAccount w1 (Opt.publicKey (options this2)) with
        | Declined reason =>
          (Throw (Rejected reason),
           (this2, (w1 ++ [EvGetAccount (Opt.publicKey (options this2))])%list))
        | Answered account =>
          match restoreFootprint_with (simulate fuel) restorePreamble (Some account)
                  (this2, (w1 ++ [EvGetAccount (Opt.publicKey (options this2))])%list) with
          | (Return result, s3) =>
            match Api.status result with
            | Api.SUCCESS =>
              simulate fuel None
                (set_raw (Some (invokeDraft (options this2) (incrementSequenceNumber account)))
                   (fst s3), snd s3)
            | _ => (Throw (RestorationFailure (Some result)), s3)
            end
          | (Throw e, s3) => (Throw e, s3)
          | (OutOfFuel, s3) => (OutOfFuel, s3)
          end
        end
      | None => once
      end
    else once).
  { intros tx this0 Ho. cbn zeta.
    destruct (simulateTransaction w tx) as [sim|reason];
      [|destruct (default false _); reflexivity].
    destruct (default false (orOption restore (Opt.restore (options this)))).
    - destruct sim as [error|p|body]; cbn [Api.isSimulationRestore andb];
        try (destruct (Api.isSimulationSuccess _ _); reflexivity).
      cbn [fst snd options set_simulation clearCache set_simulationTransactionData
               set_simulationResult].
      rewrite Ho.
      destruct (getAccount _ _) as [account|reason]; [|reflexivity].
      destruct (restoreFootprint_with _ _ _ _) as [[result|e|] s3]; try reflexivity.
      destruct (Api.status result); reflexivity.
    - cbn [andb]. destruct (Api.isSimulationSuccess _ sim); reflexivity. }
  destruct (built this) as [tx|] eqn:Hb.
  - now apply Hafter.
  - destruct (raw this) as [draft|] eqn:Hr.
    + now apply Hafter.
    + destruct (default false _); reflexivity.
Qed.

Lemma restoreRequired_facts this w restorePreamble this2 w1 :
  restoreRequired this w = Some (restorePreamble, this2, w1) ->
  options this2 = options this /\
  exists tx, w1 = (w ++ [EvSimulateTransaction tx])%list.
Proof.
  unfold restoreRequired, ensureBuilt. intros H.
  destruct (built this) as [tx|] eqn:Hb.
  - destruct (simulateTransaction w tx) as [[error|p|body]|reason]; inversion H; subst.
    split; [reflexivity|eauto].
  - destruct (raw this) as [draft|]; [|discriminate].
    destruct (simulateTransaction w _) as [[error|p|body]|reason]; inversion H; subst.
    split; [reflexivity|eauto].
Qed.

Lemma simulateOnce_facts this w o this' w' :
  simulateOnce this w = (o, (this', w')) ->
  o <> OutOfFuel /\ options this' = options this /\ signed this' = signed this /\
  (o = Return tt ->
   cachePopulated this' = false /\ is_Some (simulation this') /\ is_Some (built this')) /\
  match ensureBuilt this with
  | Some (tx, _) => w' = (w ++ [EvSimulateTransaction tx])%list
  | None => w' = w /\ exists e, o = Throw e
  end.
Proof.
  unfold simulateOnce. destruct (ensureBuilt this) as [[tx this0]|] eqn:He.
  - assert (Ho : options this0 = options this /\ signed this0 = signed this /\
                 is_Some (built this0)).
    { unfold ensureBuilt in He. destruct (built this) eqn:Hb.
      - inversion He; subst. rewrite Hb. eauto.
      - destruct (raw this); inversion He; subst. cbn. eauto. }
    destruct Ho as (Ho & Hs & Hb).
    destruct (simulateTransaction w tx) as [sim|reason]; intros H; inversion H; subst.
    + repeat split; try discriminate.
      * now destruct (Api.isSimulationSuccess _ sim).
      * now destruct (Api.isSimulationSuccess _ sim).
      * now destruct (Api.isSimulationSuccess _ sim).
      * destruct (Api.isSimulationSuccess _ sim); cbn; eauto.
      * destruct (Api.isSimulationSuccess _ sim); cbn; eauto.
    + repeat split; try discriminate; assumption.
  - intros H. inversion H; subst. repeat split; try discriminate. eauto.
Qed.

Lemma submissions_app a b : submissions (a ++ b)%list = (submissions a + submissions b)%nat.
Proof. unfold submissions. now rewrite List.filter_app, length_app. Qed.

Lemma simulations_app a b : simulations (a ++ b)%list = (simulations a + simulations b)%nat.
Proof. unfold simulations. now rewrite List.filter_app, length_app. Qed.

(** The history one plain simulation adds. *)
Lemma simulateOnce_history this w o this' w' :
  simulateOnce this w = (o, (this', w')) ->
  (forall attempt, o <> Throw (RestorationFailure attempt)) /\
  exists events, w' = (w ++ events)%list /\ submissions events = 0%nat /\
                 (simulations events <= 1)%nat.
Proof.
  unfold simulateOnce. destruct (ensureBuilt this) as [[tx this0]|].
  - destruct (simulateTransaction w tx) as [sim|reason]; intros H; inversion H; subst;
      (split; [discriminate|]); exists [EvSimulateTransaction tx]; cbn; auto.
  - intros H. inversion H; subst. split; [discriminate|]. exists []. rewrite app_nil_r.
    cbn. auto.
Qed.

(** With no restore wanted, [simulate] is a single simulation. *)
Lemma simulate_plain fuel restore this w :
  default false (orOption restore (Opt.restore (options this))) = false ->
  simulate (S fuel) restore (this, w) = simulateOnce this w.
Proof.
  intros Hr. rewrite simulate_unfold, Hr. reflexivity.
Qed.

(** [restoreFootprint] with a signer: one simulation of the restore
    transaction, then at most one submission; the caller's object is not
    touched. *)
Lemma restoreFootprint_steps fuel restorePreamble account this w cb o this' w' :
  Opt.signTransaction (options this) = Some cb ->
  truthy_string (Opt.publicKey (options this)) = true ->
  restoreFootprint (S fuel) restorePreamble (Some account) (this, w) = (o, (this', w')) ->
  let restoreTx := restoreTransaction (options this) restorePreamble account in
  this' = this /\ o <> OutOfFuel /\
  ((w' = (w ++ [EvSimulateTransaction restoreTx])%list /\
    exists e, o = Throw e /\ forall attempt, e <> RestorationFailure attempt) \/
   (exists envelope,
      w' = (w ++ [EvSimulateTransaction restoreTx; EvSentTransactionInit envelope])%list /\
      o = match SentTransaction_init (w ++ [EvSimulateTransaction restoreTx])%list envelope with
          | Answered sent =>
            match getTransactionResponse sent with
            | Some response => Return response
            | None => Throw (RestorationFailure None)
            end
          | Declined reason => Throw (Rejected reason)
          end)).
Proof.
  intros Hcb Hpk H restoreTx.
  unfold restoreFootprint, restoreFootprint_with, buildFootprintRestoreTransaction in H.
  unfold new_AssembledTransaction in H.
  run_monad. rewrite Hcb, Hpk in H. cbn [negb] in H.
  rewrite simulate_plain in H by reflexivity. cbn [fst snd] in H.
  match type of H with
  | context [simulateOnce ?obj w] =>
    destruct (simulateOnce obj w) as [o1 [restoreTx1 w1]] eqn:Hsim;
      destruct (simulateOnce_facts _ _ _ _ _ Hsim) as (Hfuel & Ho1 & Hs1 & _ & Hw1);
      destruct (simulateOnce_history _ _ _ _ _ Hsim) as [Hno _]
  end.
  cbn in Hs1, Hw1. fold (restoreTransaction (options this) restorePreamble account) in Hw1.
  fold restoreTx in Hw1. subst w1.
  destruct o1 as [[]|e|]; [| |congruence].
  2:{ inversion H; subst. split; [reflexivity|]. split; [discriminate|]. left.
      split; [reflexivity|]. exists e. split; [reflexivity|]. intros a ->. now apply (Hno a). }
  cbn [fst snd] in H. unfold signAndSend, send in H. run_monad. rewrite Hs1 in H.
  cbn [fst snd] in H.
  match type of H with
  | context [sign ?f ?c restoreTx1] =>
    destruct (sign f c restoreTx1) as [o2 restoreTx2] eqn:Hsign;
      destruct (sign_outcome _ _ _ _ _ Hsign) as [Hfuel2 Hsigned]
  end.
  destruct o2 as [[]|e|]; [| |congruence].
  2:{ inversion H; subst. split; [reflexivity|]. split; [discriminate|]. left.
      split; [reflexivity|]. exists e. split; [reflexivity|]. intros a ->.
      now apply sign_never_restoration_failure in Hsign. }
  destruct (Hsigned eq_refl) as [envelope Henv]. cbn [fst snd] in H. rewrite Henv in H.
  cbn [fst snd] in H.
  destruct (SentTransaction_init _ envelope) as [sent|reason] eqn:Hsent.
  - cbn [fst snd] in H. destruct (getTransactionResponse sent) as [response|] eqn:Hresp.
    + inversion H; subst. split; [reflexivity|]. split; [discriminate|]. right.
      exists envelope. rewrite <- app_assoc. split; [reflexivity|].
      rewrite Hsent, Hresp. reflexivity.
    + inversion H; subst. split; [reflexivity|]. split; [discriminate|]. right.
      exists envelope. rewrite <- app_assoc. split; [reflexivity|].
      rewrite Hsent, Hresp. reflexivity.
  - inversion H; subst. split; [reflexivity|]. split; [discriminate|]. right.
    exists envelope. rewrite <- app_assoc. split; [reflexivity|]. rewrite Hsent. reflexivity.
Qed.

Lemma sign_defaults force cb this :
  sign (Some (default false force)) (orOption cb (Opt.signTransaction (options this))) this
  = sign force cb this.
Proof.
  unfold sign. run_monad.
  destruct force as [[|]|], cb, (Opt.signTransaction (options this)); reflexivity.
Qed.

(** [signAndSend] on its two paths: an envelope is there and goes out as it
    is, or [sign] runs first. *)
Lemma signAndSend_run force cb this w :
  signAndSend force cb (this, w) =
    match signed this with
    | Some envelope =>
      (submit w envelope, (this, (w ++ [EvSentTransactionInit envelope])%list))
    | None =>
      match sign force cb this with
      | (Return _, this1) =>
        match signed this1 with
        | Some envelope =>
          (submit w envelope, (this1, (w ++ [EvSentTransactionInit envelope])%list))
        | None =>
          (Throw (Error_ "The transaction has not yet been signed. Run `sign` first, or use `signAndSend` instead."),
           (this1, w))
        end
      | (Throw e, this1) => (Throw e, (this1, w))
      | (OutOfFuel, this1) => (OutOfFuel, (this1, w))
      end
    end.
Proof.
  unfold signAndSend, send, submit. run_monad.
  destruct (signed this) as [envelope|] eqn:Hs; cbn [fst snd].
  - rewrite Hs. cbn [fst snd]. now destruct (SentTransaction_init w envelope).
  - rewrite sign_defaults.
    destruct (sign force cb this) as [[[]|e|] this1]; cbn [fst snd]; try reflexivity.
    destruct (signed this1) as [envelope|]; cbn [fst snd]; [|reflexivity].
    now destruct (SentTransaction_init w envelope).
Qed.

(** [restoreFootprint] with an account, a wallet and a public key, step by
    step: the restore call is simulated once, signed, and submitted. *)
Lemma restoreFootprint_run fuel restorePreamble account this w f :
  Opt.signTransaction (options this) = Some f ->
  truthy_string (Opt.publicKey (options this)) = true ->
  restoreFootprint (S fuel) restorePreamble (Some account) (this, w) =
    match simulate (S fuel) (Some false) (restoreCall (options this) restorePreamble account, w) with
    | (Return _, (simulated, w1)) =>
      match sign None None simulated with
      | (Return _, signedCall) =>
        match signed signedCall with
        | Some envelope =>
          (match SentTransaction_init w1 envelope with
           | Answered sent =>
             match getTransactionResponse sent with
             | Some response => Return response
             | None => Throw (RestorationFailure None)
             end
           | Declined reason => Throw (Rejected reason)
           end,
           (this, (w1 ++ [EvSentTransactionInit envelope])%list))
        | None =>
          (Throw (Error_ "The transaction has not yet been signed. Run `sign` first, or use `signAndSend` instead."),
           (this, w1))
        end
      | (Throw e, _) => (Throw e, (this, w1))
      | (OutOfFuel, _) => (OutOfFuel, (this, w1))
      end
    | (Throw e, (_, w1)) => (Throw e, (this, w1))
    | (OutOfFuel, (_, w1)) => (OutOfFuel, (this, w1))
    end.
Proof.
  intros Hcb Hpk.
  unfold restoreFootprint, restoreFootprint_with, buildFootprintRestoreTransaction.
  unfold new_AssembledTransaction.
  run_monad. rewrite Hcb, Hpk. cbn [negb fst snd].
  change (set_raw _ _) with (restoreCall (options this) restorePreamble account).
  rewrite simulate_plain by reflexivity.
  destruct (simulateOnce (restoreCall (options this) restorePreamble account) w)
    as [o1 [simulated w1]] eqn:Hsim.
  destruct (simulateOnce_facts _ _ _ _ _ Hsim) as (_ & _ & Hs1 & _).
  destruct o1 as [[]|e|]; cbn [fst snd]; try reflexivity.
  rewrite signAndSend_run, Hs1. cbn [signed restoreCall].
  destruct (sign None None simulated) as [[[]|e|] signedCall]; cbn [fst snd]; try reflexivity.
  destruct (signed signedCall) as [envelope|]; cbn [fst snd]; [|reflexivity].
  unfold submit. destruct (SentTransaction_init w1 envelope) as [sent|]; cbn [fst snd]; [|reflexivity].
  now destruct (getTransactionResponse sent).
Qed.

Lemma restoreFootprint_no_signer fuel restorePreamble account this w :
  Opt.signTransaction (options this) = None ->
  restoreFootprint fuel restorePreamble account (this, w) =
    (Throw (Error_ "For automatic restore to work you must provide a signTransaction function when initializing your Client"),
     (this, w)).
Proof.
  intros Hcb. unfold restoreFootprint, restoreFootprint_with. run_monad. now rewrite Hcb.
Qed.

Lemma restoreFootprint_no_publicKey fuel restorePreamble account this w :
  is_Some (Opt.signTransaction (options this)) ->
  truthy_string (Opt.publicKey (options this)) = false ->
  restoreFootprint fuel restorePreamble (Some account) (this, w) =
    (Throw (Error_ "Public key not provided. Have you forgotten to set the `publicKey` in AssembledTransactionOptions?"),
     (this, w)).
Proof.
  intros [cb Hcb] Hpk.
  unfold restoreFootprint, restoreFootprint_with, buildFootprintRestoreTransaction,
    new_AssembledTransaction.
  run_monad. rewrite Hcb, Hpk. reflexivity.
Qed.

(** The history a restore adds, whoever calls it. *)
Lemma restoreFootprint_history fuel restorePreamble account this w o this' w' :
  restoreFootprint (S fuel) restorePreamble (Some account) (this, w) = (o, (this', w')) ->
  this' = this /\ o <> OutOfFuel /\
  (forall attempt, o <> Throw (RestorationFailure (Some attempt))) /\
  exists events, w' = (w ++ events)%list /\ (submissions events <= 1)%nat /\
                 (simulations events <= 1)%nat.
Proof.
  intros H. destruct (Opt.signTransaction (options this)) as [cb|] eqn:Hcb.
  2:{ rewrite (restoreFootprint_no_signer _ _ _ _ _ Hcb) in H. inversion H; subst.
      repeat split; try discriminate. exists []. rewrite app_nil_r. cbn. auto. }
  destruct (truthy_string (Opt.publicKey (options this))) eqn:Hpk.
  2:{ rewrite restoreFootprint_no_publicKey in H by eauto. inversion H; subst.
      repeat split; try discriminate. exists []. rewrite app_nil_r. cbn. auto. }
  destruct (restoreFootprint_steps _ _ _ _ _ _ _ _ _ Hcb Hpk H)
    as (-> & Hfuel & [(-> & e & -> & Hnot)|(envelope & -> & ->)]).
  - repeat split; try assumption.
    + intros attempt He. inversion He; subst. now apply (Hnot (Some attempt)).
    + eexists. split; [reflexivity|]. cbn. auto.
  - repeat split; try assumption.
    + intros attempt. destruct (SentTransaction_init _ envelope) as [sent|reason]; [|discriminate].
      destruct (getTransactionResponse sent); discriminate.
    + eexists. split; [reflexivity|]. cbn. auto.
Qed.

(** C9, as the code has it.  Without an envelope-signing callback in the
    options [restoreFootprint] fails at once with a plain error, touching
    neither the object nor the network.  With one, it takes the account
    given or else asks for it, and makes a call whose draft has one
    operation, a footprint restore, with the resource data and the minimum
    resource fee of the preamble, for that account.  It simulates that call
    with [restore] false: one simulation request, for the restore
    transaction, and no nested restore whatever the answer and the options;
    a simulation that throws ends the restore.  It then signs the simulated
    call, and a [sign] that throws ends the restore with nothing submitted.
    When [sign] returns, what was signed is the restore transaction as
    assembled from its simulation and re-finalized, signed by the callback
    of the options, and that signed envelope is submitted, once.  When the
    submission yields no transaction response the restore fails with
    [RestorationFailure]; when it yields a response that is a success,
    that response is returned.  The object of the caller is left as it
    was. *)
Theorem restoreFootprint_spec fuel restorePreamble account
    (this : AssembledTransaction) (w : World) :
  let draft :=
    restoreDraft (options this) (inl (Api.restore_transactionData restorePreamble)) account
      (Api.restore_minResourceFee restorePreamble) in
  let restoreTx := TransactionBuilder_build draft in
  let publicKey := Opt.publicKey (options this) in
  (TransactionBuilder.operations draft = [RestoreFootprint] /\
   TransactionBuilder.sorobanData draft
   = Some (SorobanDataBuilder_build (Api.restore_transactionData restorePreamble)) /\
   TransactionBuilder.fee draft = Api.restore_minResourceFee restorePreamble /\
   TransactionBuilder.source draft = account /\
   raw (restoreCall (options this) restorePreamble account) = Some draft) /\
  (Opt.signTransaction (options this) = None ->
   forall given,
     restoreFootprint fuel restorePreamble given (this, w) =
       (Throw (Error_ "For automatic restore to work you must provide a signTransaction function when initializing your Client"),
        (this, w))) /\
  (is_Some (Opt.signTransaction (options this)) ->
   restoreFootprint fuel restorePreamble None (this, w) =
     match getAccount w publicKey with
     | Answered current =>
       restoreFootprint fuel restorePreamble (Some current)
         (this, (w ++ [EvGetAccount publicKey])%list)
     | Declined reason => (Throw (Rejected reason), (this, (w ++ [EvGetAccount publicKey])%list))
     end) /\
  (forall f,
     Opt.signTransaction (options this) = Some f ->
     truthy_string publicKey = true ->
     forall o1 simulated w1,
       simulate (S fuel) (Some false) (restoreCall (options this) restorePreamble account, w)
       = (o1, (simulated, w1)) ->
       w1 = (w ++ [EvSimulateTransaction restoreTx])%list /\ o1 <> OutOfFuel /\
       (forall e,
          o1 = Throw e ->
          restoreFootprint (S fuel) restorePreamble (Some account) (this, w)
          = (Throw e, (this, w1))) /\
       (o1 = Return tt ->
        (exists sim,
           simulateTransaction w restoreTx = Answered sim /\
           built simulated =
             Some (if Api.isSimulationSuccess restoreResponseIsSuccess sim
                   then TransactionBuilder_build (assembleTransaction restoreTx sim)
                   else restoreTx)) /\
        (forall e unsignedCall,
           sign None None simulated = (Throw e, unsignedCall) ->
           restoreFootprint (S fuel) restorePreamble (Some account) (this, w)
           = (Throw e, (this, w1))) /\
        (forall signedCall,
           sign None None simulated = (Return tt, signedCall) ->
           exists tx1 d signature envelope o,
             built simulated = Some tx1 /\
             fst (simulationData simulated) = Return d /\
             f (Tx_toXDR (refinalize (options simulated) tx1 (snd d)))
               (Opt.networkPassphrase (options this)) = Answered signature /\
             TransactionBuilder_fromXDR signature (Opt.networkPassphrase (options this))
             = Some envelope /\
             restoreFootprint (S fuel) restorePreamble (Some account) (this, w)
             = (o, (this, (w1 ++ [EvSentTransactionInit envelope])%list)) /\
             (forall reason,
                SentTransaction_init w1 envelope = Declined reason ->
                o = Throw (Rejected reason)) /\
             (forall sent,
                SentTransaction_init w1 envelope = Answered sent ->
                getTransactionResponse sent = None ->
                o = Throw (RestorationFailure None)) /\
             (forall sent response,
                SentTransaction_init w1 envelope = Answered sent ->
                getTransactionResponse sent = Some response ->
                Api.status response = Api.SUCCESS ->
                o = Return response)))).
Proof.
  intros draft restoreTx publicKey. split; [|split; [|split]].
  - repeat split.
  - intros Hcb given. now apply restoreFootprint_no_signer.
  - intros [cb Hcb]. unfold restoreFootprint, restoreFootprint_with. run_monad.
    rewrite Hcb. cbn [fst snd]. fold publicKey.
    destruct (getAccount w publicKey); cbn [fst snd]; rewrite ?Hcb; reflexivity.
  - intros f Hcb Hpk o1 simulated w1 Hsim.
    rewrite (restoreFootprint_run _ _ _ _ _ f Hcb Hpk), Hsim.
    rewrite simulate_plain in Hsim by reflexivity.
    destruct (simulateOnce_facts _ _ _ _ _ Hsim) as (Hfuel & Ho1 & Hs1 & _ & Hw1).
    cbn [ensureBuilt restoreCall built raw] in Hw1. fold draft in Hw1. fold restoreTx in Hw1.
    cbn [options restoreCall] in Ho1.
    split; [exact Hw1|]. split; [exact Hfuel|]. split.
    { intros e ->. reflexivity. }
    intros ->. split; [|split].
    + unfold simulateOnce in Hsim. cbn [ensureBuilt restoreCall built raw] in Hsim.
      fold draft in Hsim. fold restoreTx in Hsim.
      destruct (simulateTransaction w restoreTx) as [sim|reason]; [|discriminate].
      exists sim. split; [reflexivity|]. injection Hsim as <- _.
      now destruct (Api.isSimulationSuccess restoreResponseIsSuccess sim).
    + intros e unsignedCall ->. reflexivity.
    + intros signedCall Hsign. rewrite Hsign.
      destruct (sign_returns _ _ _ _ Hsign)
        as (f' & tx1 & d & signature & envelope & Hf & Hb & Hd & Hanswer & Hdec & Hsigned & _).
      rewrite Ho1 in Hf, Hanswer, Hdec. cbn in Hf, Hanswer, Hdec.
      rewrite Hcb in Hf. injection Hf as <-.
      rewrite Hsigned.
      exists tx1, d, signature, envelope. eexists.
      split; [exact Hb|]. split; [exact Hd|].
      split; [rewrite Ho1; exact Hanswer|]. split; [exact Hdec|].
      split; [reflexivity|]. split; [|split].
      * now intros reason ->.
      * now intros sent -> ->.
      * now intros sent response -> -> _.
Qed.

(** C1, as the code has it.  Let the [restore] option of the call not be
    set to true, so that a restore can only have been asked for through the
    argument of [simulate].  Then one invocation of [simulate] finishes
    within two nested calls, submits at most one restore transaction and
    asks for at most three simulations (the call, the restore transaction,
    the call again).  When it returns with the last response still
    restore-required, no further restore has been attempted and reading
    [simulationData] fails with [ExpiredState]; when it fails with
    [RestorationFailure] carrying a response, that response is not a
    success. *)
Theorem simulate_restores_at_most_once fuel restore
    (this : AssembledTransaction) (w : World) o this' w' :
  Opt.restore (options this) <> Some true ->
  simulate (S (S fuel)) restore (this, w) = (o, (this', w')) ->
  o <> OutOfFuel /\
  (exists events,
     w' = (w ++ events)%list /\ (submissions events <= 1)%nat /\ (simulations events <= 3)%nat) /\
  (o = Return tt ->
   forall restorePreamble,
     simulation this' = Some (Api.SimulateTransactionRestoreResponse restorePreamble) ->
     simulationData this' = (Throw ExpiredState, this')) /\
  (forall attempt,
     o = Throw (RestorationFailure (Some attempt)) -> Api.status attempt <> Api.SUCCESS).
Proof.
  intros Hopt H.
  assert (Hoff : forall t, options t = options this ->
                           default false (orOption None (Opt.restore (options t))) = false).
  { intros t ->. cbn. destruct (Opt.restore (options this)) as [[|]|]; cbn; congruence. }
  assert (Hexpired : forall t p, cachePopulated t = false ->
            simulation t = Some (Api.SimulateTransactionRestoreResponse p) ->
            simulationData t = (Throw ExpiredState, t)).
  { intros t p Hc Hs. rewrite (simulationData_uncached t Hc), Hs. reflexivity. }
  assert (Hplain : simulateOnce this w = (o, (this', w')) ->
    o <> OutOfFuel /\
    (exists events,
       w' = (w ++ events)%list /\ (submissions events <= 1)%nat /\ (simulations events <= 3)%nat) /\
    (o = Return tt ->
     forall restorePreamble,
       simulation this' = Some (Api.SimulateTransactionRestoreResponse restorePreamble) ->
       simulationData this' = (Throw ExpiredState, this')) /\
    (forall attempt,
       o = Throw (RestorationFailure (Some attempt)) -> Api.status attempt <> Api.SUCCESS)).
  { intros Hsim.
    destruct (simulateOnce_facts _ _ _ _ _ Hsim) as (Hfuel1 & _ & _ & Hret1 & _).
    destruct (simulateOnce_history _ _ _ _ _ Hsim) as (Hno1 & ev1 & -> & Hsub1 & Hsims1).
    split; [assumption|]. split; [|split].
    - exists ev1. repeat split; lia.
    - intros Hr p Hs. destruct (Hret1 Hr) as (Hc & _). now apply (Hexpired _ p).
    - intros attempt He. exfalso. exact (Hno1 (Some attempt) He). }
  rewrite simulate_unfold in H.
  destruct (default false (orOption restore (Opt.restore (options this)))); [|now apply Hplain].
  destruct (restoreRequired this w) as [[[p this2] w1]|] eqn:Hrr; [|now apply Hplain].
  destruct (restoreRequired_facts _ _ _ _ _ Hrr) as (Ho1 & tx1 & ->).
  pose (ev1 := [EvSimulateTransaction tx1]).
  assert (Hsub1 : submissions ev1 = 0%nat) by reflexivity.
  assert (Hsims1 : (simulations ev1 <= 1)%nat) by (cbn; lia).
  fold ev1 in H. clearbody ev1.
  unfold restoreAndResimulate in H. rewrite Ho1 in H.
  destruct (getAccount _ _) as [account|reason].
  2:{ inversion H; subst. split; [discriminate|]. split; [|split; discriminate].
      eexists. rewrite <- app_assoc. split; [reflexivity|].
      rewrite submissions_app, simulations_app. cbn. lia. }
  destruct (restoreFootprint (S fuel) p (Some account) _) as [o3 [this3 w3]] eqn:Hrestore.
  destruct (restoreFootprint_history _ _ _ _ _ _ _ _ Hrestore)
    as (-> & Hfuel3 & Hno3 & ev3 & -> & Hsub3 & Hsims3).
  destruct o3 as [result|e|]; [| |congruence].
  2:{ inversion H; subst. split; [discriminate|]. split; [|split; [discriminate|]].
      - eexists. rewrite <- !app_assoc. split; [reflexivity|].
        rewrite !submissions_app, !simulations_app. cbn. lia.
      - intros attempt He. exfalso. inversion He; subst. now apply (Hno3 attempt). }
  destruct (Api.status result) eqn:Hstatus.
  2,3: inversion H; subst; (split; [discriminate|]); (split; [|split; [discriminate|]]);
    [ eexists; rewrite <- !app_assoc; (split; [reflexivity|]);
      rewrite !submissions_app, !simulations_app; cbn; lia
    | intros attempt He; inversion He; subst; congruence ].
  cbn [fst snd] in H. rewrite simulate_plain in H by (apply Hoff; cbn; assumption).
  destruct (simulateOnce_facts _ _ _ _ _ H) as (Hfuel4 & _ & _ & Hret4 & _).
  destruct (simulateOnce_history _ _ _ _ _ H) as (Hno4 & ev4 & -> & Hsub4 & Hsims4).
  split; [assumption|]. split; [|split].
  - eexists. rewrite <- !app_assoc. split; [reflexivity|].
    rewrite !submissions_app, !simulations_app. cbn. lia.
  - intros Hr p' Hs. destruct (Hret4 Hr) as (Hc & _). now apply (Hexpired _ p').
  - intros attempt He. exfalso. exact (Hno4 (Some attempt) He).
Qed.

End Simulation.

(** * The worked example, run *)

Example spread_Set_keeps_first_occurrences :
  spread_Set ["b"; "a"; "b"; "c"; "a"] = ["b"; "a"; "c"].
Proof. reflexivity. Qed.

Example swap_awaits_bob_and_the_token :
  needsNonInvokerSigningBy false swapCall = Return [BOB; TOKEN_A] /\
  needsNonInvokerSigningBy false blank = Throw NotYetBuilt.
Proof. vm_compute. split; reflexivity. Qed.

Example swap_is_no_read_call :
  fst (isReadCall swapCall) = Return false /\ fst (isReadCall readCall) = Return true.
Proof. vm_compute. split; reflexivity. Qed.

Example read_call_needs_no_signature :
  fst (@sign exampleCollaborators None None readCall) = Throw NoSignatureNeeded /\
  fst (@sign exampleCollaborators (Some true) None readCall) = Return tt.
Proof. vm_compute. split; reflexivity. Qed.

Example bob_signs_with_the_default_expiration :
  let run :=
    @signAuthEntries exampleCollaborators (exampleNetwork swapScript)
      None None None None (bobCopy, []) in
  fst run = Return tt /\
  snd (snd run) = [EvGetLatestLedger] /\
  authEntriesOf (fst (snd run)) =
    [invokerEntry;
     {| xdr.credentials :=
          xdr.sorobanCredentialsAddress
            {| xdr.address := BOB; xdr.nonce := 7; xdr.signatureExpirationLedger := 1100;
               xdr.signature := {| xdr.switch_name := "scvVec"; xdr.value := "signed:GBOB" |} |};
        xdr.rootInvocation := "swap" |};
     unsignedEntry TOKEN_A].
Proof. vm_compute. repeat split; reflexivity. Qed.

Example after_bob_alice_can_sign :
  needsNonInvokerSigningBy false aliceCopy = Return [TOKEN_A] /\
  needsNonInvokerSigningBy true aliceCopy = Return [BOB; TOKEN_A] /\
  fst (@sign exampleCollaborators None None aliceCopy) = Return tt /\
  Transaction.signatures
    <$> signed (snd (@sign exampleCollaborators None None aliceCopy)) = Some [ALICE].
Proof. vm_compute. repeat split; reflexivity. Qed.

Example archived_state_without_restore :
  let run :=
    @simulate exampleCollaborators (exampleNetwork archivedScript)
      1 None (draftCall None, []) in
  fst run = Return tt /\
  simulations (snd (snd run)) = 1%nat /\
  fst (simulationData (fst (snd run))) = Throw ExpiredState.
Proof. vm_compute. repeat split; reflexivity. Qed.

Example failed_restore_is_a_restoration_failure :
  fst (@simulate exampleCollaborators (exampleNetwork failingScript)
         2 (Some true) (draftCall None, []))
  = Throw (RestorationFailure (Some failed)).
Proof. vm_compute. reflexivity. Qed.

Example restore_asks_for_the_account_and_submits_once :
  let run :=
    @restoreFootprint exampleCollaborators (exampleNetwork archivedScript)
      1 archivedPreamble None (draftCall None, []) in
  fst run = Return succeeded /\
  simulations (snd (snd run)) = 1%nat /\ submissions (snd (snd run)) = 1%nat /\
  head (snd (snd run)) = Some (EvGetAccount (Some ALICE)).
Proof. vm_compute. repeat split; reflexivity. Qed.

(** * The theorems on the worked example *)

Ltac forall_by_computation :=
  match goal with
  | |- Forall _ ?l => let l' := eval vm_compute in l in change l with l'
  end;
  repeat (constructor; [vm_compute; reflexivity|]); constructor.

Lemma run_eta {A B C : Type} (r : A * (B * C)) : r = (fst r, (fst (snd r), snd (snd r))).
Proof. now destruct r as [o [t w]]. Qed.

(** Solves [c = (Return ?v, ?s)] by running [c]. *)
Ltac by_running :=
  match goal with
  | |- ?c = (_, _) =>
    etransitivity; [apply (surjective_pairing c)|];
    apply (f_equal2 pair); [lazy; reflexivity|reflexivity]
  end.

(** Alice serializes her simulated call and reads it back. *)
Lemma toJSON_fromJSON_roundtrip_witness :
  exists d x1 json y,
    @toJSON exampleCollaborators swapCall = (Return json, x1) /\
    @fromJSON exampleCollaborators (options swapCall) json = Return y /\
    built y = built swapCall /\
    simulationData y = (Return d, y) /\
    simulationResult y = Some (fst d) /\
    simulationTransactionData y = Some (snd d).
Proof.
  eexists _, _.
  eapply (toJSON_fromJSON_roundtrip (collaborators := exampleCollaborators) swapCall).
  - reflexivity.
  - lazy. reflexivity.
  - by_running.
  - vm_compute. reflexivity.
  - forall_by_computation.
  - vm_compute. reflexivity.
  - vm_compute. reflexivity.
Defined.

(** Alice's call and Bob's deserialized copy agree on [isReadCall]. *)
Lemma isReadCall_pure_witness :
  exists d x' y' b,
    isReadCall swapCall = (Return b, x') /\ isReadCall bobCopy = (Return b, y') /\
    (b = true <->
     Api.auth (fst d) = [] /\ xdr.readWrite (xdr.footprint (xdr.resources (snd d))) = []).
Proof.
  eexists _, _, _.
  eapply (isReadCall_pure swapCall bobCopy).
  - by_running.
  - etransitivity; [apply (surjective_pairing (simulationData bobCopy))|].
    apply (f_equal2 pair); [vm_compute; reflexivity|reflexivity].
Defined.

(** With her wallet at hand Alice still cannot sign: Bob has not. *)
Lemma sign_checks_in_order_witness :
  exists this',
    @sign exampleCollaborators None None swapCall = (Throw (NeedsMoreSignatures [BOB]), this').
Proof.
  eexists.
  destruct (sign_checks_in_order (collaborators := exampleCollaborators)
              None None swapCall _ eq_refl) as (_ & _ & H & _).
  apply H. split; [right; split; [reflexivity|by_running]|].
  split; [exists (walletOf ALICE); reflexivity|]. split; [discriminate|].
  eexists. split; [lazy; reflexivity|reflexivity].
Defined.

(** Without a wallet the missing signer is reported, not Bob's missing
    signature. *)
Lemma sign_missing_signer_first_witness :
  exists this1,
    @sign exampleCollaborators None None walletlessCall = (Throw NoSigner, this1).
Proof.
  eexists.
  destruct (sign_missing_signer_first (collaborators := exampleCollaborators)
              None None walletlessCall _ eq_refl) as (H & _).
  apply H; [right; split; [reflexivity|by_running]|reflexivity].
Defined.

(** Bob signs his entry on his copy: the invoker's entry and the token
    contract's entry stay as they were. *)
Lemma signAuthEntries_frame_witness :
  let run :=
    @signAuthEntries exampleCollaborators (exampleNetwork swapScript)
      None None None None (bobCopy, []) in
  length (authEntriesOf (fst (snd run))) = length (authEntriesOf bobCopy) /\
  forall i entry,
    authEntriesOf bobCopy !! i = Some entry -> ~ heldBy (Some BOB) entry ->
    authEntriesOf (fst (snd run)) !! i = Some entry.
Proof.
  intros run.
  assert (Hcodec : Forall (@credentialsSurviveCodec exampleCollaborators) (authEntriesOf bobCopy))
    by forall_by_computation.
  assert (Hrun : run = (fst run, (fst (snd run), snd (snd run))))
    by apply run_eta.
  destruct (signAuthEntries_frame (collaborators := exampleCollaborators)
              (network := exampleNetwork swapScript)
              None None None None bobCopy [] _ _ _ Hcodec Hrun) as (Hlen & Hkeep & _).
  split; [exact Hlen|exact Hkeep].
Defined.

(** On Bob's copy nothing awaits Alice's signature. *)
Lemma signAuthEntries_default_strategy_witness :
  fst (@signAuthEntries exampleCollaborators (exampleNetwork swapScript)
         None None (Some ALICE) None (bobCopy, []))
  = Throw NoSignatureNeeded.
Proof.
  match eval vm_compute in (built bobCopy) with
  | Some ?tx => assert (Hb : built bobCopy = Some tx) by (vm_compute; reflexivity)
  end.
  assert (Hn : needsNonInvokerSigningBy false bobCopy = Return [BOB; TOKEN_A])
    by (vm_compute; reflexivity).
  destruct (signAuthEntries_default_strategy (collaborators := exampleCollaborators)
              (network := exampleNetwork swapScript)
              None None (Some ALICE) bobCopy [] _ [BOB; TOKEN_A] Hb Hn) as (_ & H & _).
  apply H.
  - discriminate.
  - intros Hin. change (ALICE ∈ [BOB; TOKEN_A]) in Hin.
    repeat (apply elem_of_cons in Hin as [Hin|Hin]; [discriminate Hin|]). inversion Hin.
Defined.

(** The state stays archived after one restore; with the [restore] option
    unset, [simulate({ restore: true })] restores once and leaves the second
    restore-required response to the caller. *)
Lemma simulate_restores_at_most_once_witness :
  let run :=
    @simulate exampleCollaborators (exampleNetwork archivedScript)
      2 (Some true) (draftCall None, []) in
  fst run = Return tt /\
  submissions (snd (snd run)) = 1%nat /\
  simulationData (fst (snd run)) = (Throw ExpiredState, fst (snd run)).
Proof.
  intros run.
  assert (Hopt : Opt.restore (options (draftCall None)) <> Some true) by discriminate.
  assert (Hrun : run = (fst run, (fst (snd run), snd (snd run))))
    by apply run_eta.
  destruct (simulate_restores_at_most_once (collaborators := exampleCollaborators)
              (network := exampleNetwork archivedScript)
              0 (Some true) (draftCall None) [] _ _ _ Hopt Hrun) as (_ & _ & H & _).
  assert (Hret : fst run = Return tt) by (vm_compute; reflexivity).
  split; [exact Hret|]. split; [vm_compute; reflexivity|].
  apply (H Hret archivedPreamble). vm_compute. reflexivity.
Defined.

(** C1, counterexample.  With the [restore] option set to true and a state
    that stays archived after the first restore, one invocation of
    [simulate] restores twice: the second restore-required response is
    answered with another restore, not left to the caller. *)
Lemma simulate_restores_twice :
  let run :=
    @simulate exampleCollaborators (exampleNetwork archivedScript)
      3 None (draftCall (Some true), []) in
  fst run = Return tt /\
  submissions (snd (snd run)) = 2%nat /\
  simulations (snd (snd run)) = 5%nat /\
  ~ (submissions (snd (snd run)) <= 1)%nat.
Proof.
  vm_compute. repeat split; try reflexivity. lia.
Qed.

(** C5, counterexample.  Bob's entry is unsigned and Bob is no contract,
    yet [sign] on the call without a wallet does not fail with
    [NeedsMoreSignatures]: it fails with [NoSigner]. *)
Lemma sign_reports_missing_signer_first :
  needsNonInvokerSigningBy false walletlessCall = Return [BOB; TOKEN_A] /\
  walletSigners [BOB; TOKEN_A] = [BOB] /\
  fst (@sign exampleCollaborators None None walletlessCall) = Throw NoSigner /\
  fst (@sign exampleCollaborators None None walletlessCall) <> Throw (NeedsMoreSignatures [BOB]).
Proof.
  vm_compute. repeat split; try reflexivity. discriminate.
Qed.

(** C9, counterexample.  Without a wallet [restoreFootprint] fails with a
    plain error, which is not [NoSigner]; and a submission that ends as
    failed makes it return the failed response, not fail with
    [RestorationFailure]. *)
Lemma restoreFootprint_plain_error :
  fst (@restoreFootprint exampleCollaborators (exampleNetwork swapScript)
         1 archivedPreamble None (walletlessCall, []))
  = Throw (Error_ "For automatic restore to work you must provide a signTransaction function when initializing your Client") /\
  fst (@restoreFootprint exampleCollaborators (exampleNetwork swapScript)
         1 archivedPreamble None (walletlessCall, []))
  <> Throw NoSigner /\
  fst (@restoreFootprint exampleCollaborators (exampleNetwork failingScript)
         1 archivedPreamble None (draftCall None, []))
  = Return failed.
Proof.
  vm_compute. repeat split; try reflexivity. discriminate.
Qed.

(** * The lifecycle beyond the single methods *)

Section Lifecycle.
Context {collaborators : Collaborators} {network : Network}.

(** [restoreFootprint] reads the options of [this] and nothing else of it,
    and leaves it as it was. *)
Lemma restoreFootprint_with_reads_options sim restorePreamble account a b w :
  options a = options b ->
  restoreFootprint_with sim restorePreamble account (b, w) =
    (fst (restoreFootprint_with sim restorePreamble account (a, w)),
     (b, snd (snd (restoreFootprint_with sim restorePreamble account (a, w))))).
Proof.
  intros Ho. unfold restoreFootprint_with. run_monad. rewrite Ho.
  destruct (Opt.signTransaction (options b)); [|reflexivity].
  assert (Hrest : forall acc w0,
    let run (this : AssembledTransaction) :=
      (let! restoreTx :=
         static (buildFootprintRestoreTransaction sim (options b)
                   (inl (Api.restore_transactionData restorePreamble)) acc
                   (Api.restore_minResourceFee restorePreamble)) in
       let! sent := static (withObject restoreTx (signAndSend None None)) in
       match getTransactionResponse (fst sent) with
       | None => throw (RestorationFailure None)
       | Some response => ret response
       end) (this, w0) in
    run b = (fst (run a), (b, snd (snd (run a))))).
  { intros acc w0. run_monad.
    destruct (buildFootprintRestoreTransaction sim (options b) _ acc _ w0)
      as [[restoreTx|e|] w1]; cbn [fst snd]; [|reflexivity..].
    destruct (signAndSend None None (restoreTx, w1)) as [[sent|e|] [t2 w2]];
      cbn [fst snd]; [|reflexivity..].
    destruct (getTransactionResponse sent); reflexivity. }
  run_monad.
  destruct account as [acc|]; cbn [fst snd].
  - apply Hrest.
  - destruct (getAccount w (Opt.publicKey (options b))); cbn [fst snd]; [|reflexivity].
    apply Hrest.
Qed.

Lemma restoreFootprint_with_keeps_this sim restorePreamble account this w :
  fst (snd (restoreFootprint_with sim restorePreamble account (this, w))) = this.
Proof.
  pose proof (restoreFootprint_with_reads_options sim restorePreamble account this this w eq_refl) as H.
  destruct (restoreFootprint_with sim restorePreamble account (this, w)) as [o [t w']].
  cbn [fst snd] in *. now injection H as <-.
Qed.

Lemma ensureBuilt_keeps this tx this0 :
  ensureBuilt this = Some (tx, this0) ->
  built this0 = Some tx /\ options this0 = options this /\ signed this0 = signed this /\
  simulation this0 = simulation this.
Proof.
  unfold ensureBuilt. destruct (built this) eqn:Hb.
  - intros H; injection H as <- <-. auto.
  - destruct (raw this); [|discriminate]. intros H; injection H as <- <-. auto.
Qed.

Lemma restoreRequired_request this w tx this0 restorePreamble this2 w1 :
  ensureBuilt this = Some (tx, this0) ->
  restoreRequired this w = Some (restorePreamble, this2, w1) ->
  simulateTransaction w tx = Answered (Api.SimulateTransactionRestoreResponse restorePreamble) /\
  this2 = set_simulation (Some (Api.SimulateTransactionRestoreResponse restorePreamble))
            (clearCache this0) /\
  w1 = (w ++ [EvSimulateTransaction tx])%list.
Proof.
  unfold restoreRequired. intros ->.
  destruct (simulateTransaction w tx) as [[| |]|]; try discriminate.
  intros H; injection H as <- <- <-. auto.
Qed.

Lemma restoreRequired_ensured this w restorePreamble this2 w1 :
  restoreRequired this w = Some (restorePreamble, this2, w1) ->
  exists tx this0, ensureBuilt this = Some (tx, this0).
Proof.
  unfold restoreRequired. destruct (ensureBuilt this) as [[tx this0]|]; [eauto|discriminate].
Qed.

(** Whatever [simulate] does, it writes neither [options] nor [signed];
    when it returns, the finalized transaction and the response are there and
    the cache is empty. *)
Lemma simulate_keeps fuel :
  forall restore this w o this' w',
    simulate fuel restore (this, w) = (o, (this', w')) ->
    options this' = options this /\ signed this' = signed this /\
    (o = Return tt ->
     is_Some (built this') /\ is_Some (simulation this') /\ cachePopulated this' = false).
Proof.
  induction fuel as [|fuel IH]; intros restore this w o this' w' Hrun.
  { cbn in Hrun. injection Hrun as <- <- <-. split; [|split]; [reflexivity..|discriminate]. }
  rewrite simulate_unfold in Hrun.
  assert (Hplain : simulateOnce this w = (o, (this', w')) ->
                   options this' = options this /\ signed this' = signed this /\
                   (o = Return tt ->
                    is_Some (built this') /\ is_Some (simulation this') /\
                    cachePopulated this' = false)).
  { intros H. apply simulateOnce_facts in H as (_ & Ho & Hs & Hr & _).
    split; [exact Ho|split; [exact Hs|]]. intros Hret. destruct (Hr Hret) as (? & ? & ?). auto. }
  destruct (default false (orOption restore (Opt.restore (options this)))); [|now apply Hplain].
  destruct (restoreRequired this w) as [[[restorePreamble this2] w1]|] eqn:Hreq;
    [|now apply Hplain].
  destruct (restoreRequired_ensured _ _ _ _ _ Hreq) as (tx & this0 & Hens).
  destruct (restoreRequired_request _ _ _ _ _ _ _ Hens Hreq) as (_ & -> & ->).
  destruct (ensureBuilt_keeps _ _ _ Hens) as (_ & Ho0 & Hs0 & _).
  unfold restoreAndResimulate in Hrun. cbn [options set_simulation clearCache
    set_simulationTransactionData set_simulationResult] in Hrun.
  set (this2 := set_simulation _ (clearCache this0)) in *.
  destruct (getAccount _ _) as [account|reason].
  2:{ injection Hrun as <- <- <-. split; [exact Ho0|split; [exact Hs0|discriminate]]. }
  pose proof (restoreFootprint_with_keeps_this (simulate fuel) restorePreamble (Some account)
                this2 (w ++ [EvSimulateTransaction tx] ++ [EvGetAccount (Opt.publicKey (options this0))])%list) as Hkeep.
  unfold restoreFootprint in Hrun.
  rewrite <- app_assoc in Hrun.
  destruct (restoreFootprint_with _ _ _ _) as [o3 [t3 w3]]. cbn [fst snd] in *. subst t3.
  destruct o3 as [result|e|].
  - destruct (Api.status result).
    + apply IH in Hrun as (Ho & Hs & Hr). cbn in Ho, Hs.
      split; [congruence|split; [congruence|exact Hr]].
    + injection Hrun as <- <- <-. split; [exact Ho0|split; [exact Hs0|discriminate]].
    + injection Hrun as <- <- <-. split; [exact Ho0|split; [exact Hs0|discriminate]].
  - injection Hrun as <- <- <-. split; [exact Ho0|split; [exact Hs0|discriminate]].
  - injection Hrun as <- <- <-. split; [exact Ho0|split; [exact Hs0|discriminate]].
Qed.

(** X2.  A simulation request the server rejects still costs the cached
    simulation data: [simulate] deletes both cache fields before it awaits
    the server and assigns [simulation] only after.  What [simulationData]
    gives next is derived from the response of the simulation before, and a
    call that has none (one that came from [fromJSON]) is back to
    [NotYetSimulated]. *)
Theorem simulate_rejected_clears_cache fuel restore (this : AssembledTransaction) (w : World) tx reason :
  built this = Some tx ->
  simulateTransaction w tx = Declined reason ->
  simulate (S fuel) restore (this, w) =
    (Throw (Rejected reason), (clearCache this, (w ++ [EvSimulateTransaction tx])%list)) /\
  built (clearCache this) = Some tx /\
  (simulation this = None ->
   simulationData (clearCache this) = (Throw NotYetSimulated, clearCache this)) /\
  (forall body,
     simulation this = Some (Api.SimulateTransactionSuccessResponse body) ->
     fst (simulationData (clearCache this)) =
       Return (resultOrDefault body, SorobanDataBuilder_build (Api.transactionData body))).
Proof.
  intros Hb Hdecl.
  assert (Hens : ensureBuilt this = Some (tx, this)) by (unfold ensureBuilt; now rewrite Hb).
  assert (Hone : simulateOnce this w =
                 (Throw (Rejected reason), (clearCache this, (w ++ [EvSimulateTransaction tx])%list))).
  { unfold simulateOnce. now rewrite Hens, Hdecl. }
  assert (Hnone : restoreRequired this w = None).
  { unfold restoreRequired. now rewrite Hens, Hdecl. }
  split.
  { rewrite simulate_unfold, Hnone. now destruct (default false _). }
  split; [exact Hb|].
  assert (Hcache : cachePopulated (clearCache this) = false) by reflexivity.
  split.
  - intros Hsim. rewrite (simulationData_uncached _ Hcache). cbn. now rewrite Hsim.
  - intros body Hsim. rewrite (simulationData_uncached _ Hcache). cbn. now rewrite Hsim.
Qed.

Lemma sameButDraft_refl_set_raw draft a b :
  sameButDraft a b -> sameButDraft (set_raw draft a) (set_raw draft b).
Proof. unfold sameButDraft. cbn. tauto. Qed.

(** Once there is a finalized transaction, [simulate] does not read the
    draft. *)
Lemma simulate_sameButDraft fuel :
  forall restore a b w o a' w',
    is_Some (built a) -> sameButDraft a b ->
    simulate fuel restore (a, w) = (o, (a', w')) ->
    exists b', simulate fuel restore (b, w) = (o, (b', w')) /\
               is_Some (built a') /\ sameButDraft a' b'.
Proof.
  induction fuel as [|fuel IH]; intros restore a b w o a' w' [tx Hb] Hsame Hrun.
  { cbn in Hrun. injection Hrun as <- <- <-. exists b. cbn. eauto. }
  pose proof Hsame as (Ho & Hbb & Hsim & Hr & Hd & Hs).
  assert (Hea : ensureBuilt a = Some (tx, a)) by (unfold ensureBuilt; now rewrite Hb).
  assert (Heb : ensureBuilt b = Some (tx, b)) by (unfold ensureBuilt; now rewrite <- Hbb, Hb).
  rewrite simulate_unfold in Hrun. setoid_rewrite simulate_unfold. rewrite <- Ho.
  assert (Hplain : simulateOnce a w = (o, (a', w')) ->
                   exists b', simulateOnce b w = (o, (b', w')) /\
                              is_Some (built a') /\ sameButDraft a' b').
  { unfold simulateOnce. rewrite Hea, Heb.
    destruct (simulateTransaction w tx) as [sim|reason]; intros H; injection H as <- <- <-.
    - eexists; split; [reflexivity|].
      destruct (Api.isSimulationSuccess _ sim); (split; [cbn; eauto|]);
        unfold sameButDraft; cbn; tauto.
    - eexists; split; [reflexivity|]. split; [cbn; eauto|]. unfold sameButDraft; cbn; tauto. }
  destruct (default false (orOption restore (Opt.restore (options a)))); [|now apply Hplain].
  unfold restoreRequired in *. rewrite Hea in Hrun. rewrite Heb.
  destruct (simulateTransaction w tx) as [[error|restorePreamble|body]|reason] eqn:Hanswer;
    cbv beta iota in Hrun |- *; try (now apply Hplain).
  unfold restoreAndResimulate in *.
  cbn [options set_simulation clearCache set_simulationTransactionData set_simulationResult] in *.
  rewrite <- Ho.
  set (a2 := set_simulation _ (clearCache a)) in *.
  set (b2 := set_simulation _ (clearCache b)) in *.
  assert (Hsame2 : sameButDraft a2 b2) by (unfold sameButDraft; cbn; tauto).
  assert (Hb2 : built a2 = Some tx) by exact Hb.
  destruct (getAccount _ _) as [account|reason].
  2:{ injection Hrun as <- <- <-. exists b2. eauto. }
  unfold restoreFootprint in *.
  rewrite (restoreFootprint_with_reads_options (simulate fuel) restorePreamble (Some account)
             a2 b2 _ (proj1 Hsame2)).
  pose proof (restoreFootprint_with_keeps_this (simulate fuel) restorePreamble (Some account)
                a2 ((w ++ [EvSimulateTransaction tx]) ++ [EvGetAccount (Opt.publicKey (options a))])%list) as Hkeep.
  change (@pair AssembledTransaction (list Event)) with (@pair AssembledTransaction World) in Hrun.
  revert Hrun Hkeep.
  destruct (restoreFootprint_with _ _ _ (a2, _)) as [o3 [t3 w3]]. cbn [fst snd].
  intros Hrun ->.
  destruct o3 as [result|e|].
  - destruct (Api.status result).
    + eapply IH; [| |exact Hrun]; [cbn; eauto|].
      now apply sameButDraft_refl_set_raw.
    + injection Hrun as <- <- <-. exists b2. eauto.
    + injection Hrun as <- <- <-. exists b2. eauto.
  - injection Hrun as <- <- <-. exists b2. eauto.
  - injection Hrun as <- <- <-. exists b2. eauto.
Qed.

(** X3.  Once the call has a finalized transaction, [simulate] never reads
    the draft again: whatever is written to [raw], the requests sent, the
    outcome, and the finalized transaction and response it ends with are the
    same. *)
Theorem simulate_ignores_draft fuel restore (this : AssembledTransaction) (w : World) tx draft :
  built this = Some tx ->
  let run := simulate fuel restore (this, w) in
  let run' := simulate fuel restore (set_raw draft this, w) in
  fst run' = fst run /\ snd (snd run') = snd (snd run) /\
  built (fst (snd run')) = built (fst (snd run)) /\
  simulation (fst (snd run')) = simulation (fst (snd run)).
Proof.
  intros Hb run run'.
  destruct run as [o [this' w']] eqn:Hrun. subst run'.
  assert (Hsame : sameButDraft this (set_raw draft this)) by (unfold sameButDraft; cbn; tauto).
  destruct (simulate_sameButDraft fuel restore this _ w o this' w' (ex_intro _ tx Hb) Hsame Hrun)
    as (b' & -> & _ & Hsame').
  destruct Hsame' as (_ & Hbb & Hsim & _). cbn [fst snd]. auto.
Qed.

Lemma signAndSend_grows force cb this w o this' w' :
  signAndSend force cb (this, w) = (o, (this', w')) -> exists events, w' = (w ++ events)%list.
Proof.
  rewrite signAndSend_run.
  destruct (signed this) as [envelope|].
  - intros H; injection H as <- <- <-. eauto.
  - destruct (sign force cb this) as [[[]|e|] this1].
    + destruct (signed this1); intros H; injection H as <- <- <-;
        [eauto|exists []; now rewrite app_nil_r].
    + intros H; injection H as <- <- <-. exists []; now rewrite app_nil_r.
    + intros H; injection H as <- <- <-. exists []; now rewrite app_nil_r.
Qed.

(** The history only grows. *)
Lemma restoreFootprint_with_grows (sim : Simulate) :
  (forall restore this w o this' w',
     sim restore (this, w) = (o, (this', w')) -> exists events, w' = (w ++ events)%list) ->
  forall restorePreamble account this w o this' w',
    restoreFootprint_with sim restorePreamble account (this, w) = (o, (this', w')) ->
    exists events, w' = (w ++ events)%list.
Proof.
  intros Hsim restorePreamble account this w o this' w'.
  unfold restoreFootprint_with. run_monad.
  destruct (Opt.signTransaction (options this)).
  2:{ intros H; injection H as <- <- <-. exists []; now rewrite app_nil_r. }
  assert (Hrest : forall acc w0,
    (let! restoreTx :=
       static (buildFootprintRestoreTransaction sim (options this)
                 (inl (Api.restore_transactionData restorePreamble)) acc
                 (Api.restore_minResourceFee restorePreamble)) in
     let! sent := static (withObject restoreTx (signAndSend None None)) in
     match getTransactionResponse (fst sent) with
     | None => throw (RestorationFailure None)
     | Some response => ret response
     end) (this, w0) = (o, (this', w')) ->
    exists events, w' = (w0 ++ events)%list).
  { intros acc w0. unfold buildFootprintRestoreTransaction. run_monad.
    destruct (new_AssembledTransaction (options this)) as [fresh|e|]; cbn [fst snd].
    2,3: intros H; injection H as <- <- <-; exists []; now rewrite app_nil_r.
    destruct (sim (Some false) (set_raw _ fresh, w0)) as [[[]|e|] [t1 w1]] eqn:Hrun;
      apply Hsim in Hrun as [ev1 ->]; cbn [fst snd].
    2,3: intros H; injection H as <- <- <-; eauto.
    match goal with
    | |- context [signAndSend None None ?st] =>
      destruct (signAndSend None None st) as [[sent|e|] [t2 w2]] eqn:Hsend
    end; apply signAndSend_grows in Hsend as [ev2 ->]; cbn [fst snd].
    2,3: intros H; injection H as <- <- <-; exists (ev1 ++ ev2)%list; now rewrite app_assoc.
    destruct (getTransactionResponse sent); intros H; injection H as <- <- <-;
      exists (ev1 ++ ev2)%list; now rewrite app_assoc. }
  run_monad.
  destruct account as [acc|]; cbn [fst snd].
  - apply Hrest.
  - destruct (getAccount w (Opt.publicKey (options this))); cbn [fst snd].
    + intros H. apply Hrest in H as [ev ->]. rewrite <- app_assoc. eauto.
    + intros H; injection H as <- <- <-. eauto.
Qed.

Lemma simulate_grows fuel :
  forall restore this w o this' w',
    simulate fuel restore (this, w) = (o, (this', w')) -> exists events, w' = (w ++ events)%list.
Proof.
  induction fuel as [|fuel IH]; intros restore this w o this' w' Hrun.
  { cbn in Hrun. injection Hrun as <- <- <-. exists []; now rewrite app_nil_r. }
  rewrite simulate_unfold in Hrun.
  assert (Hplain : simulateOnce this w = (o, (this', w')) -> exists events, w' = (w ++ events)%list).
  { intros H. apply simulateOnce_history in H as (_ & events & -> & _). eauto. }
  destruct (default false (orOption restore (Opt.restore (options this)))); [|now apply Hplain].
  destruct (restoreRequired this w) as [[[restorePreamble this2] w1]|] eqn:Hreq;
    [|now apply Hplain].
  destruct (restoreRequired_facts _ _ _ _ _ Hreq) as (_ & tx & ->).
  unfold restoreAndResimulate, restoreFootprint in Hrun.
  destruct (getAccount _ _) as [account|reason].
  2:{ injection Hrun as <- <- <-. rewrite <- app_assoc. eauto. }
  destruct (restoreFootprint_with _ _ _ _) as [o3 [t3 w3]] eqn:Hrf.
  apply (restoreFootprint_with_grows _ IH) in Hrf as [ev3 ->].
  cbn [fst snd] in Hrun.
  assert (Hstop : forall e : Outcome unit,
            (e, (t3, (((w ++ [EvSimulateTransaction tx]) ++
                       [EvGetAccount (Opt.publicKey (options this2))]) ++ ev3)%list))
            = (o, (this', w')) -> exists events, w' = (w ++ events)%list).
  { intros e H; injection H as <- <- <-. rewrite <- !app_assoc. eauto. }
  destruct o3 as [result|e|]; [|eapply Hstop; exact Hrun..].
  destruct (Api.status result); [|eapply Hstop; exact Hrun..].
  apply IH in Hrun as [ev4 ->]. rewrite <- !app_assoc. eauto.
Qed.

(** What [simulate] leaves when it returns: the answer to the last
    request of the history. *)
Lemma simulate_answered fuel :
  forall restore this w this' w',
    simulate fuel restore (this, w) = (Return tt, (this', w')) ->
    exists tx events sim,
      w' = (w ++ events ++ [EvSimulateTransaction tx])%list /\
      simulateTransaction (w ++ events)%list tx = Answered sim /\
      simulation this' = Some sim /\
      simulationResult this' = None /\ simulationTransactionData this' = None /\
      built this' = Some (if Api.isSimulationSuccess restoreResponseIsSuccess sim
                          then TransactionBuilder_build (assembleTransaction tx sim)
                          else tx) /\
      (default false (orOption restore (Opt.restore (options this))) = false ->
       events = [] /\ exists this0, ensureBuilt this = Some (tx, this0)).
Proof.
  induction fuel as [|fuel IH]; intros restore this w this' w' Hrun; [discriminate Hrun|].
  rewrite simulate_unfold in Hrun.
  assert (Hplain : simulateOnce this w = (Return tt, (this', w')) ->
    exists tx events sim,
      w' = (w ++ events ++ [EvSimulateTransaction tx])%list /\
      simulateTransaction (w ++ events)%list tx = Answered sim /\
      simulation this' = Some sim /\
      simulationResult this' = None /\ simulationTransactionData this' = None /\
      built this' = Some (if Api.isSimulationSuccess restoreResponseIsSuccess sim
                          then TransactionBuilder_build (assembleTransaction tx sim)
                          else tx) /\
      (default false (orOption restore (Opt.restore (options this))) = false ->
       events = [] /\ exists this0, ensureBuilt this = Some (tx, this0))).
  { unfold simulateOnce.
    destruct (ensureBuilt this) as [[tx this0]|] eqn:Hens; [|discriminate].
    destruct (ensureBuilt_keeps _ _ _ Hens) as (Hb0 & _).
    destruct (simulateTransaction w tx) as [sim|] eqn:Hanswer; [|discriminate].
    intros H; injection H as <- <-.
    exists tx, [], sim. rewrite app_nil_r.
    split; [reflexivity|]. split; [exact Hanswer|].
    destruct (Api.isSimulationSuccess restoreResponseIsSuccess sim); cbn;
      repeat split; eauto. }
  destruct (default false (orOption restore (Opt.restore (options this)))) eqn:Hwanted;
    [|now apply Hplain].
  destruct (restoreRequired this w) as [[[restorePreamble this2] w1]|] eqn:Hreq.
  2:{ destruct (Hplain Hrun) as (tx & events & sim & H1 & H2 & H3 & H4 & H5 & H6 & _).
      exists tx, events, sim. repeat split; try assumption; discriminate. }
  destruct (restoreRequired_facts _ _ _ _ _ Hreq) as (_ & tx & ->).
  unfold restoreAndResimulate, restoreFootprint in Hrun.
  destruct (getAccount _ _) as [account|reason]; [|discriminate Hrun].
  destruct (restoreFootprint_with _ _ _ _) as [o3 [t3 w3]] eqn:Hrf.
  apply (restoreFootprint_with_grows _ (simulate_grows fuel)) in Hrf as [ev3 ->].
  cbn [fst snd] in Hrun.
  destruct o3 as [result|e|]; [|discriminate Hrun..].
  destruct (Api.status result); [|discriminate Hrun..].
  apply IH in Hrun as (tx' & events & sim & -> & H2 & H3 & H4 & H5 & H6 & _).
  exists tx', ([EvSimulateTransaction tx; EvGetAccount (Opt.publicKey (options this2))]
               ++ ev3 ++ events)%list, sim.
  rewrite <- !app_assoc in *. cbn [app] in *.
  repeat split; try assumption; discriminate.
Qed.

(** X1.  When [simulate] returns, the last thing that left the process is
    a simulation request, the call holds the server's answer to that
    request, both cache fields are empty, and [built] is the transaction
    that was sent, assembled with the answer when that is a success.  The
    next read of [simulationData] is therefore derived from that answer: the
    simulation failure for an error response, [ExpiredState] for a
    restore-required one, and the result and resource data of a success.
    [options] and [signed] are as they were.  When no restore is wanted the
    request is the only one, for the transaction the call had finalized or
    finalized from its draft. *)
Theorem simulate_then_simulationData fuel restore (this : AssembledTransaction) (w : World) this' w' :
  simulate fuel restore (this, w) = (Return tt, (this', w')) ->
  exists tx events sim,
    w' = (w ++ events ++ [EvSimulateTransaction tx])%list /\
    simulateTransaction (w ++ events)%list tx = Answered sim /\
    simulation this' = Some sim /\
    simulationResult this' = None /\ simulationTransactionData this' = None /\
    built this' = Some (if Api.isSimulationSuccess restoreResponseIsSuccess sim
                        then TransactionBuilder_build (assembleTransaction tx sim)
                        else tx) /\
    simulationData this' =
      match sim with
      | Api.SimulateTransactionErrorResponse error => (Throw (SimulationFailed error), this')
      | Api.SimulateTransactionRestoreResponse _ => (Throw ExpiredState, this')
      | Api.SimulateTransactionSuccessResponse body =>
        (Return (resultOrDefault body, SorobanDataBuilder_build (Api.transactionData body)),
         memoize (resultOrDefault body) (SorobanDataBuilder_build (Api.transactionData body)) this')
      end /\
    options this' = options this /\ signed this' = signed this /\
    (default false (orOption restore (Opt.restore (options this))) = false ->
     events = [] /\ exists this0, ensureBuilt this = Some (tx, this0)).
Proof.
  intros Hrun.
  destruct (simulate_keeps _ _ _ _ _ _ _ Hrun) as (Ho & Hs & _).
  destruct (simulate_answered _ _ _ _ _ _ Hrun)
    as (tx & events & sim & Hw & Hanswer & Hsim & Hr & Hd & Hb & Hplain).
  exists tx, events, sim. repeat split; try assumption; try (now apply Hplain).
  assert (Hcache : cachePopulated this' = false) by (unfold cachePopulated; now rewrite Hr).
  rewrite (simulationData_uncached _ Hcache), Hsim. reflexivity.
Qed.

(** X4.  After a restore that succeeded, [simulate] writes a new draft for
    the account it fetched, whose sequence number the restore transaction
    has meanwhile used up, but it does not finalize that draft: [built] is
    still set, so the new simulation, a call of [simulate] with no argument,
    sends the transaction finalized before the restore once more.  The
    history up to there is the first request, the account query, the
    simulation of the restore transaction, and the submission of the
    envelope that [sign] made of the simulated restore call, which the
    network answered with a response that is a success.  When the
    restore option is not set, or the answer to the repeated request is not
    restore-required again, the repeated request is the last event, the call
    holds its answer, the draft is the new one and [built] comes from the
    transaction finalized before the restore. *)
Theorem simulate_resimulates_the_finalized fuel restore (this : AssembledTransaction) (w : World)
    tx this0 restorePreamble this' w' :
  ensureBuilt this = Some (tx, this0) ->
  default false (orOption restore (Opt.restore (options this))) = true ->
  simulateTransaction w tx = Answered (Api.SimulateTransactionRestoreResponse restorePreamble) ->
  simulate (S (S fuel)) restore (this, w) = (Return tt, (this', w')) ->
  let publicKey := Opt.publicKey (options this) in
  exists account envelope,
    getAccount (w ++ [EvSimulateTransaction tx])%list publicKey = Answered account /\
    let restoreTx := restoreTransaction (options this) restorePreamble account in
    let draft := invokeDraft (options this) (incrementSequenceNumber account) in
    let this3 :=
      set_raw (Some draft)
        (set_simulation (Some (Api.SimulateTransactionRestoreResponse restorePreamble))
           (clearCache this0)) in
    let w3 :=
      (w ++ [EvSimulateTransaction tx; EvGetAccount publicKey;
             EvSimulateTransaction restoreTx; EvSentTransactionInit envelope])%list in
    (exists simulated signedCall sent response,
       simulate (S fuel) (Some false)
         (restoreCall (options this) restorePreamble account,
          (w ++ [EvSimulateTransaction tx; EvGetAccount publicKey])%list)
       = (Return tt,
          (simulated,
           (w ++ [EvSimulateTransaction tx; EvGetAccount publicKey;
                  EvSimulateTransaction restoreTx])%list)) /\
       sign None None simulated = (Return tt, signedCall) /\
       signed signedCall = Some envelope /\
       SentTransaction_init
         (w ++ [EvSimulateTransaction tx; EvGetAccount publicKey;
                EvSimulateTransaction restoreTx])%list envelope = Answered sent /\
       getTransactionResponse sent = Some response /\
       Api.status response = Api.SUCCESS) /\
    built this3 = Some tx /\
    simulate (S fuel) None (this3, w3) = (Return tt, (this', w')) /\
    (exists rest, w' = (w3 ++ EvSimulateTransaction tx :: rest)%list) /\
    (forall sim,
       simulateTransaction w3 tx = Answered sim ->
       Opt.restore (options this) <> Some true \/ Api.isSimulationRestore sim = false ->
       w' = (w3 ++ [EvSimulateTransaction tx])%list /\
       raw this' = Some draft /\
       simulation this' = Some sim /\
       built this' = Some (if Api.isSimulationSuccess restoreResponseIsSuccess sim
                           then TransactionBuilder_build (assembleTransaction tx sim)
                           else tx)).
Proof.
  intros Hens Hwanted Hanswer Hrun publicKey. subst publicKey.
  rewrite simulate_unfold, Hwanted in Hrun.
  destruct (ensureBuilt_keeps _ _ _ Hens) as (Hb0 & Ho0 & _).
  unfold restoreRequired in Hrun. rewrite Hens, Hanswer in Hrun.
  unfold restoreAndResimulate in Hrun.
  cbn [options set_simulation clearCache set_simulationTransactionData set_simulationResult] in Hrun.
  rewrite Ho0 in Hrun.
  set (this2 := set_simulation _ (clearCache this0)) in *.
  assert (Ho2 : options this2 = options this) by exact Ho0.
  destruct (getAccount _ _) as [account|reason]; [|discriminate Hrun].
  exists account.
  match type of Hrun with
  | context [restoreFootprint ?n ?p ?a ?st] =>
    destruct (restoreFootprint n p a st) as [o3 [t3 w3]] eqn:Hrf
  end.
  cbn [fst snd] in Hrun.
  destruct (Opt.signTransaction (options this2)) as [cb|] eqn:Hcb.
  2:{ rewrite (restoreFootprint_no_signer _ _ _ _ _ Hcb) in Hrf. injection Hrf as <- _ _.
      discriminate Hrun. }
  destruct (truthy_string (Opt.publicKey (options this2))) eqn:Hpk.
  2:{ rewrite restoreFootprint_no_publicKey in Hrf by eauto. injection Hrf as <- _ _.
      discriminate Hrun. }
  rewrite (restoreFootprint_run _ _ _ _ _ cb Hcb Hpk) in Hrf.
  match type of Hrf with
  | context [simulate ?n ?r ?st] =>
    destruct (simulate n r st) as [o1 [simulated w1]] eqn:Hsimr
  end.
  assert (Hw1 : w1 = ((w ++ [EvSimulateTransaction tx]) ++ [EvGetAccount (Opt.publicKey (options this))]
                      ++ [EvSimulateTransaction (restoreTransaction (options this2) restorePreamble account)])%list).
  { pose proof Hsimr as Hone. rewrite simulate_plain in Hone by reflexivity.
    destruct (simulateOnce_facts _ _ _ _ _ Hone) as (_ & _ & _ & _ & Hw1).
    cbn [ensureBuilt restoreCall built raw] in Hw1. rewrite Hw1, <- !app_assoc. reflexivity. }
  destruct o1 as [[]|e|]; [|injection Hrf as <- _ _; discriminate Hrun..].
  destruct (sign None None simulated) as [[[]|e|] signedCall] eqn:Hsign;
    [|injection Hrf as <- _ _; discriminate Hrun..].
  destruct (signed signedCall) as [envelope|] eqn:Hsigned;
    [|injection Hrf as <- _ _; discriminate Hrun].
  destruct (SentTransaction_init w1 envelope) as [sent|reason] eqn:Hsent;
    [|injection Hrf as <- _ _; discriminate Hrun].
  destruct (getTransactionResponse sent) as [response|] eqn:Hresp;
    [|injection Hrf as <- _ _; discriminate Hrun].
  injection Hrf as <- <- <-.
  destruct (Api.status response) eqn:Hstatus; [|discriminate Hrun..].
  subst w1. rewrite Ho2 in Hrun, Hsimr, Hsent.
  repeat (rewrite <- app_assoc in Hrun; cbn [app] in Hrun).
  repeat (rewrite <- app_assoc in Hsimr; cbn [app] in Hsimr).
  repeat (rewrite <- app_assoc in Hsent; cbn [app] in Hsent).
  exists envelope. split; [reflexivity|]. cbv zeta.
  split; [exists simulated, signedCall, sent, response; auto 10|].
  set (this3 := set_raw _ this2) in *.
  set (w3 := (w ++ [EvSimulateTransaction tx; EvGetAccount (Opt.publicKey (options this));
                    EvSimulateTransaction (restoreTransaction (options this) restorePreamble account);
                    EvSentTransactionInit envelope])%list) in *.
  assert (Hens3 : ensureBuilt this3 = Some (tx, this3)).
  { unfold ensureBuilt. cbn. now rewrite Hb0. }
  split; [exact Hb0|]. split; [exact Hrun|].
  rewrite simulate_unfold in Hrun.
  assert (Hplain : simulateOnce this3 w3 = (Return tt, (this', w')) ->
            forall sim, simulateTransaction w3 tx = Answered sim ->
              w' = (w3 ++ [EvSimulateTransaction tx])%list /\
              raw this' = raw this3 /\ simulation this' = Some sim /\
              built this' = Some (if Api.isSimulationSuccess restoreResponseIsSuccess sim
                                  then TransactionBuilder_build (assembleTransaction tx sim)
                                  else tx)).
  { unfold simulateOnce. rewrite Hens3. intros H sim Hsim. rewrite Hsim in H.
    injection H as <- <-.
    destruct (Api.isSimulationSuccess restoreResponseIsSuccess sim); cbn; auto. }
  assert (Hrest : exists rest, w' = (w3 ++ EvSimulateTransaction tx :: rest)%list).
  { destruct (default false (orOption None (Opt.restore (options this3)))).
    2:{ apply simulateOnce_facts in Hrun as (_ & _ & _ & _ & Hw). rewrite Hens3 in Hw.
        exists []. exact Hw. }
    destruct (restoreRequired this3 w3) as [[[restorePreamble' this4] w4]|] eqn:Hreq.
    2:{ apply simulateOnce_facts in Hrun as (_ & _ & _ & _ & Hw). rewrite Hens3 in Hw.
        exists []. exact Hw. }
    destruct (restoreRequired_request _ _ _ _ _ _ _ Hens3 Hreq) as (_ & -> & ->).
    unfold restoreAndResimulate, restoreFootprint in Hrun.
    destruct (getAccount _ _) as [account'|reason]; [|discriminate Hrun].
    destruct (restoreFootprint_with _ _ _ _) as [o5 [t5 w5]] eqn:Hrf5.
    apply (restoreFootprint_with_grows _ (simulate_grows fuel)) in Hrf5 as [ev5 ->].
    cbn [fst snd] in Hrun.
    destruct o5 as [result'|e|]; [|discriminate Hrun..].
    destruct (Api.status result'); [|discriminate Hrun..].
    apply simulate_grows in Hrun as [ev6 ->].
    eexists. rewrite <- !app_assoc. cbn [app]. reflexivity. }
  split; [exact Hrest|].
  intros sim Hsim Hlast.
  assert (Hone : simulateOnce this3 w3 = (Return tt, (this', w'))).
  { destruct (default false (orOption None (Opt.restore (options this3)))) eqn:Hopt; [|exact Hrun].
    unfold restoreRequired in Hrun. rewrite Hens3, Hsim in Hrun.
    destruct Hlast as [Hne|Hnot].
    - exfalso. apply Hne. change (options this3) with (options this0) in Hopt.
      rewrite Ho0 in Hopt. cbn in Hopt.
      destruct (Opt.restore (options this)) as [[|]|]; [reflexivity|discriminate..].
    - destruct sim; try exact Hrun. discriminate Hnot. }
  destruct (Hplain Hone sim Hsim) as (Hw & Hraw & Hs & Hb). auto.
Qed.

(** X5.  [send] refuses a call that holds no signed envelope, before
    anything leaves the process.  [signAndSend] submits the envelope the
    call already holds without running [sign] again: no read-call check, no
    wallet.  Otherwise it is [sign] followed by [send]: when [sign] throws
    nothing is submitted, and when it returns the envelope it stored is the
    one submitted, once. *)
Theorem signAndSend_composes force cb (this : AssembledTransaction) (w : World) :
  (signed this = None ->
   send (this, w) =
     (Throw (Error_ "The transaction has not yet been signed. Run `sign` first, or use `signAndSend` instead."),
      (this, w))) /\
  (forall envelope,
     signed this = Some envelope ->
     signAndSend force cb (this, w) =
       (submit w envelope, (this, (w ++ [EvSentTransactionInit envelope])%list))) /\
  (forall e this1,
     signed this = None -> sign force cb this = (Throw e, this1) ->
     signAndSend force cb (this, w) = (Throw e, (this1, w))) /\
  (forall this1,
     signed this = None -> sign force cb this = (Return tt, this1) ->
     exists envelope,
       signed this1 = Some envelope /\
       signAndSend force cb (this, w) =
         (submit w envelope, (this1, (w ++ [EvSentTransactionInit envelope])%list))).
Proof.
  repeat split.
  - intros Hs. unfold send. run_monad. now rewrite Hs.
  - intros envelope Hs. now rewrite signAndSend_run, Hs.
  - intros e this1 Hs Hsign. now rewrite signAndSend_run, Hs, Hsign.
  - intros this1 Hs Hsign.
    destruct (sign_outcome _ _ _ _ _ Hsign) as (_ & Hret).
    destruct (Hret eq_refl) as [envelope He]. exists envelope. split; [exact He|].
    now rewrite signAndSend_run, Hs, Hsign, He.
Qed.

(** X6.  A new simulation leaves the signed envelope where it is, whatever
    the simulation ends in; [signAndSend] afterwards submits that envelope,
    signed before the simulation, and does not sign the re-simulated
    transaction. *)
Theorem simulate_keeps_signed_envelope fuel restore (this : AssembledTransaction) (w : World)
    o this' w' envelope :
  signed this = Some envelope ->
  simulate fuel restore (this, w) = (o, (this', w')) ->
  signed this' = Some envelope /\
  forall force cb,
    signAndSend force cb (this', w') =
      (submit w' envelope, (this', (w' ++ [EvSentTransactionInit envelope])%list)).
Proof.
  intros Hs Hrun. apply simulate_keeps in Hrun as (_ & Hs' & _).
  rewrite Hs in Hs'. split; [exact Hs'|].
  intros force cb. now rewrite signAndSend_run, Hs'.
Qed.


End Lifecycle.

Section SigningState.
Context {collaborators : Collaborators}.

Lemma passesReadCheck_frame force this this1 :
  passesReadCheck force this this1 ->
  options this1 = options this /\ raw this1 = raw this /\ built this1 = built this /\
  simulation this1 = simulation this /\ signed this1 = signed this /\
  forall d this2, simulationData this1 = (Return d, this2) ->
                  exists this0, simulationData this = (Return d, this0).
Proof.
  intros [[_ ->]|[_ Hread]]; [repeat split; eauto|].
  destruct (isReadCall_cases this) as [(b & t & Hr & _ & _ & d & Hd)|(e & Hr & _)];
    rewrite Hr in Hread; [|discriminate].
  injection Hread as -> ->.
  destruct (simulationData_returns _ _ _ Hd) as (_ & _ & Ho & Hraw & Hb & Hsim & Hs).
  repeat split; try assumption.
  intros d' this2 Hd'. rewrite (simulationData_again _ _ _ Hd) in Hd'.
  injection Hd' as <- <-. eauto.
Qed.

Lemma signAfterReadCheck_frame signer tx this1 o this' :
  signAfterReadCheck signer tx this1 = (o, this') ->
  options this' = options this1 /\ raw this' = raw this1 /\
  simulation this' = simulation this1 /\
  (o <> Return tt -> signed this' = signed this1) /\
  (built this' = built this1 \/
   exists d this2, simulationData this1 = (Return d, this2) /\
                   built this' = Some (refinalize (options this1) tx (snd d))).
Proof.
  unfold signAfterReadCheck.
  assert (Hstay : forall e : Outcome unit, (e, this1) = (o, this') ->
            options this' = options this1 /\ raw this' = raw this1 /\
            simulation this' = simulation this1 /\
            (o <> Return tt -> signed this' = signed this1) /\
            (built this' = built this1 \/
             exists d this2, simulationData this1 = (Return d, this2) /\
                             built this' = Some (refinalize (options this1) tx (snd d)))).
  { intros e H; injection H as <- <-. repeat split; auto. }
  destruct signer as [f|]; [|apply Hstay].
  destruct (needsNonInvokerSigningBy false this1) as [ids|e|]; [|apply Hstay..].
  destruct (negb _); [apply Hstay|].
  destruct (simulationData this1) as [[d|e|] this2] eqn:Hd.
  - destruct (simulationData_returns _ _ _ Hd) as (_ & _ & Ho & Hraw & Hb & Hsim & Hs).
    destruct (f _ _) as [signature|reason].
    + destruct (TransactionBuilder_fromXDR _ _) as [envelope|];
        intros H; injection H as <- <-; cbn; repeat split; eauto;
        try (intros Hne; now elim Hne).
    + intros H; injection H as <- <-; cbn; repeat split; eauto.
  - apply simulationData_throws in Hd as ->. apply Hstay.
  - now apply simulationData_never_out_of_fuel in Hd.
Qed.

(** X8.  [sign] writes [built] and [signed] and nothing else but the cache:
    [options], [raw] and [simulation] are as before however it ends.
    [signed] is written only when [sign] returns.  [built] is either left
    alone or replaced by the transaction re-finalized with the resource data
    of [simulationData]; the latter also happens when the wallet declines or
    answers with bytes that do not decode, so a failed [sign] can leave a
    re-finalized, unsigned transaction behind. *)
Theorem sign_frame force cb (this : AssembledTransaction) o this' :
  sign force cb this = (o, this') ->
  options this' = options this /\ raw this' = raw this /\
  simulation this' = simulation this /\
  (o <> Return tt -> signed this' = signed this) /\
  (built this' = built this \/
   exists tx d this1,
     built this = Some tx /\ simulationData this = (Return d, this1) /\
     built this' = Some (refinalize (options this) tx (snd d))).
Proof.
  intros Hsign.
  destruct (built this) as [tx|] eqn:Hb.
  2:{ rewrite (sign_not_built _ _ _ Hb) in Hsign. injection Hsign as <- <-.
      repeat split; auto. }
  destruct (sign_cases force cb this tx Hb)
    as [(this1 & Hread & _ & Heq)|[(e & _ & _ & Heq)|(this1 & Hpass & Heq)]];
    rewrite Heq in Hsign.
  - injection Hsign as <- <-.
    destruct (isReadCall_cases this) as [(b & t & Hr & _ & _ & d & Hd)|(e & Hr & _)];
      rewrite Hr in Hread; [|discriminate].
    injection Hread as -> ->.
    destruct (simulationData_returns _ _ _ Hd) as (_ & _ & Ho & Hraw & Hb' & Hsim & Hs).
    repeat split; try assumption; auto. left. congruence.
  - injection Hsign as <- <-. repeat split; auto.
  - destruct (passesReadCheck_frame _ _ _ Hpass) as (Ho & Hraw & Hb1 & Hsim & Hs & Hdata).
    destruct (signAfterReadCheck_frame _ _ _ _ _ Hsign) as (Ho' & Hraw' & Hsim' & Hs' & Hb').
    repeat split; try congruence.
    + intros Hne. rewrite (Hs' Hne). exact Hs.
    + destruct Hb' as [Hsame|(d & this2 & Hd & Hre)]; [left; congruence|].
      right. destruct (Hdata _ _ Hd) as [this0 Hd0].
      exists tx, d, this0. repeat split; try assumption. now rewrite <- Ho.
Qed.

(** X9.  A finalized call whose simulation data cannot be read cannot be
    signed: [sign] throws and leaves the call as it was, with or without
    [force].  Without [force] it throws what [simulationData] throws
    ([NotYetSimulated] for a call that never saw a simulation, as one read
    from an envelope). *)
Theorem sign_needs_simulation_data force cb (this : AssembledTransaction) tx e :
  built this = Some tx ->
  fst (simulationData this) = Throw e ->
  exists e', sign force cb this = (Throw e', this) /\
             (default false force = false -> e' = e).
Proof.
  intros Hb Hfst.
  assert (Hd : simulationData this = (Throw e, this)).
  { destruct (simulationData this) as [o t] eqn:Hd. cbn in Hfst. subst o.
    now rewrite (simulationData_throws _ _ _ Hd) in *. }
  destruct (sign_cases force cb this tx Hb)
    as [(this1 & Hread & _ & _)|[(e0 & Hd0 & _ & Heq)|(this1 & Hpass & Heq)]].
  - rewrite (isReadCall_throws _ _ _ Hd) in Hread. discriminate.
  - rewrite Hd in Hd0. injection Hd0 as <-. eauto.
  - destruct Hpass as [[Hforce ->]|[_ Hread]].
    2:{ rewrite (isReadCall_throws _ _ _ Hd) in Hread. discriminate. }
    rewrite Heq. unfold signAfterReadCheck.
    assert (Hforced : default false force = false -> forall e', e' = e).
    { rewrite Hforce. discriminate. }
    destruct (orOption cb _) as [f|]; [|eauto].
    destruct (needsNonInvokerSigningBy false this) as [ids|e1|] eqn:Hneeds; [|eauto|].
    + destruct (negb _); [eauto|]. rewrite Hd. eauto.
    + now apply needsNonInvokerSigningBy_never_out_of_fuel in Hneeds.
Qed.

End SigningState.

Section AuthEntriesAfter.
Context {collaborators : Collaborators} {network : Network}.

Lemma needsNonInvokerSigningBy_elem b this ids :
  needsNonInvokerSigningBy b this = Return ids ->
  forall a, a ∈ ids <->
    exists entry c, entry ∈ authEntriesOf this /\
                    xdr.credentials entry = xdr.sorobanCredentialsAddress c /\
                    xdr.address c = a /\
                    (b = true \/ xdr.switch_name (xdr.signature c) = "scvVoid").
Proof.
  intros Hids.
  destruct (built this) as [tx|] eqn:Hb.
  2:{ unfold needsNonInvokerSigningBy in Hids. now rewrite Hb in Hids. }
  destruct (Transaction.operations tx !! 0%nat) as [op|] eqn:Hop.
  2:{ unfold needsNonInvokerSigningBy in Hids. now rewrite Hb, Hop in Hids. }
  destruct (needsNonInvokerSigningBy_finalized this tx op Hb Hop b) as (ids0 & Heq & _ & Hin).
  rewrite Heq in Hids. injection Hids as <-.
  now rewrite (authEntriesOf_finalized this tx op Hb Hop).
Qed.

Lemma needsNonInvokerSigningBy_write_auth b this tx op l l' :
  built this = Some tx -> Transaction.operations tx !! 0%nat = Some op ->
  Operation_auth op = Some l ->
  exists ids', needsNonInvokerSigningBy b (write_auth l' this) = Return ids'.
Proof.
  intros Hb Hop Hauth.
  assert (Hlen : (0 < length (Transaction.operations tx))%nat).
  { apply lookup_lt_Some in Hop. exact Hop. }
  destruct (needsNonInvokerSigningBy_finalized (write_auth l' this)
              {| Transaction.source := Transaction.source tx;
                 Transaction.fee := Transaction.fee tx;
                 Transaction.sequence := Transaction.sequence tx;
                 Transaction.timeBounds := Transaction.timeBounds tx;
                 Transaction.operations :=
                   <[0%nat := Operation_set_auth op l']> (Transaction.operations tx);
                 Transaction.sorobanData := Transaction.sorobanData tx;
                 Transaction.signatures := Transaction.signatures tx |}
              (Operation_set_auth op l')) with b as (ids' & Heq & _).
  - unfold write_auth. now rewrite Hb, Hop.
  - cbn. now apply list_lookup_insert_eq.
  - eauto.
Qed.

(** The addresses that await a signature once [signAuthEntries] has
    returned. *)
Lemma signAuthEntries_remaining expiration signAuthEntry address authorizeEntry
    (this : AssembledTransaction) (w : World) this' w' ids :
  signsEntries (default stellarBaseAuthorizeEntry authorizeEntry) ->
  Forall credentialsSurviveCodec (authEntriesOf this) ->
  needsNonInvokerSigningBy false this = Return ids ->
  signAuthEntries expiration signAuthEntry address authorizeEntry (this, w) = (Return tt, (this', w')) ->
  let target := orOption address (Opt.publicKey (options this)) in
  exists ids',
    needsNonInvokerSigningBy false this' = Return ids' /\
    forall a, a ∈ ids' <-> a ∈ ids /\ Some a <> target.
Proof.
  intros Hsigns Hcodec Hids Hrun target.
  destruct (built this) as [tx|] eqn:Hb.
  2:{ unfold needsNonInvokerSigningBy in Hids. now rewrite Hb in Hids. }
  destruct (Transaction.operations tx !! 0%nat) as [op|] eqn:Hop.
  2:{ unfold needsNonInvokerSigningBy in Hids. now rewrite Hb, Hop in Hids. }
  pose proof (authEntriesOf_finalized this tx op Hb Hop) as Hentries.
  rewrite (signAuthEntries_run _ _ _ _ _ _ tx Hb) in Hrun. cbv zeta in Hrun.
  fold target in Hrun.
  destruct (match authorizeEntry with Some _ => _ | None => _ end) as [[]|e|];
    [|discriminate Hrun..].
  rewrite Hop in Hrun.
  destruct (Operation_auth op) as [l|] eqn:Hauth.
  2:{ injection Hrun as <- <-. exists ids. split; [exact Hids|].
      intros a. rewrite (needsNonInvokerSigningBy_elem _ _ _ Hids a), Hentries. cbn.
      split; [|tauto]. intros (entry & c & Hin & _). now apply elem_of_nil in Hin. }
  cbn in Hentries.
  set (authorize := authorizeWith _ _ _ _) in Hrun.
  destruct (signLoop authorize target (length l) 0 l) as [o l'] eqn:Hloop.
  cbn [fst snd] in Hrun. injection Hrun as -> <- <-.
  assert (Hcodec' : forall j entry, (0 <= j)%nat -> l !! j = Some entry ->
                                    credentialsSurviveCodec entry).
  { intros j entry _ Hj. rewrite Hentries in Hcodec.
    now apply (proj1 (Forall_lookup _ _) Hcodec j). }
  destruct (signLoop_frame authorize target (length l) 0 l (Return tt) l' Hcodec' Hloop)
    as (Hlen & Hframe).
  pose proof (signLoop_signed authorize target (length l) 0 l l' Hcodec' (Nat.le_refl _) Hloop)
    as Hsigned.
  destruct (needsNonInvokerSigningBy_write_auth false this tx op l l' Hb Hop Hauth) as [ids' Hids'].
  exists ids'. split; [exact Hids'|].
  intros a.
  rewrite (needsNonInvokerSigningBy_elem _ _ _ Hids' a), (needsNonInvokerSigningBy_elem _ _ _ Hids a).
  rewrite (authEntriesOf_write_auth this tx op l l' Hb Hop Hauth), Hentries.
  split.
  - intros (entry' & c' & Hin & Hc' & Ha & Hvoid).
    apply list_elem_of_lookup in Hin as [j Hj].
    destruct (l !! j) as [entry|] eqn:Hlj.
    2:{ apply lookup_ge_None in Hlj. apply lookup_lt_Some in Hj. lia. }
    destruct (xdr.credentials entry) as [|c] eqn:Hc.
    { rewrite (Hframe j entry Hlj) in Hj.
      - injection Hj as <-. congruence.
      - right. intros (c0 & Hc0 & _). congruence. }
    destruct (decide (Some (xdr.address c) = target)) as [Hheld|Hfree].
    + destruct (Hsigned j entry (Nat.le_0_l _) Hlj) as (authorized & Hanswer & Hj').
      { exists c. auto. }
      rewrite Hj' in Hj. injection Hj as <-.
      unfold authorize, authorizeWith in Hanswer.
      destruct (pendingExpiration expiration w) as [validUntil|]; [|discriminate].
      destruct (Hsigns _ _ _ _ _ c Hanswer Hc) as (c0 & Hc0 & _ & Hnotvoid).
      rewrite Hc' in Hc0. injection Hc0 as <-.
      destruct Hvoid as [Hvoid|Hvoid]; [discriminate|]. now elim Hnotvoid.
    + rewrite (Hframe j entry Hlj) in Hj.
      2:{ right. intros (c0 & Hc0 & Hheld). rewrite Hc in Hc0. injection Hc0 as <-.
          now elim Hfree. }
      injection Hj as <-. rewrite Hc in Hc'. injection Hc' as <-.
      split; [|now rewrite <- Ha].
      exists entry, c. repeat split; try assumption.
      apply list_elem_of_lookup. eauto.
  - intros [(entry & c & Hin & Hc & Ha & Hvoid) Hfree].
    apply list_elem_of_lookup in Hin as [j Hj].
    exists entry, c. repeat split; try assumption.
    apply list_elem_of_lookup. exists j.
    apply Hframe; [exact Hj|]. right.
    intros (c0 & Hc0 & Hheld). rewrite Hc in Hc0. injection Hc0 as <-.
    rewrite Ha in Hheld. now elim Hfree.
Qed.

(** X10.  Once [signAuthEntries] has returned, the address it signed for no
    longer awaits a signature, and nobody else was added or dropped:
    [needsNonInvokerSigningBy()] lists exactly the addresses it listed
    before, less the one signed for.  This holds for the default
    [authorizeEntry] and for a custom one, provided it signs (it answers
    with the same address credentials and a signature that is not void) and
    the codec gives the entries' credentials back unchanged. *)
Theorem signAuthEntries_signer_drops_out expiration signAuthEntry address authorizeEntry
    (this : AssembledTransaction) (w : World) this' w' ids :
  signsEntries (default stellarBaseAuthorizeEntry authorizeEntry) ->
  Forall credentialsSurviveCodec (authEntriesOf this) ->
  needsNonInvokerSigningBy false this = Return ids ->
  signAuthEntries expiration signAuthEntry address authorizeEntry (this, w) = (Return tt, (this', w')) ->
  let target := orOption address (Opt.publicKey (options this)) in
  exists ids',
    needsNonInvokerSigningBy false this' = Return ids' /\
    forall a, a ∈ ids' <-> a ∈ ids /\ Some a <> target.
Proof. apply signAuthEntries_remaining. Qed.

(** X11.  Signing the entries of one address is not repeated: once
    [signAuthEntries] with the default [authorizeEntry] has returned for an
    address, another call for that address is refused by the checks, with
    [NoUnsignedNonInvokerAuthEntries] when nobody is left to sign and with
    [NoSignatureNeeded] otherwise, and no entry is signed a second time. *)
Theorem signAuthEntries_twice_refused expiration signAuthEntry address
    (this : AssembledTransaction) (w : World) this' w' signer :
  signsEntries stellarBaseAuthorizeEntry ->
  Forall credentialsSurviveCodec (authEntriesOf this) ->
  orOption address (Opt.publicKey (options this)) = Some signer ->
  signAuthEntries expiration signAuthEntry address None (this, w) = (Return tt, (this', w')) ->
  forall expiration' signAuthEntry',
    let again := signAuthEntries expiration' signAuthEntry' address None (this', w') in
    (fst again = Throw NoUnsignedNonInvokerAuthEntries \/ fst again = Throw NoSignatureNeeded) /\
    fst (snd again) = this'.
Proof.
  intros Hsigns Hcodec Htarget Hrun expiration' signAuthEntry' again.
  destruct (built this) as [tx|] eqn:Hb.
  2:{ now rewrite (signAuthEntries_not_built _ _ _ _ _ _ Hb) in Hrun. }
  assert (Hids : exists ids, needsNonInvokerSigningBy false this = Return ids).
  { rewrite (signAuthEntries_run _ _ _ _ _ _ tx Hb) in Hrun. cbv zeta in Hrun.
    unfold defaultStrategyChecks in Hrun.
    destruct (needsNonInvokerSigningBy false this) as [ids|e|]; [eauto|discriminate..]. }
  destruct Hids as [ids Hids].
  destruct (signAuthEntries_remaining expiration signAuthEntry address None this w this' w' ids
              Hsigns Hcodec Hids Hrun) as (ids' & Hids' & Hin).
  rewrite Htarget in Hin.
  assert (Ho : options this' = options this).
  { rewrite (signAuthEntries_run _ _ _ _ _ _ tx Hb) in Hrun. cbv zeta in Hrun.
    destruct (defaultStrategyChecks _ _ this) as [[]|e|]; [|discriminate..].
    destruct (Transaction.operations tx !! 0%nat) as [op|]; [|discriminate].
    destruct (Operation_auth op) as [l|].
    - injection Hrun as _ <- _. apply write_auth_keeps.
    - now injection Hrun as <- _. }
  destruct (built this') as [tx'|] eqn:Hb'.
  2:{ unfold needsNonInvokerSigningBy in Hids'. now rewrite Hb' in Hids'. }
  subst again. rewrite (signAuthEntries_run _ _ _ _ _ _ tx' Hb'). cbv zeta.
  rewrite Ho, Htarget, (defaultStrategyChecks_outcome _ _ _ _ Hids').
  destruct (Nat.eqb (length ids') 0); [cbn; auto|].
  assert (Hout : bool_decide (default EmptyString (Some signer) ∈ ids') = false).
  { apply bool_decide_eq_false. cbn. intros Hmem. apply Hin in Hmem as [_ Hne]. now elim Hne. }
  rewrite Hout. cbn. auto.
Qed.

End AuthEntriesAfter.

Section Transport.
Context {collaborators : Collaborators}.

Lemma simulationData_set_signed envelope this :
  simulationData (set_signed envelope this) =
    (fst (simulationData this), set_signed envelope (snd (simulationData this))).
Proof.
  destruct (cachePopulated this) eqn:Hcache.
  - unfold cachePopulated in Hcache.
    destruct (simulationResult this) as [r|] eqn:Hr; [|discriminate].
    destruct (simulationTransactionData this) as [d|] eqn:Hd; [|discriminate].
    rewrite (simulationData_cached this r d Hr Hd).
    now rewrite (simulationData_cached (set_signed envelope this) r d Hr Hd).
  - rewrite (simulationData_uncached this Hcache).
    rewrite (simulationData_uncached (set_signed envelope this) Hcache). cbn.
    now destruct (simulation this) as [[| |]|].
Qed.

(** X12.  [toJSON] fails exactly as [simulationData] fails, with the same
    error and no change to the call; it asks for nothing else, so a call
    with data but no finalized transaction serializes, without [tx], to a
    JSON that [fromJSON] refuses.  The signed envelope is not part of the
    JSON: signing changes nothing of what [toJSON] returns. *)
Theorem toJSON_outcome (this : AssembledTransaction) :
  (forall e, fst (simulationData this) = Throw e -> toJSON this = (Throw e, this)) /\
  (forall d this1,
     simulationData this = (Return d, this1) ->
     exists json, toJSON this = (Return json, this1) /\
                  json_tx json = Tx_toXDR <$> built this /\
                  (built this = None ->
                   forall options y, fromJSON options json <> Return y)) /\
  (forall envelope, fst (toJSON (set_signed envelope this)) = fst (toJSON this)).
Proof.
  split; [|split].
  - intros e Hfst.
    assert (Hd : simulationData this = (Throw e, this)).
    { destruct (simulationData this) as [o t] eqn:Hd. cbn in Hfst. subst o.
      now rewrite (simulationData_throws _ _ _ Hd) in *. }
    unfold toJSON. run_monad. now rewrite Hd.
  - intros d this1 Hd. eexists. split; [apply (toJSON_returns _ _ _ Hd)|].
    split; [reflexivity|].
    intros Hb options0 y. unfold fromJSON. rewrite Hb. cbn.
    destruct (new_AssembledTransaction options0); discriminate.
  - intros envelope. unfold toJSON. run_monad.
    rewrite (simulationData_set_signed envelope this).
    destruct (simulationData this) as [[d|e|] this1] eqn:Hd; cbn [fst snd]; try reflexivity.
    rewrite (simulationData_set_signed envelope this1).
    rewrite (simulationData_again _ _ _ Hd). cbn [fst snd].
    rewrite (simulationData_set_signed envelope this1).
    rewrite (simulationData_again _ _ _ Hd). reflexivity.
Qed.

(** X13.  What [fromJSON] returns is a fresh call: its method is the one
    of the options, whatever [method] the JSON carries; it holds the
    finalized transaction and the cached simulation data and nothing else,
    neither a draft nor a raw response nor a signed envelope; and its
    [simulate] option defaults to true.  Without a public key in the
    options it fails before it decodes anything. *)
Theorem fromJSON_fresh_copy (options0 : Opt.AssembledTransactionOptions) (json : JSON) :
  (forall method, fromJSON options0 (JSON_with_method method json) = fromJSON options0 json) /\
  (forall y,
     fromJSON options0 json = Return y ->
     options y = Opt.set_simulate (Some (default true (Opt.simulate options0))) options0 /\
     Opt.method (options y) = Opt.method options0 /\
     raw y = None /\ simulation y = None /\ signed y = None /\
     is_Some (built y) /\ cachePopulated y = true) /\
  (truthy_string (Opt.publicKey options0) = false ->
   fromJSON options0 json =
     Throw (Error_ "Public key not provided. Have you forgotten to set the `publicKey` in AssembledTransactionOptions?")).
Proof.
  split; [|split].
  - intros method. reflexivity.
  - intros y. unfold fromJSON, new_AssembledTransaction.
    destruct (negb _); [discriminate|].
    destruct (json_tx json); [|discriminate].
    destruct (TransactionBuilder_fromXDR _ _); [|discriminate].
    destruct (mapM _ _); [|discriminate].
    destruct (ScVal_fromXDR _); [|discriminate].
    destruct (SorobanTransactionData_fromXDR _); [|discriminate].
    intros H; injection H as <-. cbn. repeat split; eauto.
  - intros Hpk. unfold fromJSON, new_AssembledTransaction. now rewrite Hpk.
Qed.

(** X14.  Whatever copy [fromJSON] returns, for whatever options of the
    reader, from what [toJSON] returned, it answers the queries of the
    multi-party workflow as the original does: the same addresses await a
    signature, [isReadCall] is the same, and serializing the copy gives the
    JSON it was read from, with the method of the copy's options.  Assumes
    the codec gives the four values it is handed back unchanged. *)
Theorem toJSON_fromJSON_stable (x : AssembledTransaction) (options0 : Opt.AssembledTransactionOptions)
    tx d x1 :
  built x = Some tx ->
  simulationData x = (Return d, x1) ->
  TransactionBuilder_fromXDR (Tx_toXDR tx) (Opt.networkPassphrase options0) = Some tx ->
  Forall (fun a => SorobanAuthorizationEntry_fromXDR (SorobanAuthorizationEntry_toXDR a) = Some a)
         (Api.auth (fst d)) ->
  ScVal_fromXDR (ScVal_toXDR (Api.retval (fst d))) = Some (Api.retval (fst d)) ->
  SorobanTransactionData_fromXDR (SorobanTransactionData_toXDR (snd d)) = Some (snd d) ->
  exists json,
    toJSON x = (Return json, x1) /\
    forall y,
      fromJSON options0 json = Return y ->
      toJSON y = (Return (JSON_with_method (Opt.method options0) json), y) /\
      built y = Some tx /\
      simulationData y = (Return d, y) /\
      (forall includeAlreadySigned,
         needsNonInvokerSigningBy includeAlreadySigned y
         = needsNonInvokerSigningBy includeAlreadySigned x) /\
      fst (isReadCall y) = fst (isReadCall x).
Proof.
  intros Hb Hd Htx Hauth Hret Hdata.
  eexists. split; [apply (toJSON_returns _ _ _ Hd)|].
  intros y. unfold fromJSON, new_AssembledTransaction.
  destruct (negb (truthy_string (Opt.publicKey options0))); [discriminate|].
  rewrite Hb.
  cbn [json_tx json_simulationResult json_auth json_retval
       json_simulationTransactionData fmap option_fmap option_map].
  rewrite Htx, (mapM_decode_encode _ _ _ Hauth), Hret, Hdata.
  assert (Hr : {| Api.auth := Api.auth (fst d); Api.retval := Api.retval (fst d) |} = fst d)
    by now destruct (fst d).
  rewrite Hr. intros H; injection H as <-.
  match goal with |- toJSON ?copy = _ /\ _ => set (y := copy) end.
  assert (Hdy : simulationData y = (Return d, y)).
  { rewrite (surjective_pairing d) at 1. now apply simulationData_cached. }
  split; [|split; [|split; [|split]]].
  - rewrite (toJSON_returns _ _ _ Hdy). unfold JSON_with_method.
    cbn [json_tx json_simulationResult json_simulationTransactionData].
    rewrite ?Hb. reflexivity.
  - reflexivity.
  - exact Hdy.
  - intros b. unfold needsNonInvokerSigningBy. cbn. rewrite ?Hb. reflexivity.
  - now rewrite (isReadCall_returns _ _ _ Hdy), (isReadCall_returns _ _ _ Hd).
Qed.

End Transport.

Section Construction.
Context {collaborators : Collaborators} {network : Network}.

(** X15.  [build] without a public key fails before anything leaves the
    process.  When it returns, the first thing it did was to ask for the
    account of the public key; the call it returns has the normalized
    options and no signed envelope; with [simulate: false] it is the draft
    and nothing was simulated, and otherwise it is finalized and holds the
    response of a simulation. *)
Theorem build_returns fuel (opts : Opt.AssembledTransactionOptions) (w : World) :
  let publicKey := Opt.publicKey opts in
  (truthy_string publicKey = false ->
   build fuel opts w =
     (Throw (Error_ "Public key not provided. Have you forgotten to set the `publicKey` in AssembledTransactionOptions?"),
      w)) /\
  (forall tx w',
     build fuel opts w = (Return tx, w') ->
     truthy_string publicKey = true /\
     exists account events,
       getAccount w publicKey = Answered account /\
       w' = (w ++ EvGetAccount publicKey :: events)%list /\
       options tx = Opt.set_simulate (Some (default true (Opt.simulate opts))) opts /\
       signed tx = None /\
       (Opt.simulate opts = Some false -> tx = drafted opts account /\ events = []) /\
       (Opt.simulate opts <> Some false ->
        is_Some (built tx) /\ is_Some (simulation tx) /\ cachePopulated tx = false)).
Proof.
  intros publicKey. subst publicKey. split.
  - intros Hpk. unfold build. now rewrite Hpk.
  - intros tx w'. unfold build, new_AssembledTransaction.
    destruct (truthy_string (Opt.publicKey opts)); cbn [negb]; [|discriminate].
    run_monad.
    destruct (getAccount w (Opt.publicKey opts)) as [account|reason]; [|discriminate].
    change (set_raw _ _) with (drafted opts account).
    replace (default false (Opt.simulate (options (drafted opts account))))
      with (default true (Opt.simulate opts)) by (unfold drafted; cbn; now destruct (Opt.simulate opts) as [[|]|]).
    destruct (Opt.simulate opts) as [[|]|] eqn:Hsim; cbn [default from_option id]; cbv beta iota.
    2:{ intros H; injection H as <- <-.
        split; [reflexivity|]. exists account, [].
        do 4 (split; [unfold drafted; cbn; now rewrite ?Hsim|]).
        split; [intros _; split; reflexivity|]. intros Hne. now elim Hne. }
    all: match goal with
         | |- context [simulate ?n None ?st] =>
           destruct (simulate n None st) as [[[]|e|] [t w1]] eqn:Hrun
         end; cbn [fst snd]; intros H; [injection H as <- <-|discriminate H..];
      split; [reflexivity|];
      destruct (simulate_grows _ _ _ _ _ _ _ Hrun) as [events ->];
      apply simulate_keeps in Hrun as (Ho & Hs & Hr);
      destruct (Hr eq_refl) as (Hb & Hsm & Hc);
      exists account, events; rewrite <- app_assoc;
      (split; [reflexivity|]); (split; [reflexivity|]);
      (split; [rewrite Ho; unfold drafted; cbn; now rewrite ?Hsim|]);
      (split; [exact Hs|]); (split; [discriminate|]); intros _; auto.
Qed.

End Construction.

Section EnvelopeRoundTrip.
Context {collaborators : Collaborators} {envelopeCodec : EnvelopeCodec}.

(** X16.  A finalized call whose first operation invokes a contract can
    be handed on as an envelope: [toXDR] returns, and whatever copy
    [fromXDR] returns from that envelope holds the same finalized
    transaction, has the name of the invoked function as its method, and
    lists the same addresses as awaiting a signature.  The simulation data
    does not travel: the copy has no draft, no response and no signed
    envelope, and [simulationData] on it fails with [NotYetSimulated].
    Assumes the codec gives the envelope of this transaction back
    unchanged. *)
Theorem toXDR_fromXDR_roundtrip (x : AssembledTransaction) (options0 : Opt.AssembledTransactionOptions)
    tx invokeContractArgs auth :
  built x = Some tx ->
  Transaction.operations tx !! 0%nat
  = Some (InvokeHostFunction (hostFunctionTypeInvokeContract invokeContractArgs) auth) ->
  TransactionEnvelope_fromXDR (TransactionEnvelope_toXDR (Tx_toEnvelope tx))
  = Some (Tx_toEnvelope tx) ->
  TransactionBuilder_fromEnvelope (Tx_toEnvelope tx) (Opt.networkPassphrase options0) = Some tx ->
  exists encodedXDR,
    toXDR x = Return encodedXDR /\
    forall y,
      fromXDR options0 encodedXDR = Return y ->
      built y = Some tx /\
      Opt.method (options y) = functionName invokeContractArgs /\
      (forall includeAlreadySigned,
         needsNonInvokerSigningBy includeAlreadySigned y
         = needsNonInvokerSigningBy includeAlreadySigned x) /\
      raw y = None /\ simulation y = None /\ signed y = None /\
      simulationData y = (Throw NotYetSimulated, y).
Proof.
  intros Hb Hop Hdecode Hbuild.
  exists (TransactionEnvelope_toXDR (Tx_toEnvelope tx)).
  split; [unfold toXDR; now rewrite Hb|].
  intros y. unfold fromXDR, new_AssembledTransaction. rewrite Hdecode, Hbuild, Hop.
  cbn [Opt_with_method Opt.publicKey].
  destruct (negb (truthy_string (Opt.publicKey options0))); [discriminate|].
  intros H; injection H as <-.
  cbn [built set_built raw simulation signed options Opt.method Opt.set_simulate].
  repeat split.
  intros b. unfold needsNonInvokerSigningBy. cbn [built set_built]. now rewrite Hb.
Qed.

(** X17.  Whatever [fromXDR] returns is a call around an envelope whose
    first operation invokes a contract, named after the function invoked,
    with nothing but the options and the finalized transaction in it.  An
    envelope with no operation, or whose first operation is not an
    invocation of a host function (that of a restore transaction, say), is
    refused with the plain error about the method; one whose first operation
    invokes another host function than a contract (creating a contract,
    uploading code) is refused with the plain error about the method name.
    Both refusals come before the options are looked at. *)
Theorem fromXDR_needs_invocation (options0 : Opt.AssembledTransactionOptions) (encodedXDR : string) :
  (forall y,
     fromXDR options0 encodedXDR = Return y ->
     exists envelope tx invokeContractArgs auth,
       TransactionEnvelope_fromXDR encodedXDR = Some envelope /\
       TransactionBuilder_fromEnvelope envelope (Opt.networkPassphrase options0) = Some tx /\
       Transaction.operations tx !! 0%nat
       = Some (InvokeHostFunction (hostFunctionTypeInvokeContract invokeContractArgs) auth) /\
       options y = Opt.set_simulate (Some (default true (Opt.simulate options0)))
                     (Opt_with_method (functionName invokeContractArgs) options0) /\
       built y = Some tx /\
       raw y = None /\ simulation y = None /\ simulationResult y = None /\
       simulationTransactionData y = None /\ signed y = None) /\
  (forall envelope tx,
     TransactionEnvelope_fromXDR encodedXDR = Some envelope ->
     TransactionBuilder_fromEnvelope envelope (Opt.networkPassphrase options0) = Some tx ->
     (forall func auth,
        Transaction.operations tx !! 0%nat <> Some (InvokeHostFunction func auth)) ->
     fromXDR options0 encodedXDR =
       Throw (Error_ "Could not extract the method from the transaction envelope.")) /\
  (forall envelope tx func auth,
     TransactionEnvelope_fromXDR encodedXDR = Some envelope ->
     TransactionBuilder_fromEnvelope envelope (Opt.networkPassphrase options0) = Some tx ->
     Transaction.operations tx !! 0%nat = Some (InvokeHostFunction func auth) ->
     (forall invokeContractArgs, func <> hostFunctionTypeInvokeContract invokeContractArgs) ->
     fromXDR options0 encodedXDR =
       Throw (Error_ "Could not extract the method name from the transaction envelope.")).
Proof.
  split; [|split].
  - intros y. unfold fromXDR, new_AssembledTransaction.
    destruct (TransactionEnvelope_fromXDR encodedXDR) as [envelope|]; [|discriminate].
    destruct (TransactionBuilder_fromEnvelope _ _) as [tx|] eqn:Htx; [|discriminate].
    destruct (Transaction.operations tx !! 0%nat) as [[[f| | |] auth| |]|] eqn:Hop;
      try discriminate.
    cbn [Opt_with_method Opt.publicKey].
    destruct (truthy_string (Opt.publicKey options0)); cbn [negb]; [|discriminate].
    intros H; injection H as <-. exists envelope, tx, f, auth. repeat split; assumption.
  - intros envelope tx He Ht Hop. unfold fromXDR. rewrite He, Ht.
    destruct (Transaction.operations tx !! 0%nat) as [[func auth| |]|]; try reflexivity.
    now elim (Hop func auth).
  - intros envelope tx func auth He Ht Hop Hfunc. unfold fromXDR. rewrite He, Ht, Hop.
    destruct func as [f| | |]; try reflexivity. now elim (Hfunc f).
Qed.

End EnvelopeRoundTrip.

Section DecodedResult.
Context {errorRendering : ErrorRendering} {T : Type}.

Lemma simulationData_fst_throws this e :
  fst (simulationData this) = Throw e -> simulationData this = (Throw e, this).
Proof.
  destruct (simulationData this) as [o t] eqn:Hd. cbn. intros ->.
  now rewrite (simulationData_throws _ _ _ Hd) in *.
Qed.

(** X18.  [result] returns what the decoder makes of the return value in
    [simulationData], leaving the data cached.  When [simulationData] or
    the decoder throws, the thrown value is thrown on as it is, unless all
    of this holds: it has a text, the text carries a contract error code,
    and the code has an entry in [errorTypes]; then the entry is returned as
    a value and nothing is thrown.  With no [errorTypes] every failure is
    thrown on.  A failed simulation is the case this is for: the error text
    of the response is searched for the code. *)
Theorem result_outcome (o : ResultOptions T) (this : AssembledTransaction) :
  (forall d this1 v,
     simulationData this = (Return d, this1) ->
     parseResultXdr o (Api.retval (fst d)) = Answered v ->
     result o this = (Return (inl v), this1) /\ result o this1 = (Return (inl v), this1)) /\
  (forall e,
     fst (simulationData this) = Throw e ->
     result o this = (match contractErrorOf o e with
                      | Some err => Return (inr err)
                      | None => Throw e
                      end, this)) /\
  (forall d this1 reason,
     simulationData this = (Return d, this1) ->
     parseResultXdr o (Api.retval (fst d)) = Declined reason ->
     result o this = (match contractErrorOf o (Rejected reason) with
                      | Some err => Return (inr err)
                      | None => Throw (Rejected reason)
                      end, this1)) /\
  (forall e, errorTypes o = None -> contractErrorOf o e = None) /\
  (forall e err,
     contractErrorOf o e = Some err <->
     exists text table capture i,
       thrownText e = Some text /\ errorTypes o = Some table /\
       contractErrorPattern_match text = Some capture /\
       parseInt10 capture = Some i /\ table i = Some err) /\
  (forall error err,
     cachePopulated this = false ->
     simulation this = Some (Api.SimulateTransactionErrorResponse error) ->
     contractErrorOf o (SimulationFailed error) = Some err ->
     result o this = (Return (inr err), this)).
Proof.
  assert (Hcatch : forall e this1,
            resultCatch o e this1 = (match contractErrorOf o e with
                                     | Some err => Return (inr err)
                                     | None => Throw e
                                     end, this1)).
  { intros e this1. unfold resultCatch, contractErrorOf.
    destruct (thrownText e) as [text|]; [|reflexivity].
    now destruct (parseError o text). }
  assert (Hthrows : forall e,
            fst (simulationData this) = Throw e ->
            result o this = (match contractErrorOf o e with
                             | Some err => Return (inr err)
                             | None => Throw e
                             end, this)).
  { intros e He. apply simulationData_fst_throws in He.
    unfold result. rewrite He. apply Hcatch. }
  split; [|split; [exact Hthrows|split; [|split; [|split]]]].
  - intros d this1 v Hd Hv.
    pose proof (simulationData_again _ _ _ Hd) as Hd1.
    unfold result. now rewrite Hd, !Hd1, Hv.
  - intros d this1 reason Hd Hv.
    pose proof (simulationData_again _ _ _ Hd) as Hd1.
    unfold result. rewrite Hd, Hd1, Hv. apply Hcatch.
  - intros e Hnone. unfold contractErrorOf, parseError. rewrite Hnone.
    now destruct (thrownText e).
  - intros e err. unfold contractErrorOf, parseError. split.
    + destruct (thrownText e) as [text|]; [|discriminate].
      destruct (errorTypes o) as [table|]; [|discriminate].
      destruct (contractErrorPattern_match text) as [capture|] eqn:Hm; [|discriminate].
      destruct (parseInt10 capture) as [i|] eqn:Hi; [|discriminate].
      intros Hf. exists text, table, capture, i. auto.
    + intros (text & table & capture & i & -> & -> & -> & -> & ->). reflexivity.
  - intros error err Hcache Hsim Herr.
    rewrite (Hthrows (SimulationFailed error)); [now rewrite Herr|].
    rewrite (simulationData_uncached _ Hcache), Hsim. reflexivity.
Qed.

End DecodedResult.

(** * The lifecycle on the worked example *)

(** Without a restore the archived state shows in the data: one request
    left the process, the call holds the server's restore-required answer
    to it, and [simulationData] fails with [ExpiredState]. *)
Lemma simulate_then_simulationData_witness :
  let run :=
    @simulate exampleCollaborators (exampleNetwork archivedScript)
      1 None (draftCall None, []) in
  exists tx,
    snd (snd run) = [EvSimulateTransaction tx] /\
    @simulateTransaction (exampleNetwork archivedScript) [] tx
    = Answered (Api.SimulateTransactionRestoreResponse archivedPreamble) /\
    simulation (fst (snd run)) = Some (Api.SimulateTransactionRestoreResponse archivedPreamble) /\
    simulationData (fst (snd run)) = (Throw ExpiredState, fst (snd run)).
Proof.
  intros run.
  assert (Hrun : run = (Return tt, (fst (snd run), snd (snd run)))).
  { etransitivity; [apply run_eta|].
    apply (f_equal2 pair); [vm_compute; reflexivity|reflexivity]. }
  destruct (simulate_then_simulationData (collaborators := exampleCollaborators)
              (network := exampleNetwork archivedScript)
              1 None (draftCall None) [] _ _ Hrun)
    as (tx & events & sim & Hw & Hanswer & Hsim & _ & _ & _ & Hd & _ & _ & Hplain).
  destruct (Hplain eq_refl) as (Hevents & _). rewrite Hevents in Hw, Hanswer.
  assert (Hsim' : simulation (fst (snd run))
                  = Some (Api.SimulateTransactionRestoreResponse archivedPreamble))
    by (vm_compute; reflexivity).
  assert (Heq : Some sim = Some (Api.SimulateTransactionRestoreResponse archivedPreamble))
    by (etransitivity; [symmetry; exact Hsim|exact Hsim']).
  injection Heq as Heq. rewrite Heq in Hanswer, Hd.
  exists tx. split; [exact Hw|]. split; [exact Hanswer|]. split; [exact Hsim'|exact Hd].
Defined.

(** Bob's copy, re-simulated while the server is unreachable, has lost the
    simulation data it came with. *)
Lemma simulate_rejected_clears_cache_witness :
  fst (@simulate exampleCollaborators offlineNetwork 1 None (bobCopy, []))
  = Throw (Rejected "offline") /\
  fst (simulationData bobCopy) <> Throw NotYetSimulated /\
  simulationData (clearCache bobCopy) = (Throw NotYetSimulated, clearCache bobCopy).
Proof.
  match eval vm_compute in (built bobCopy) with
  | Some ?tx => assert (Hb : built bobCopy = Some tx) by (vm_compute; reflexivity)
  end.
  destruct (simulate_rejected_clears_cache (collaborators := exampleCollaborators)
              (network := offlineNetwork) 0 None bobCopy [] _ "offline" Hb eq_refl)
    as (Hrun & _ & Hnone & _).
  split; [exact (f_equal fst Hrun)|].
  split; [vm_compute; discriminate|].
  apply Hnone. vm_compute. reflexivity.
Defined.

(** Alice's call simulates the same with its draft taken away. *)
Lemma simulate_ignores_draft_witness :
  let run :=
    @simulate exampleCollaborators (exampleNetwork swapScript) 1 None (swapCall, []) in
  let run' :=
    @simulate exampleCollaborators (exampleNetwork swapScript) 1 None (set_raw None swapCall, []) in
  fst run' = fst run /\ snd (snd run') = snd (snd run) /\
  built (fst (snd run')) = built (fst (snd run)) /\
  simulation (fst (snd run')) = simulation (fst (snd run)).
Proof.
  match eval vm_compute in (built swapCall) with
  | Some ?tx => assert (Hb : built swapCall = Some tx) by (vm_compute; reflexivity)
  end.
  exact (simulate_ignores_draft (collaborators := exampleCollaborators)
           (network := exampleNetwork swapScript) 1 None swapCall [] _ None Hb).
Defined.

(** The restore in the archived scenario: after the account query, the
    simulation of the restore transaction and its submission, the
    transaction simulated first is simulated again. *)
Lemma simulate_resimulates_the_finalized_witness :
  let run :=
    @simulate exampleCollaborators (exampleNetwork archivedScript)
      2 (Some true) (draftCall None, []) in
  exists tx account envelope rest,
    @getAccount (exampleNetwork archivedScript) [EvSimulateTransaction tx] (Some ALICE)
    = Answered account /\
    snd (snd run) =
      ([EvSimulateTransaction tx; EvGetAccount (Some ALICE);
        EvSimulateTransaction
          (@restoreTransaction exampleCollaborators (options (draftCall None))
             archivedPreamble account);
        EvSentTransactionInit envelope] ++ EvSimulateTransaction tx :: rest)%list.
Proof.
  intros run.
  assert (Hrun : run = (Return tt, (fst (snd run), snd (snd run)))).
  { etransitivity; [apply run_eta|].
    apply (f_equal2 pair); [vm_compute; reflexivity|reflexivity]. }
  assert (Hb : built (draftCall None) = None) by (vm_compute; reflexivity).
  match eval vm_compute in (raw (draftCall None)) with
  | Some ?draft =>
    assert (Hraw : raw (draftCall None) = Some draft) by (vm_compute; reflexivity);
    assert (Hens : @ensureBuilt exampleCollaborators (draftCall None)
                   = Some (exampleBuild draft,
                           set_built (Some (exampleBuild draft)) (draftCall None)))
      by (unfold ensureBuilt; rewrite Hb, Hraw; reflexivity);
    exists (exampleBuild draft)
  end.
  pose proof (simulate_resimulates_the_finalized (collaborators := exampleCollaborators)
                (network := exampleNetwork archivedScript)
                0 (Some true) (draftCall None) [] _ _ archivedPreamble _ _
                Hens eq_refl eq_refl Hrun) as H.
  cbv zeta in H. destruct H as (account & envelope & Hacc & _ & _ & _ & (rest & Hw) & _).
  exists account, envelope, rest. split; [exact Hacc|exact Hw].
Defined.

(** Alice has signed; a new simulation leaves her envelope in place. *)
Lemma simulate_keeps_signed_envelope_witness :
  let run :=
    @simulate exampleCollaborators (exampleNetwork swapScript) 1 None (aliceSigned, []) in
  is_Some (signed aliceSigned) /\ signed (fst (snd run)) = signed aliceSigned.
Proof.
  intros run.
  match eval vm_compute in (signed aliceSigned) with
  | Some ?envelope =>
    assert (Hs : signed aliceSigned = Some envelope) by (vm_compute; reflexivity)
  end.
  destruct (simulate_keeps_signed_envelope (collaborators := exampleCollaborators)
              (network := exampleNetwork swapScript)
              1 None aliceSigned [] _ _ _ _ Hs (run_eta run)) as (Hs' & _).
  split; [rewrite Hs; eauto|]. now rewrite Hs.
Defined.

(** Alice signs her copy: options, draft and response stay. *)
Lemma sign_frame_witness :
  let this' := snd (@sign exampleCollaborators None None aliceCopy) in
  options this' = options aliceCopy /\ raw this' = raw aliceCopy /\
  simulation this' = simulation aliceCopy.
Proof.
  intros this'.
  destruct (sign_frame (collaborators := exampleCollaborators) None None aliceCopy _ _
              (surjective_pairing _)) as (Ho & Hr & Hsim & _).
  auto.
Defined.

(** Bob cannot sign the envelope Alice handed him before he simulates. *)
Lemma sign_needs_simulation_data_witness :
  exists e',
    @sign exampleCollaborators None (Some (walletOf BOB)) envelopeCopy = (Throw e', envelopeCopy) /\
    (default false None = false -> e' = NotYetSimulated).
Proof.
  match eval vm_compute in (built envelopeCopy) with
  | Some ?tx => assert (Hb : built envelopeCopy = Some tx) by (vm_compute; reflexivity)
  end.
  assert (Hd : fst (simulationData envelopeCopy) = Throw NotYetSimulated)
    by (vm_compute; reflexivity).
  exact (sign_needs_simulation_data (collaborators := exampleCollaborators)
           None (Some (walletOf BOB)) envelopeCopy _ _ Hb Hd).
Defined.

Lemma exampleAuthorizeEntry_signs : signsEntries exampleAuthorizeEntry.
Proof.
  intros entry signer validUntil networkPassphrase authorized c Hanswer Hc.
  unfold exampleAuthorizeEntry in Hanswer. rewrite Hc in Hanswer.
  destruct (signer _) as [signatureBytes|]; [|discriminate].
  injection Hanswer as <-. eexists. split; [reflexivity|]. split; [reflexivity|]. discriminate.
Qed.

(** Once Bob has signed, only the token contract is left. *)
Lemma signAuthEntries_signer_drops_out_witness :
  let run :=
    @signAuthEntries exampleCollaborators (exampleNetwork swapScript)
      None None None None (bobCopy, []) in
  exists ids',
    needsNonInvokerSigningBy false (fst (snd run)) = Return ids' /\
    forall a, a ∈ ids' <-> a ∈ [BOB; TOKEN_A] /\ Some a <> Some BOB.
Proof.
  intros run.
  assert (Hcodec : Forall (@credentialsSurviveCodec exampleCollaborators) (authEntriesOf bobCopy))
    by forall_by_computation.
  assert (Hn : needsNonInvokerSigningBy false bobCopy = Return [BOB; TOKEN_A])
    by (vm_compute; reflexivity).
  assert (Hrun : run = (Return tt, (fst (snd run), snd (snd run)))).
  { etransitivity; [apply run_eta|].
    apply (f_equal2 pair); [vm_compute; reflexivity|reflexivity]. }
  exact (signAuthEntries_signer_drops_out (collaborators := exampleCollaborators)
           (network := exampleNetwork swapScript)
           None None None None bobCopy [] _ _ _ exampleAuthorizeEntry_signs Hcodec Hn Hrun).
Defined.

(** Alice's call travels as an envelope: Bob's copy has the transaction
    and the method, and no simulation data. *)
Lemma toXDR_fromXDR_roundtrip_witness :
  exists encodedXDR y,
    @toXDR exampleEnvelopeCodec swapCall = Return encodedXDR /\
    @fromXDR exampleEnvelopeCodec (optionsOf BOB (Some (walletOf BOB)) None) encodedXDR = Return y /\
    built y = built swapCall /\
    Opt.method (options y) = "swap" /\
    simulationData y = (Throw NotYetSimulated, y).
Proof.
  match eval vm_compute in (built swapCall) with
  | Some ?tx =>
    assert (Hb : built swapCall = Some tx) by (vm_compute; reflexivity);
    match eval vm_compute in (Transaction.operations tx !! 0%nat) with
    | Some (InvokeHostFunction (hostFunctionTypeInvokeContract ?f) ?auth) =>
      assert (Hop : Transaction.operations tx !! 0%nat
                    = Some (InvokeHostFunction (hostFunctionTypeInvokeContract f) auth))
        by (vm_compute; reflexivity);
      assert (Hto' : @toXDR exampleEnvelopeCodec swapCall = Return (Wire.encodeTx tx))
        by (unfold toXDR; rewrite Hb; reflexivity);
      edestruct (toXDR_fromXDR_roundtrip (envelopeCodec := exampleEnvelopeCodec)
                   swapCall (optionsOf BOB (Some (walletOf BOB)) None) tx f auth Hb Hop)
        as (encodedXDR & Hto & Hfrom);
        [vm_compute; reflexivity|reflexivity|]
    end
  end.
  assert (Hx : Return (A := string) encodedXDR = Return (Wire.encodeTx _))
    by (etransitivity; [symmetry; exact Hto|exact Hto']).
  injection Hx as Hx.
  assert (Hreturns :
            match @fromXDR exampleEnvelopeCodec (optionsOf BOB (Some (walletOf BOB)) None)
                    encodedXDR with
            | Return _ => True
            | _ => False
            end)
    by (rewrite Hx; vm_compute; exact I).
  destruct (@fromXDR exampleEnvelopeCodec (optionsOf BOB (Some (walletOf BOB)) None) encodedXDR)
    as [y| |] eqn:Hy; [|destruct Hreturns..].
  destruct (Hfrom y eq_refl) as (Hby & Hm & _ & _ & _ & _ & Hd).
  exists encodedXDR, y. rewrite Hb.
  split; [exact Hto|]. split; [exact Hy|]. split; [exact Hby|].
  split; [exact Hm|exact Hd].
Defined.

(** Bob has signed; asked to sign again, the call answers that nothing
    awaits his signature, and stays as it is. *)
Lemma signAuthEntries_twice_refused_witness :
  let run :=
    @signAuthEntries exampleCollaborators (exampleNetwork swapScript)
      None None None None (bobCopy, []) in
  let again :=
    @signAuthEntries exampleCollaborators (exampleNetwork swapScript)
      None None None None (fst (snd run), snd (snd run)) in
  (fst again = Throw NoUnsignedNonInvokerAuthEntries \/ fst again = Throw NoSignatureNeeded) /\
  fst (snd again) = fst (snd run).
Proof.
  intros run.
  assert (Hcodec : Forall (@credentialsSurviveCodec exampleCollaborators) (authEntriesOf bobCopy))
    by forall_by_computation.
  assert (Hrun : run = (Return tt, (fst (snd run), snd (snd run)))).
  { etransitivity; [apply run_eta|].
    apply (f_equal2 pair); [vm_compute; reflexivity|reflexivity]. }
  exact (signAuthEntries_twice_refused (collaborators := exampleCollaborators)
           (network := exampleNetwork swapScript)
           None None None bobCopy [] _ _ BOB exampleAuthorizeEntry_signs Hcodec eq_refl Hrun
           None None).
Defined.

(** Bob's copy of Alice's call serializes to the JSON it was read from. *)
Lemma toJSON_fromJSON_stable_witness :
  exists json y,
    fst (@toJSON exampleCollaborators swapCall) = Return json /\
    @fromJSON exampleCollaborators (optionsOf BOB (Some (walletOf BOB)) None) json = Return y /\
    @toJSON exampleCollaborators y = (Return (JSON_with_method "swap" json), y) /\
    needsNonInvokerSigningBy false y = needsNonInvokerSigningBy false swapCall.
Proof.
  match eval vm_compute in (built swapCall) with
  | Some ?tx => assert (Hb : built swapCall = Some tx) by (vm_compute; reflexivity)
  end.
  edestruct (toJSON_fromJSON_stable (collaborators := exampleCollaborators)
               swapCall (optionsOf BOB (Some (walletOf BOB)) None))
    as (json & Hto & Hfrom).
  - exact Hb.
  - by_running.
  - vm_compute. reflexivity.
  - forall_by_computation.
  - vm_compute. reflexivity.
  - vm_compute. reflexivity.
  - assert (Hjson : Return json = fst (@toJSON exampleCollaborators swapCall))
      by exact (eq_sym (f_equal fst Hto)).
    assert (Hreturns :
              match @fromJSON exampleCollaborators (optionsOf BOB (Some (walletOf BOB)) None)
                      json with
              | Return _ => True
              | _ => False
              end).
    { vm_compute in Hjson. injection Hjson as Hjson. rewrite Hjson. vm_compute. exact I. }
    destruct (@fromJSON exampleCollaborators (optionsOf BOB (Some (walletOf BOB)) None) json)
      as [y| |] eqn:Hy; [|destruct Hreturns..].
    destruct (Hfrom y eq_refl) as (Hagain & _ & _ & Hneeds & _).
    exists json, y. split; [exact (f_equal fst Hto)|]. split; [exact Hy|].
    split; [exact Hagain|apply Hneeds].
Defined.

(** The further methods, run. *)

Example unsigned_call_is_not_sent :
  @send (exampleNetwork swapScript) (swapCall, [])
  = (Throw (Error_ "The transaction has not yet been signed. Run `sign` first, or use `signAndSend` instead."),
     (swapCall, [])).
Proof. reflexivity. Qed.

Example signed_call_is_submitted_as_it_is :
  let run :=
    @signAndSend exampleCollaborators (exampleNetwork swapScript) None None (aliceSigned, []) in
  fst run = Return {| getTransactionResponse := Some succeeded |} /\
  submissions (snd (snd run)) = 1%nat /\
  Some (snd (snd run)) = (fun envelope => [EvSentTransactionInit envelope]) <$> signed aliceSigned.
Proof. vm_compute. repeat split. Qed.

Example build_without_simulation :
  let run :=
    @build exampleCollaborators (exampleNetwork swapScript) 0
      (Opt.set_simulate (Some false) (optionsOf ALICE None None)) [] in
  snd run = [EvGetAccount (Some ALICE)] /\
  (built <$> (match fst run with Return tx => Some tx | _ => None end)) = Some None /\
  fst (@build exampleCollaborators (exampleNetwork swapScript) 0
         {| Opt.method := "swap"; Opt.args := None; Opt.contractId := SWAP;
            Opt.networkPassphrase := TESTNET; Opt.rpcUrl := "https://rpc.example";
            Opt.publicKey := None; Opt.fee := None; Opt.timeoutInSeconds := None;
            Opt.simulate := None; Opt.restore := None;
            Opt.signTransaction := None; Opt.signAuthEntry := None |} [])
  = Throw (Error_ "Public key not provided. Have you forgotten to set the `publicKey` in AssembledTransactionOptions?").
Proof. vm_compute. repeat split. Qed.

Example copies_hold_no_signature :
  is_Some (signed aliceSigned) /\
  (match @toJSON exampleCollaborators aliceSigned with
   | (Return json, _) =>
     match @fromJSON exampleCollaborators (optionsOf BOB None None) json with
     | Return copy => signed copy
     | _ => None
     end
   | _ => None
   end) = None /\
  signed envelopeCopy = None /\
  fst (@toJSON exampleCollaborators envelopeCopy) = Throw NotYetSimulated.
Proof. vm_compute. repeat split. eauto. Qed.

Example restore_envelope_is_refused :
  @fromXDR exampleEnvelopeCodec (optionsOf ALICE None None)
    (Wire.encodeTx
       (@restoreTransaction exampleCollaborators (optionsOf ALICE None None) archivedPreamble
          {| accountId := ALICE; sequenceNumber := 0 |}))
  = Throw (Error_ "Could not extract the method from the transaction envelope.") /\
  @toXDR exampleEnvelopeCodec blank
  = Throw (Error_ "Transaction has not yet been simulated; call `AssembledTransaction.simulate` first.").
Proof. vm_compute. split; reflexivity. Qed.

Example upload_envelope_is_refused :
  @fromXDR exampleEnvelopeCodec (optionsOf ALICE None None)
    (Wire.encodeTx
       {| Transaction.source := ALICE; Transaction.fee := "100"; Transaction.sequence := 1;
          Transaction.timeBounds := None;
          Transaction.operations :=
            [InvokeHostFunction (hostFunctionTypeUploadContractWasm "AGFzbQ==") None];
          Transaction.sorobanData := None; Transaction.signatures := [] |})
  = Throw (Error_ "Could not extract the method name from the transaction envelope.").
Proof. vm_compute. reflexivity. Qed.

(** After the restore the draft is for the account past the restore
    transaction, and it is not what [built] holds. *)
Example restored_call_has_a_new_draft :
  let run :=
    @simulate exampleCollaborators (exampleNetwork archivedScript)
      2 (Some true) (draftCall None, []) in
  fst run = Return tt /\
  (TransactionBuilder.source <$> raw (draftCall None))
  = Some {| accountId := ALICE; sequenceNumber := 0 |} /\
  (TransactionBuilder.source <$> raw (fst (snd run)))
  = Some {| accountId := ALICE; sequenceNumber := 2 |} /\
  (Transaction.sequence <$> built (fst (snd run))) = Some 1.
Proof. vm_compute. repeat split. Qed.

Example contract_error_is_a_result :
  fst (@result exampleRendering string swapResult failedCall)
  = Return (inr {| message := "price too low" |}) /\
  fst (@result exampleRendering string swapResult swapCall) = Return (inl "scvVoid") /\
  fst (@result exampleRendering string
         {| parseResultXdr := parseResultXdr swapResult; errorTypes := None |} failedCall)
  = Throw (SimulationFailed "HostError: Error(Contract, #3) in swap") /\
  fst (@result exampleRendering string swapResult envelopeCopy) = Throw NotYetSimulated.
Proof. vm_compute. repeat split. Qed.

